(** * Backup catalog and restore orchestrator

    A shallow embedding of [backend/modules/backups/services.py]:
    the path parser [_parse_blob_path], the catalog builder
    [list_repositories], the version lister [list_backup_versions], the
    link issuer [get_download_link] and the restore orchestrator
    [restore_to_azure_devops], followed by the properties checked
    against the specification.

    Conventions.  A Python [str] is a [string]; each character stands for
    one code point below 256.  Python integers are [Z], [None]-able values
    are [option]s or the [value] type, dictionaries built and read by key
    are association lists.  Calls that leave the process (object store,
    destination host), the clock and [print] go through the monad [M],
    which threads a log of events and may raise. *)

From Stdlib Require Import Strings.String Strings.Ascii Lists.List.
From Stdlib Require Import ZArith Arith Bool Lia.
From Stdlib Require Import Sorting.Sorted Sorting.Permutation.
From Stdlib Require Import Relations.Relation_Definitions Classes.RelationClasses.
Import ListNotations.

Local Open Scope list_scope.
Local Open Scope string_scope.

(** ** Python string primitives *)

Module Py.

(** [len(s) == 0] is the falsy case of a string. *)
Definition truthy (s : string) : bool :=
  match s with
  | EmptyString => false
  | String _ _ => true
  end.

(** [s.lstrip(c)] for a one-character set. *)
Fixpoint lstrip (c : ascii) (s : string) : string :=
  match s with
  | EmptyString => EmptyString
  | String a s' => if Ascii.eqb a c then lstrip c s' else s
  end.

(** [s.rstrip(c)] for a one-character set. *)
Fixpoint rstrip (c : ascii) (s : string) : string :=
  match s with
  | EmptyString => EmptyString
  | String a s' =>
      match rstrip c s' with
      | EmptyString => if Ascii.eqb a c then EmptyString else String a EmptyString
      | r => String a r
      end
  end.

(** [s.strip(c)]. *)
Definition strip (c : ascii) (s : string) : string := rstrip c (lstrip c s).

(** [s.split(c)]: the result always has at least one element, and empty
    segments are kept. *)
Fixpoint split (c : ascii) (s : string) : list string :=
  match s with
  | EmptyString => [EmptyString]
  | String a s' =>
      if Ascii.eqb a c then EmptyString :: split c s'
      else match split c s' with
           | w :: ws => String a w :: ws
           | [] => [String a EmptyString]
           end
  end.

(** [s.split(c, maxsplit)]: at most [maxsplit] cuts, from the left. *)
Fixpoint split_max (c : ascii) (s : string) (maxsplit : nat) {struct s}
  : list string :=
  match maxsplit with
  | O => [s]
  | S k =>
      match s with
      | EmptyString => [EmptyString]
      | String a s' =>
          if Ascii.eqb a c then EmptyString :: split_max c s' k
          else match split_max c s' maxsplit with
               | w :: ws => String a w :: ws
               | [] => [String a EmptyString]
               end
      end
  end.

(** [s.rsplit(c, 1)]: one cut at the last occurrence of [c], or [[s]]
    when [c] does not occur. *)
Fixpoint rsplit_once (c : ascii) (s : string) : list string :=
  match s with
  | EmptyString => [EmptyString]
  | String a s' =>
      match rsplit_once c s' with
      | [l; r] => [String a l; r]
      | _ => if Ascii.eqb a c then [EmptyString; s'] else [s]
      end
  end.

(** [c in s]. *)
Fixpoint contains (c : ascii) (s : string) : bool :=
  match s with
  | EmptyString => false
  | String a s' => Ascii.eqb a c || contains c s'
  end.

(** [sep.join(parts)]. *)
Fixpoint join (sep : string) (parts : list string) : string :=
  match parts with
  | [] => EmptyString
  | [p] => p
  | p :: ps => p ++ sep ++ join sep ps
  end.

(** [s.startswith(p)]. *)
Definition startswith (s p : string) : bool := String.prefix p s.

(** [s.endswith(p)]. *)
Definition endswith (s p : string) : bool :=
  let n := String.length s in
  let m := String.length p in
  (m <=? n)%nat && String.eqb (substring (n - m) m s) p.

(** [s.replace(old, new)] for a non-empty [old]: every occurrence of
    [old], scanning from the left and not overlapping, is replaced.
    [skip] counts the characters of a matched occurrence still to be
    dropped. *)
Fixpoint replace_from (old new : string) (s : string) (skip : nat) : string :=
  match s with
  | EmptyString => EmptyString
  | String a s' =>
      match skip with
      | S k => replace_from old new s' k
      | O =>
          if String.prefix old s
          then new ++ replace_from old new s' (String.length old - 1)
          else String a (replace_from old new s' 0)
      end
  end.

Definition replace (s old new : string) : string := replace_from old new s 0.

(** [s[:n]]. *)
Definition slice_to (n : nat) (s : string) : string := substring 0 n s.

(** [s.lower()] on the characters modelled: A-Z and the upper-case
    letters of Latin-1. *)
Definition lower_char (a : ascii) : ascii :=
  let n := nat_of_ascii a in
  if ((65 <=? n) && (n <=? 90))%nat then ascii_of_nat (n + 32)
  else if ((192 <=? n) && (n <=? 222) && negb (n =? 215))%nat
       then ascii_of_nat (n + 32)
       else a.

Fixpoint lower (s : string) : string :=
  match s with
  | EmptyString => EmptyString
  | String a s' => String (lower_char a) (lower s')
  end.

End Py.

(** ** Exceptions *)

(** An exception is represented by its message, [str(e)]; only
    exceptions deriving from [Exception] are modelled. *)
Definition exn := string.

Inductive Exc (A : Type) : Type :=
| Ok (a : A)
| Raise (e : exn).
Arguments Ok {A} a.
Arguments Raise {A} e.

(** ** Values and dictionaries *)

(** The values stored in the dictionary returned by the parser. *)
Inductive value : Type :=
| VNone
| VStr (s : string).

(** Formatting of a value inside an f-string. *)
Definition fmt (v : value) : string :=
  match v with
  | VNone => "None"
  | VStr s => s
  end.

(** Truth value in a condition. *)
Definition value_truthy (v : value) : bool :=
  match v with
  | VNone => false
  | VStr s => Py.truthy s
  end.

Definition dict := list (string * value).

Fixpoint dict_lookup (d : dict) (k : string) : option value :=
  match d with
  | [] => None
  | (k', v) :: d' => if String.eqb k' k then Some v else dict_lookup d' k
  end.

(** [d[k]]: raises [KeyError] when the key is absent. *)
Definition getitem (d : dict) (k : string) : Exc value :=
  match dict_lookup d k with
  | Some v => Ok v
  | None => Raise ("'" ++ k ++ "'")
  end.

(** [d.get(k, default)]: the default is used only when the key is
    absent; a key bound to [None] yields [None]. *)
Definition dict_get (d : dict) (k : string) (default : value) : value :=
  match dict_lookup d k with
  | Some v => v
  | None => default
  end.

(** ** Process environment *)

(** [os.environ]. *)
Definition Environ := string -> option string.

Definition getenv (env : Environ) (name : string) : option string := env name.

Definition getenv_default (env : Environ) (name default : string) : string :=
  match env name with
  | Some v => v
  | None => default
  end.

(** [if x:] on the result of [os.getenv(name)]. *)
Definition opt_truthy (o : option string) : bool :=
  match o with
  | Some s => Py.truthy s
  | None => false
  end.

(** Module constant [MOCK_MODE]. *)
Definition MOCK_MODE (env : Environ) : bool :=
  String.eqb (Py.lower (getenv_default env "DJANGO_BACKUPS_MOCK" "")) "true".

(** ** Path parser *)

(** The configured prefix, [os.getenv("AZURE_STORAGE_PREFIX", "").strip("/")]. *)
Definition storage_prefix (env : Environ) : string :=
  Py.strip "/" (getenv_default env "AZURE_STORAGE_PREFIX" "").

(** Lines 54-56: drop the first segment when it is the configured prefix. *)
Definition skip_prefix (prefix : string) (parts : list string) : list string :=
  if Py.truthy prefix && String.eqb (nth 0 parts "") prefix
  then skipn 1 parts
  else parts.

(** Lines 72-81: the date carried by the file name. *)
Definition extract_date (filename : string) : value :=
  if Py.endswith filename ".zip" then
    let date_part := Py.replace filename ".zip" "" in
    if (10 <=? String.length date_part)%nat
    then VStr (Py.slice_to 10 date_part)
    else VNone
  else VNone.

(** Lines 66-70: repository name and file name. *)
Definition split_repo_filename (repo_with_date : string) : string * string :=
  if Py.contains "/" repo_with_date then
    match Py.rsplit_once "/" repo_with_date with
    | [repo; filename] => (repo, filename)
    | _ => (repo_with_date, "")
    end
  else (repo_with_date, "").

Definition _parse_blob_path (env : Environ) (blob_name : string) : option dict :=
  let parts := Py.split "/" (Py.strip "/" blob_name) in
  if (List.length parts <? 4)%nat then None else
  let prefix := storage_prefix env in
  let parts := skip_prefix prefix parts in
  if (List.length parts <? 3)%nat then None else
  let org := nth 0 parts "" in
  let project := nth 1 parts "" in
  let repo_with_date := Py.join "/" (skipn 2 parts) in
  let '(repo, filename) := split_repo_filename repo_with_date in
  let date_str := extract_date filename in
  Some [ ("org", VStr org);
         ("project", VStr project);
         ("repo", VStr repo);
         ("date_str", date_str);
         ("blob_name", VStr blob_name) ].

(** The segments of a key that are left once the configured prefix
    segment is removed. *)
Definition non_prefix_segments (env : Environ) (blob_name : string) : list string :=
  skip_prefix (storage_prefix env) (Py.split "/" (Py.strip "/" blob_name)).

(** ** Dates and times

    The part of Python's [datetime] module the service relies on.
    Fields are integers; a [datetime] produced by the library satisfies
    [valid]. *)

Module PyTime.

Local Open Scope Z_scope.

Record datetime : Type := mk_datetime {
  year : Z;
  month : Z;
  day : Z;
  hour : Z;
  minute : Z;
  second : Z;
  microsecond : Z;
  (** [None] for a naive value, otherwise the UTC offset in minutes. *)
  utcoffset : option Z
}.

Definition is_leap (y : Z) : bool :=
  ((y mod 4 =? 0) && negb (y mod 100 =? 0)) || (y mod 400 =? 0).

Definition days_in_month (y m : Z) : Z :=
  if m =? 2 then (if is_leap y then 29 else 28)
  else if (m =? 4) || (m =? 6) || (m =? 9) || (m =? 11) then 30
  else 31.

Definition valid_date (y m d : Z) : bool :=
  (1 <=? y) && (y <=? 9999) && (1 <=? m) && (m <=? 12)
  && (1 <=? d) && (d <=? days_in_month y m).

Definition valid (t : datetime) : bool :=
  valid_date (year t) (month t) (day t)
  && (0 <=? hour t) && (hour t <=? 23)
  && (0 <=? minute t) && (minute t <=? 59)
  && (0 <=? second t) && (second t <=? 59)
  && (0 <=? microsecond t) && (microsecond t <=? 999999).

Definition with_date (t : datetime) (y m d : Z) : datetime :=
  mk_datetime y m d (hour t) (minute t) (second t) (microsecond t) (utcoffset t).

Definition overflow : exn := "date value out of range".

(** [t - timedelta(days=1)]. *)
Definition pred_day (t : datetime) : Exc datetime :=
  if 1 <? day t then Ok (with_date t (year t) (month t) (day t - 1))
  else if 1 <? month t
       then Ok (with_date t (year t) (month t - 1) (days_in_month (year t) (month t - 1)))
       else if 1 <? year t then Ok (with_date t (year t - 1) 12 31)
            else Raise overflow.

(** [t + timedelta(days=1)]. *)
Definition succ_day (t : datetime) : Exc datetime :=
  if day t <? days_in_month (year t) (month t)
  then Ok (with_date t (year t) (month t) (day t + 1))
  else if month t <? 12 then Ok (with_date t (year t) (month t + 1) 1)
       else if year t <? 9999 then Ok (with_date t (year t + 1) 1 1)
            else Raise overflow.

Fixpoint iter_days (step : datetime -> Exc datetime) (n : nat) (t : datetime)
  : Exc datetime :=
  match n with
  | O => Ok t
  | S k => match step t with
           | Ok t' => iter_days step k t'
           | Raise e => Raise e
           end
  end.

(** [t - timedelta(days=n)] and [t + timedelta(days=n)]. *)
Definition sub_days (t : datetime) (n : nat) : Exc datetime := iter_days pred_day n t.
Definition add_days (t : datetime) (n : nat) : Exc datetime := iter_days succ_day n t.

Definition digit (z : Z) : ascii := ascii_of_N (Z.to_N (48 + z mod 10)).

(** ["%0wd" % z] for [0 <= z < 10^w]. *)
Fixpoint pad (w : nat) (z : Z) : string :=
  match w with
  | O => EmptyString
  | S w' => (pad w' (z / 10) ++ String (digit z) EmptyString)%string
  end.

Definition fmt_date (t : datetime) : string :=
  (pad 4 (year t) ++ "-" ++ pad 2 (month t) ++ "-" ++ pad 2 (day t))%string.

Definition fmt_offset (o : option Z) : string :=
  match o with
  | None => EmptyString
  | Some m =>
      ((if (m <? 0)%Z then "-" else "+")
         ++ pad 2 (Z.abs m / 60)%Z ++ ":" ++ pad 2 (Z.abs m mod 60)%Z)%string
  end.

(** [t.isoformat()]. *)
Definition isoformat (t : datetime) : string :=
  (fmt_date t ++ "T" ++ pad 2 (hour t) ++ ":" ++ pad 2 (minute t) ++ ":"
     ++ pad 2 (second t)
     ++ (if (microsecond t =? 0)%Z then "" else "." ++ pad 6 (microsecond t))
     ++ fmt_offset (utcoffset t))%string.

(** [t.strftime('%Y-%m-%d')] (years from 1000 on) and [t.strftime('%H%M')]. *)
Definition strftime_Ymd (t : datetime) : string := fmt_date t.
Definition strftime_HM (t : datetime) : string :=
  (pad 2 (hour t) ++ pad 2 (minute t))%string.

Definition digit_val (a : ascii) : option Z :=
  let n := Z.of_N (N_of_ascii a) in
  if (48 <=? n) && (n <=? 57) then Some (n - 48) else None.

Fixpoint number (ds : list ascii) (acc : Z) : option Z :=
  match ds with
  | [] => Some acc
  | a :: ds' => match digit_val a with
                | Some d => number ds' (10 * acc + d)
                | None => None
                end
  end.

Definition invalid_iso (s : string) : exn :=
  ("Invalid isoformat string: '" ++ s ++ "'")%string.

(** [_ymd2ord(y, 1, 1)]: the ordinal of 1 January of [y], 0001-01-01 (a
    Monday) being day 1. *)
Definition ord_jan1 (y : Z) : Z :=
  (y - 1) * 365 + (y - 1) / 4 - (y - 1) / 100 + (y - 1) / 400 + 1.

(** An ISO year has a week 53 when it starts on a Thursday, or on a
    Wednesday and is a leap year. *)
Definition long_year (y : Z) : bool :=
  let first_weekday := ord_jan1 y mod 7 in
  (first_weekday =? 4) || ((first_weekday =? 3) && is_leap y).

Definition at_hour (t : datetime) (h : Z) : datetime :=
  mk_datetime (year t) (month t) (day t) h (minute t) (second t) (microsecond t)
    (utcoffset t).

(** The day [weekday] of the ISO week [week] of [y], at [h] o'clock: the
    week date is converted first, then the fields are checked. *)
Definition of_isoweek (s : string) (y week weekday h : Z) : Exc datetime :=
  if negb (((1 <=? week) && (week <=? 52)) || ((week =? 53) && long_year y))
     || negb ((1 <=? weekday) && (weekday <=? 7))
  then Raise (invalid_iso s)
  else if y =? 0 then Raise "month must be in 1..12"%string
  else
    let firstweekday := (ord_jan1 y + 6) mod 7 in
    let week1monday := if 3 <? firstweekday then 7 - firstweekday else - firstweekday in
    let offset := week1monday + (week - 1) * 7 + (weekday - 1) in
    let jan1 := mk_datetime y 1 1 0 0 0 0 None in
    match (if offset <? 0 then sub_days jan1 (Z.to_nat (- offset))
           else add_days jan1 (Z.to_nat offset)) with
    | Ok t => if 23 <? h then Raise "hour must be in 0..23"%string else Ok (at_hour t h)
    | Raise _ => Raise "year 10000 is out of range"%string
    end.

(** The calendar date [y]-[m]-[d] at midnight. *)
Definition of_calendar (y m d : Z) : Exc datetime :=
  if y =? 0 then Raise "year 0 is out of range"%string
  else if negb ((1 <=? m) && (m <=? 12)) then Raise "month must be in 1..12"%string
  else if negb ((1 <=? d) && (d <=? days_in_month y m))
       then Raise "day is out of range for month"%string
       else Ok (mk_datetime y m d 0 0 0 0 None).

(** [datetime.fromisoformat(s)] of Python 3.11 on a string of ten
    characters, the only length the service passes.  Three shapes are
    accepted: the calendar date [YYYY-MM-DD], the week date [YYYY-Www-D],
    and the week [YYYYWww] followed by any one character and an hour
    [HH]; the character after the week is taken for the separator when
    it is no digit or when all of the last three characters are digits.
    Every other shape leaves a time part of one character and is
    rejected.  The text in [invalid_iso] is the argument as it is, not
    its [repr]; the service discards the message. *)
Definition fromisoformat (s : string) : Exc datetime :=
  match list_ascii_of_string s with
  | [c0; c1; c2; c3; c4; c5; c6; c7; c8; c9] =>
      if Ascii.eqb c4 "-" then
        if Ascii.eqb c5 "W" then
          if Ascii.eqb c8 "-" then
            match number [c0; c1; c2; c3] 0, number [c6; c7] 0, number [c9] 0 with
            | Some y, Some week, Some weekday => of_isoweek s y week weekday 0
            | _, _, _ => Raise (invalid_iso s)
            end
          else Raise (invalid_iso s)
        else
          if Ascii.eqb c7 "-" then
            match number [c0; c1; c2; c3] 0, number [c5; c6] 0, number [c8; c9] 0 with
            | Some y, Some m, Some d => of_calendar y m d
            | _, _, _ => Raise (invalid_iso s)
            end
          else Raise (invalid_iso s)
      else
        if Ascii.eqb c4 "W" then
          match digit_val c7, digit_val c8, digit_val c9 with
          | Some _, Some _, None | Some _, None, _ => Raise (invalid_iso s)
          | _, _, _ =>
              match number [c0; c1; c2; c3] 0, number [c5; c6] 0, number [c8; c9] 0 with
              | Some y, Some week, Some h => of_isoweek s y week 1 h
              | _, _, _ => Raise (invalid_iso s)
              end
          end
        else Raise (invalid_iso s)
  | _ => Raise (invalid_iso s)
  end.

(** Comparison of two naive values, [a > b]. *)
Definition fields (t : datetime) : list Z :=
  [year t; month t; day t; hour t; minute t; second t; microsecond t].

Fixpoint lex_gt (a b : list Z) : bool :=
  match a, b with
  | x :: a', y :: b' => (y <? x) || ((x =? y) && lex_gt a' b')
  | _, _ => false
  end.

Definition gt (a b : datetime) : bool := lex_gt (fields a) (fields b).

End PyTime.

(** ** Encodings *)

Module Codec.

Local Open Scope N_scope.

(** [s.encode()]: UTF-8 of the code points below 256. *)
Fixpoint utf8 (s : string) : list N :=
  match s with
  | EmptyString => []
  | String a s' =>
      let n := N_of_ascii a in
      if n <? 128 then n :: utf8 s'
      else (192 + n / 64) :: (128 + n mod 64) :: utf8 s'
  end.

Definition hex_digit (n : N) : ascii :=
  if n <? 10 then ascii_of_N (48 + n) else ascii_of_N (55 + n).

Definition percent (b : N) : string :=
  String "%" (String (hex_digit (b / 16)) (String (hex_digit (b mod 16)) EmptyString)).

(** Characters [quote] never escapes: letters, digits and [_.-~]. *)
Definition always_safe (n : N) : bool :=
  ((65 <=? n) && (n <=? 90)) || ((97 <=? n) && (n <=? 122))
  || ((48 <=? n) && (n <=? 57))
  || (n =? 95) || (n =? 46) || (n =? 45) || (n =? 126).

(** [urllib.parse.quote(s, safe='')]. *)
Fixpoint quote (s : string) : string :=
  match s with
  | EmptyString => EmptyString
  | String a s' =>
      let n := N_of_ascii a in
      if always_safe n then String a (quote s')
      else if n <? 128 then (percent n ++ quote s')%string
           else (percent (192 + n / 64) ++ percent (128 + n mod 64) ++ quote s')%string
  end.

Definition b64_char (i : N) : ascii :=
  if i <? 26 then ascii_of_N (65 + i)
  else if i <? 52 then ascii_of_N (71 + i)
       else if i <? 62 then ascii_of_N (i - 4)
            else if i =? 62 then "+"%char else "/"%char.

(** [base64.b64encode(bytes).decode()]. *)
Fixpoint b64encode (bs : list N) : string :=
  match bs with
  | [] => EmptyString
  | [b1] =>
      String (b64_char (b1 / 4)) (String (b64_char ((b1 mod 4) * 16)) "==")
  | [b1; b2] =>
      String (b64_char (b1 / 4))
        (String (b64_char ((b1 mod 4) * 16 + b2 / 16))
           (String (b64_char ((b2 mod 16) * 4)) "="))
  | b1 :: b2 :: b3 :: rest =>
      String (b64_char (b1 / 4))
        (String (b64_char ((b1 mod 4) * 16 + b2 / 16))
           (String (b64_char ((b2 mod 16) * 4 + b3 / 64))
              (String (b64_char (b3 mod 64)) (b64encode rest))))
  end.

End Codec.

(** ** Effects

    [M] threads the number of clock readings made so far and the log of
    observable events; a computation either returns or raises. *)

Class Monad (m : Type -> Type) : Type := {
  ret : forall {A : Type}, A -> m A;
  bind : forall {A B : Type}, m A -> (A -> m B) -> m B
}.

Notation "x <- c ;; k" := (bind c (fun x => k))
  (at level 61, c at next level, right associativity).
Notation "c ;;; k" := (bind c (fun _ => k))
  (at level 61, right associativity).

#[export] Instance Exc_Monad : Monad Exc := {
  ret := fun A a => Ok a;
  bind := fun A B c k => match c with
                         | Ok a => k a
                         | Raise e => Raise e
                         end
}.

(** JSON documents, as sent to and decoded from the destination host.
    Numbers are integers; an object is kept in key order. *)
#[local] Set Warnings "-register-all".
Inductive Json : Type :=
| JNull
| JBool (b : bool)
| JNum (z : Z)
| JStr (s : string)
| JArr (items : list Json)
| JObj (members : list (string * Json)).

Inductive event : Type :=
(** [container_client.list_blobs(name_starts_with=...)]: a request to the
    object store. *)
| EvListBlobs (container name_starts_with : string)
(** [requests.post(url, headers=..., json=..., timeout=...)]: a request to
    the destination host. *)
| EvPost (url : string) (headers : list (string * string)) (payload : Json)
    (timeout : Z)
(** [print(msg)], taken to succeed. *)
| EvPrint (msg : string).

Record state : Type := mk_state {
  ticks : nat;
  log : list event
}.

Definition M (A : Type) : Type := state -> Exc A * state.

#[export] Instance M_Monad : Monad M := {
  ret := fun A a s => (Ok a, s);
  bind := fun A B c k s => match c s with
                           | (Ok a, s') => k a s'
                           | (Raise e, s') => (Raise e, s')
                           end
}.

(** A computation without effects, possibly raising. *)
Definition lift {A : Type} (c : Exc A) : M A := fun s => (c, s).

Definition emit (ev : event) : M unit :=
  fun s => (Ok tt, mk_state (ticks s) (log s ++ [ev])%list).

Definition print (msg : string) : M unit := emit (EvPrint msg).

(** [try: body  except Exception as e: handler(e)]. *)
Definition try_except {A : Type} (body : M A) (handler : exn -> M A) : M A :=
  fun s => match body s with
           | (Ok a, s') => (Ok a, s')
           | (Raise e, s') => handler e s'
           end.

(** [for x in xs: acc = body(acc, x)]. *)
Fixpoint for_each {m : Type -> Type} `{Monad m} {A B : Type}
  (xs : list B) (acc : A) (body : A -> B -> m A) : m A :=
  match xs with
  | [] => ret acc
  | x :: xs' => acc' <- body acc x ;; for_each xs' acc' body
  end.

Definition init : state := mk_state 0 [].

(** ** The collaborators *)

Record Blob : Type := mk_Blob {
  name : string;
  last_modified : option PyTime.datetime;
  size : option Z
}.

(** What iterating a listing does: the blobs it yields and, possibly, the
    exception that then interrupts it. *)
Record Listing : Type := mk_Listing {
  yielded : list Blob;
  failure : option exn
}.

Record BlobServiceClient : Type := mk_BlobServiceClient {
  (** The URL the client was built for (the SDK's [primary_endpoint]). *)
  primary_endpoint : string
}.

Record ContainerClient : Type := mk_ContainerClient {
  container_name_of : string
}.

Record BlobClient : Type := mk_BlobClient {
  url : string
}.

Record Response : Type := mk_Response {
  status_code : Z;
  text : string;
  json : Exc Json
}.

(** Everything outside the module: the environment variables, the clock,
    the storage SDK and the HTTP library.  Each entry point may raise. *)
Record World : Type := mk_World {
  environ : Environ;
  (** Whether the import of the storage SDK at module load succeeded. *)
  AZURE_STORAGE_AVAILABLE : bool;
  (** The successive readings of [datetime.utcnow()]. *)
  clock : nat -> PyTime.datetime;
  from_connection_string : string -> Exc BlobServiceClient;
  DefaultAzureCredential : Exc unit;
  new_BlobServiceClient : string -> Exc BlobServiceClient;
  get_container_client : BlobServiceClient -> string -> Exc ContainerClient;
  list_blobs : ContainerClient -> string -> Listing;
  get_blob_client : BlobServiceClient -> string -> string -> Exc BlobClient;
  (** [client.account_url], read at lines 301 and 306.  The client of the
      storage SDK has no attribute of this name: there the read raises
      [AttributeError]. *)
  account_url : BlobServiceClient -> Exc string;
  (** [from azure.storage.blob import BlobSasPermissions, generate_blob_sas]. *)
  import_blob_sas : Exc unit;
  (** [generate_blob_sas(account_name, container_name, blob_name,
      account_key, permission=read, expiry)]. *)
  generate_blob_sas :
    string -> string -> string -> string -> PyTime.datetime -> Exc string;
  (** [import requests]. *)
  import_requests : Exc unit;
  requests_post :
    string -> list (string * string) -> Json -> Z -> Exc Response
}.

(** ** Result records *)

(** [round(num / den, 2)], kept as written: floating point is not
    evaluated. *)
Inductive Rounded : Type :=
| round2_div (num den : Z).

Record RepositorySummary : Type := mk_RepositorySummary {
  r_id : string;
  r_org : value;
  r_project : value;
  r_repo : value;
  r_backup_count : Z;
  r_last_backup : option string
}.

Record BackupVersion : Type := mk_BackupVersion {
  v_id : string;
  v_timestamp : string;
  v_size_bytes : Z;
  v_size_mb : Rounded;
  v_retention_expires : option string;
  v_blob_path : string
}.

(** The status dictionary of a restore: ["status"] is ["success"] or
    ["error"]; [repo_id] and [download_url] are absent from the mock
    answer. *)
Inductive RestoreOutcome : Type :=
| Success (message : string) (repo_url : Json)
    (repo_id : option Json) (download_url : option string)
| Error (message : string).

(** ** [list.sort(key=..., reverse=True)]

    Python's sort is stable, also with [reverse=True]: elements whose
    keys are equal keep their order.  The outcome of a stable sort is
    determined by that, so insertion from the right stands for it.
    Keys are strings, compared character by character. *)

Section Sort.
Context {A : Type} (key : A -> string).

Fixpoint insert_desc (x : A) (l : list A) : list A :=
  match l with
  | [] => [x]
  | y :: l' => if String.ltb (key x) (key y) then y :: insert_desc x l'
               else x :: l
  end.

Fixpoint sort_desc (l : list A) : list A :=
  match l with
  | [] => []
  | x :: l' => insert_desc x (sort_desc l')
  end.
End Sort.

(** ** The service *)

(** The value of [os.getenv(name)] when it passes [if value:]. *)
Definition nonempty (o : option string) : option string :=
  match o with
  | Some s => if Py.truthy s then Some s else None
  | None => None
  end.

(** [x or 0] on an optional integer. *)
Definition or_zero (o : option Z) : Z :=
  match o with
  | Some z => z
  | None => 0%Z
  end.

(** [dict(part.split('=', 1) for part in s.split(';') if '=' in part)],
    read with [.get(key, '')]: the last binding of a key wins. *)
Fixpoint conn_lookup (parts : list string) (key : string) (found : string) : string :=
  match parts with
  | [] => found
  | part :: parts' =>
      if Py.contains "=" part then
        match Py.split_max "=" part 1 with
        | [k; v] => conn_lookup parts' key (if String.eqb k key then v else found)
        | _ => conn_lookup parts' key found
        end
      else conn_lookup parts' key found
  end.

Definition conn_get (connection_string key : string) : string :=
  conn_lookup (Py.split ";" connection_string) key "".

(** The dictionary of repositories under construction, in insertion
    order. *)
Definition repos := list (string * RepositorySummary).

Fixpoint repos_lookup (m : repos) (k : string) : option RepositorySummary :=
  match m with
  | [] => None
  | (k', r) :: m' => if String.eqb k' k then Some r else repos_lookup m' k
  end.

Definition repos_mem (m : repos) (k : string) : bool :=
  match repos_lookup m k with
  | Some _ => true
  | None => false
  end.

(** [m[k] = f(m[k])] for a key already present. *)
Fixpoint repos_adjust (m : repos) (k : string)
  (f : RepositorySummary -> RepositorySummary) : repos :=
  match m with
  | [] => []
  | (k', r) :: m' =>
      if String.eqb k' k then (k', f r) :: m' else (k', r) :: repos_adjust m' k f
  end.

Definition incr_count (r : RepositorySummary) : RepositorySummary :=
  mk_RepositorySummary (r_id r) (r_org r) (r_project r) (r_repo r)
    (r_backup_count r + 1) (r_last_backup r).

Definition set_last_backup (s : string) (r : RepositorySummary) : RepositorySummary :=
  mk_RepositorySummary (r_id r) (r_org r) (r_project r) (r_repo r)
    (r_backup_count r) (Some s).

(** JSON values in a condition and under [.get]. *)
Definition json_truthy (j : Json) : bool :=
  match j with
  | JNull => false
  | JBool b => b
  | JNum z => negb (z =? 0)%Z
  | JStr s => Py.truthy s
  | JArr l => match l with [] => false | _ => true end
  | JObj l => match l with [] => false | _ => true end
  end.

Fixpoint members_lookup (l : list (string * Json)) (k : string) : option Json :=
  match l with
  | [] => None
  | (k', v) :: l' => if String.eqb k' k then Some v else members_lookup l' k
  end.

Definition no_get (type_name : string) : exn :=
  "'" ++ type_name ++ "' object has no attribute 'get'".

(** [j.get(k)]: [None] for a missing key, [AttributeError] when [j] is not
    an object. *)
Definition json_get (j : Json) (k : string) : Exc Json :=
  match j with
  | JObj l => Ok (match members_lookup l k with Some v => v | None => JNull end)
  | JNull => Raise (no_get "NoneType")
  | JBool _ => Raise (no_get "bool")
  | JNum _ => Raise (no_get "int")
  | JStr _ => Raise (no_get "str")
  | JArr _ => Raise (no_get "list")
  end.

Definition _get_mock_repositories : list RepositorySummary :=
  [ mk_RepositorySummary "org1-project1-repo1" (VStr "myorg") (VStr "ProjectAlpha")
      (VStr "infra-terraform") 45 (Some "2025-01-15T14:30:00Z");
    mk_RepositorySummary "org1-project1-repo2" (VStr "myorg") (VStr "ProjectAlpha")
      (VStr "core-app") 42 (Some "2025-01-15T12:00:00Z");
    mk_RepositorySummary "org1-project2-repo1" (VStr "myorg") (VStr "ProjectBeta")
      (VStr "api-service") 38 (Some "2025-01-14T18:00:00Z") ].

(** [t + timedelta(hours=1)]. *)
Definition add_hour (t : PyTime.datetime) : Exc PyTime.datetime :=
  let bump h :=
    PyTime.mk_datetime (PyTime.year t) (PyTime.month t) (PyTime.day t) h
      (PyTime.minute t) (PyTime.second t) (PyTime.microsecond t) (PyTime.utcoffset t) in
  if (PyTime.hour t <? 23)%Z then Ok (bump (PyTime.hour t + 1)%Z)
  else PyTime.succ_day (bump 0%Z).

(** Lines 349-357: the request sent to the destination host. *)
Definition create_repo_url_of (target_org target_project : string) : string :=
  "https://dev.azure.com/" ++ target_org ++ "/" ++ target_project
    ++ "/_apis/git/repositories?api-version=7.1".

Definition headers_of (pat : string) : list (string * string) :=
  [ ("Authorization", "Basic " ++ Codec.b64encode (Codec.utf8 (":" ++ pat)));
    ("Content-Type", "application/json") ].

Definition create_payload_of (target_repo_name target_project : string) : Json :=
  JObj [ ("name", JStr target_repo_name);
         ("project", JObj [("id", JStr target_project)]) ].

Section Services.

Variable w : World.

Definition utcnow : M PyTime.datetime :=
  fun s => (Ok (clock w (ticks s)), mk_state (S (ticks s)) (log s)).

(** [for blob in container_client.list_blobs(name_starts_with=p): ...]. *)
Definition for_blobs {A : Type} (cc : ContainerClient) (p : string)
  (acc : A) (body : A -> Blob -> M A) : M A :=
  emit (EvListBlobs (container_name_of cc) p) ;;;
  acc' <- for_each (yielded (list_blobs w cc p)) acc body ;;
  match failure (list_blobs w cc p) with
  | Some e => lift (Raise e)
  | None => ret acc'
  end.

Definition _get_storage_client : Exc (option BlobServiceClient) :=
  if MOCK_MODE (environ w) || negb (AZURE_STORAGE_AVAILABLE w) then Ok None
  else
    let storage_account := getenv (environ w) "AZURE_STORAGE_ACCOUNT_NAME" in
    let connection_string := getenv (environ w) "AZURE_STORAGE_CONNECTION_STRING" in
    match nonempty connection_string with
    | Some cs =>
        client <- from_connection_string w cs ;; ret (Some client)
    | None =>
        match nonempty storage_account with
        | Some account =>
            DefaultAzureCredential w ;;;
            client <- new_BlobServiceClient w
                        ("https://" ++ account ++ ".blob.core.windows.net") ;;
            ret (Some client)
        | None => Ok None
        end
    end.

(** Lines 122-136. *)
Definition mock_version (repo_id : string) (base_date : PyTime.datetime) (i : nat)
  : Exc BackupVersion :=
  backup_date <- PyTime.sub_days base_date i ;;
  expires <- PyTime.add_days backup_date 90 ;;
  let size_bytes := (15728640 + Z.of_nat i * 1024)%Z in
  ret (mk_BackupVersion
         (repo_id ++ "-" ++ PyTime.strftime_Ymd backup_date)
         (PyTime.isoformat backup_date ++ "Z")
         size_bytes
         (round2_div size_bytes 1048576)
         (Some (PyTime.isoformat expires ++ "Z"))
         ("myorg/project/repo/" ++ PyTime.strftime_Ymd backup_date ++ "-"
            ++ PyTime.strftime_HM backup_date ++ ".zip")).

Definition _get_mock_backup_versions (repo_id : string) : M (list BackupVersion) :=
  base_date <- utcnow ;;
  lift (for_each (seq 0 10) []
          (fun versions i =>
             v <- mock_version repo_id base_date i ;; ret (versions ++ [v])%list)).

(** Lines 183-185, inside the inner [try]. *)
Definition newer_backup (entry : RepositorySummary) (date_str : string)
  : Exc RepositorySummary :=
  backup_date <- PyTime.fromisoformat date_str ;;
  newer <- match r_last_backup entry with
           | None => Ok true
           | Some last =>
               seen <- PyTime.fromisoformat (Py.slice_to 10 last) ;;
               ret (PyTime.gt backup_date seen)
           end ;;
  ret (if newer : bool
       then set_last_backup (PyTime.isoformat backup_date ++ "Z") entry
       else entry).

(** Lines 162-187: the body of the catalog loop. *)
Definition catalog_step (repos_map : repos) (blob : Blob) : Exc repos :=
  if negb (Py.endswith (name blob) ".zip") then Ok repos_map else
  match _parse_blob_path (environ w) (name blob) with
  | None => Ok repos_map
  | Some [] => Ok repos_map
  | Some parsed =>
      org <- getitem parsed "org" ;;
      project <- getitem parsed "project" ;;
      repo <- getitem parsed "repo" ;;
      let repo_id := fmt org ++ "-" ++ fmt project ++ "-" ++ fmt repo in
      let repos_map :=
        if repos_mem repos_map repo_id then repos_map
        else (repos_map
                ++ [(repo_id, mk_RepositorySummary repo_id org project repo 0 None)])%list in
      let repos_map := repos_adjust repos_map repo_id incr_count in
      date_str <- getitem parsed "date_str" ;;
      match date_str with
      | VStr (String _ _ as d) =>
          match repos_lookup repos_map repo_id with
          | Some entry =>
              match newer_backup entry d with
              | Ok entry' => Ok (repos_adjust repos_map repo_id (fun _ => entry'))
              | Raise _ => Ok repos_map
              end
          | None => Ok repos_map
          end
      | _ => Ok repos_map
      end
  end.

Definition list_repositories : M (list RepositorySummary) :=
  if MOCK_MODE (environ w) then ret _get_mock_repositories else
  client <- lift _get_storage_client ;;
  match client with
  | None => ret []
  | Some client =>
      let container_name := getenv_default (environ w) "AZURE_STORAGE_CONTAINER" "git-backups" in
      let prefix := storage_prefix (environ w) in
      let prefix := if Py.truthy prefix then prefix ++ "/" else prefix in
      try_except
        (container_client <- lift (get_container_client w client container_name) ;;
         repos_map <- for_blobs container_client prefix []
                        (fun repos_map blob => lift (catalog_step repos_map blob)) ;;
         ret (map snd repos_map))
        (fun e => print ("Error listing repositories: " ++ e) ;;; ret [])
  end.

(** Lines 230-237: the record appended for one blob. *)
Definition version_of (repo_id : string) (parsed : dict) (blob : Blob)
  : M BackupVersion :=
  let id := repo_id ++ "-" ++ fmt (dict_get parsed "date_str" (VStr (name blob))) in
  timestamp <- match last_modified blob with
               | Some t => ret (PyTime.isoformat t)
               | None => now <- utcnow ;; ret (PyTime.isoformat now ++ "Z")
               end ;;
  let size_bytes := or_zero (size blob) in
  expires <- match last_modified blob with
             | Some t =>
                 t' <- lift (PyTime.add_days t 90) ;;
                 ret (Some (PyTime.isoformat t'))
             | None => ret None
             end ;;
  ret (mk_BackupVersion id timestamp size_bytes (round2_div size_bytes 1048576)
         expires (name blob)).

(** Lines 223-237: the body of the version loop. *)
Definition versions_step (repo_id : string) (versions : list BackupVersion)
  (blob : Blob) : M (list BackupVersion) :=
  if negb (Py.endswith (name blob) ".zip") then ret versions else
  match _parse_blob_path (environ w) (name blob) with
  | None => ret versions
  | Some [] => ret versions
  | Some parsed =>
      v <- version_of repo_id parsed blob ;;
      ret (versions ++ [v])%list
  end.

Definition list_backup_versions (repo_id : string) : M (list BackupVersion) :=
  if MOCK_MODE (environ w) then _get_mock_backup_versions repo_id else
  client <- lift _get_storage_client ;;
  match client with
  | None => ret []
  | Some client =>
      match Py.split_max "-" repo_id 2 with
      | org :: project :: repo :: _ =>
          let container_name :=
            getenv_default (environ w) "AZURE_STORAGE_CONTAINER" "git-backups" in
          let prefix := storage_prefix (environ w) in
          let blob_prefix :=
            if Py.truthy prefix
            then prefix ++ "/" ++ org ++ "/" ++ project ++ "/" ++ repo ++ "/"
            else org ++ "/" ++ project ++ "/" ++ repo ++ "/" in
          try_except
            (container_client <- lift (get_container_client w client container_name) ;;
             versions <- for_blobs container_client blob_prefix []
                           (versions_step repo_id) ;;
             ret (sort_desc v_timestamp versions))
            (fun e => print ("Error listing backup versions: " ++ e) ;;; ret [])
      | _ => ret []
      end
  end.

(** Lines 279-296: the signed URL, when an account key is configured;
    [None] stands for falling through to the plain URL. *)
Definition shared_key_url (container_name blob_path : string) (blob_client : BlobClient)
  : M (option string) :=
  match nonempty (getenv (environ w) "AZURE_STORAGE_CONNECTION_STRING") with
  | Some connection_string =>
      let account_name := conn_get connection_string "AccountName" in
      let account_key := conn_get connection_string "AccountKey" in
      if Py.truthy account_key then
        now <- utcnow ;;
        expiry <- lift (add_hour now) ;;
        sas_token <- lift (generate_blob_sas w account_name container_name blob_path
                             account_key expiry) ;;
        ret (Some (url blob_client ++ "?" ++ sas_token))
      else ret None
  | None => ret None
  end.

(** The unsigned URL of lines 301-302 and 306-307; the read of
    [client.account_url] comes first and may raise. *)
Definition plain_url (client : BlobServiceClient) (container_name blob_path : string)
  : Exc string :=
  url_of_account <- account_url w client ;;
  ret (url_of_account ++ "/" ++ container_name ++ "/" ++ Codec.quote blob_path).

(** Lines 272-302: the body of the [try] of the link issuer.  The second
    import, of a name already imported when the module was loaded, is
    left out. *)
Definition issue_link (client : BlobServiceClient) (container_name blob_path : string)
  : M (option string) :=
  lift (import_blob_sas w) ;;;
  blob_client <- lift (get_blob_client w client container_name blob_path) ;;
  signed <- shared_key_url container_name blob_path blob_client ;;
  match signed with
  | Some u => ret (Some u)
  | None =>
      u <- lift (plain_url client container_name blob_path) ;;
      ret (Some u)
  end.

Definition get_download_link (repo_id backup_id : string) : M (option string) :=
  if MOCK_MODE (environ w)
  then ret (Some ("https://mock-storage.example.com/download/" ++ backup_id ++ "?mock=true"))
  else
    client <- lift _get_storage_client ;;
    match client with
    | None => ret None
    | Some client =>
        versions <- list_backup_versions repo_id ;;
        match find (fun v => String.eqb (v_id v) backup_id) versions with
        | None => ret None
        | Some backup =>
            let blob_path := v_blob_path backup in
            if negb (Py.truthy blob_path) then ret None else
            let container_name :=
              getenv_default (environ w) "AZURE_STORAGE_CONTAINER" "git-backups" in
            try_except
              (issue_link client container_name blob_path)
              (fun e =>
                 print ("Error generating download link: " ++ e) ;;;
                 u <- lift (plain_url client container_name blob_path) ;;
                 ret (Some u))
        end
    end.

(** Lines 346-384: the body of the [try] of the restore. *)
Definition create_repository (download_url pat : string)
  (target_org target_project target_repo_name : string) : M RestoreOutcome :=
  lift (import_requests w) ;;;
  let create_repo_url := create_repo_url_of target_org target_project in
  let headers := headers_of pat in
  let create_payload := create_payload_of target_repo_name target_project in
  emit (EvPost create_repo_url headers create_payload 30) ;;;
  create_response <- lift (requests_post w create_repo_url headers create_payload 30) ;;
  if negb ((status_code create_response =? 200)%Z || (status_code create_response =? 201)%Z)
  then
    if (status_code create_response =? 409)%Z
    then ret (Error ("Repository " ++ target_repo_name ++ " already exists in "
                       ++ target_project))
    else ret (Error ("Failed to create repository: " ++ text create_response))
  else
    repo_data <- lift (json create_response) ;;
    repo_id_ado <- lift (json_get repo_data "id") ;;
    web_url <- lift (json_get repo_data "webUrl") ;;
    let repo_url :=
      if json_truthy web_url then web_url
      else JStr ("https://dev.azure.com/" ++ target_org ++ "/" ++ target_project
                   ++ "/_git/" ++ target_repo_name) in
    ret (Success
           ("Repository " ++ target_repo_name
              ++ " created. Import backup manually or implement import API.")
           repo_url (Some repo_id_ado) (Some download_url)).

Definition restore_to_azure_devops (repo_id backup_id : string)
  (target_org target_project target_repo_name : string) (visibility : string)
  : M RestoreOutcome :=
  if MOCK_MODE (environ w) then
    ret (Success
           ("Mock restore: " ++ backup_id ++ " -> " ++ target_org ++ "/"
              ++ target_project ++ "/" ++ target_repo_name)
           (JStr ("https://dev.azure.com/" ++ target_org ++ "/" ++ target_project
                    ++ "/_git/" ++ target_repo_name))
           None None)
  else
    download_url <- get_download_link repo_id backup_id ;;
    match nonempty download_url with
    | None => ret (Error "Failed to generate download link for backup")
    | Some download_url =>
        match nonempty (getenv (environ w) "AZURE_DEVOPS_PAT") with
        | None =>
            ret (Error "Azure DevOps PAT not configured. Set AZURE_DEVOPS_PAT environment variable.")
        | Some pat =>
            try_except
              (create_repository download_url pat target_org target_project
                 target_repo_name)
              (fun e => ret (Error ("Restore failed: " ++ e)))
        end
    end.

End Services.

(** ** Restore preview *)

(** The dictionary returned by [get_restore_preview]: either the single
    key ["error"], or the six fields of a preview. *)
Inductive RestorePreview : Type :=
| PreviewError (error : string)
| Preview (source_org source_project source_repo : string)
    (backup_timestamp : string) (backup_size_mb : Rounded)
    (suggested_target_repo_name : string).

Definition get_restore_preview (w : World) (repo_id backup_id : string)
  : M RestorePreview :=
  versions <- list_backup_versions w repo_id ;;
  match find (fun v => String.eqb (v_id v) backup_id) versions with
  | None => ret (PreviewError "Backup not found")
  | Some backup =>
      match Py.split_max "-" repo_id 2 with
      | org :: project :: repo :: _ =>
          ret (Preview org project repo (v_timestamp backup) (v_size_mb backup) repo)
      | _ => ret (PreviewError "Invalid repository ID")
      end
  end.

(** ** Menu registry ([backend/core/menu.py])

    A menu definition is a dictionary with string keys; the registry is
    the module-level list [MENU_REGISTRY], passed explicitly. *)

Module Menu.

Definition definition := list (string * Json).

Definition registry := list definition.

Definition required_keys : list string := ["id"; "title"; "routes"].

(** [k in d.keys()]. *)
Definition has_key (d : definition) (k : string) : bool :=
  match members_lookup d k with
  | Some _ => true
  | None => false
  end.

(** [required_keys.issubset(d.keys())]. *)
Definition issubset (keys : list string) (d : definition) : bool :=
  forallb (has_key d) keys.

(** Returns the outcome of the call and the registry after it. *)
Definition register_module_menu (menu_definition : definition)
  (MENU_REGISTRY : registry) : Exc unit * registry :=
  if negb (issubset required_keys menu_definition)
  then (Raise "Menu definition missing required keys", MENU_REGISTRY)
  else (Ok tt, (MENU_REGISTRY ++ [menu_definition])%list).

Definition get_registered_menus (MENU_REGISTRY : registry) : registry :=
  MENU_REGISTRY.

Definition route (title path : string) : Json :=
  JObj [("title", JStr title); ("path", JStr path)].

(** The definitions registered by [ready] of the three applications. *)
Definition backups_menu : definition :=
  [ ("id", JStr "backups"); ("title", JStr "Git Backup"); ("icon", JStr "Backup");
    ("routes", JArr [ route "Available Backups" "/backups/list";
                      route "Restore" "/backups/restore" ]) ].

Definition firewall_menu : definition :=
  [ ("id", JStr "firewall"); ("title", JStr "Firewall"); ("icon", JStr "Security");
    ("routes", JArr [ route "Rules" "/firewall/rules";
                      route "Policies" "/firewall/policies";
                      route "Test" "/firewall/Test" ]) ].

Definition log_analytics_menu : definition :=
  [ ("id", JStr "log_analytics"); ("title", JStr "Log Analytics");
    ("icon", JStr "Analytics");
    ("routes", JArr [ route "Overview" "/logs/overview";
                      route "Saved Queries" "/logs/queries" ]) ].

Definition BackupsConfig_ready : registry -> Exc unit * registry :=
  register_module_menu backups_menu.

Definition FirewallConfig_ready : registry -> Exc unit * registry :=
  register_module_menu firewall_menu.

Definition LogAnalyticsConfig_ready : registry -> Exc unit * registry :=
  register_module_menu log_analytics_menu.

End Menu.

(** ** HTTP views ([backend/modules/backups/api.py])

    A view method takes the fields of the request body and the
    repository id of the URL, and returns a status code with a body.
    The fields are strings, as in a form-encoded body; a field may be
    absent. *)

Module Api.

Record Response (A : Type) : Type := mk_Response {
  status : Z;
  data : A
}.
Arguments mk_Response {A} status data.
Arguments status {A} r.
Arguments data {A} r.

Definition HTTP_200_OK : Z := 200.
Definition HTTP_400_BAD_REQUEST : Z := 400.
Definition HTTP_404_NOT_FOUND : Z := 404.
Definition HTTP_500_INTERNAL_SERVER_ERROR : Z := 500.

(** [request.data]. *)
Definition RequestData := string -> option string.

(** A body that is either [{"error": ...}] or the payload of the view. *)
Inductive Body (A : Type) : Type :=
| ErrorBody (error : string)
| Payload (a : A).
Arguments ErrorBody {A} error.
Arguments Payload {A} a.

(** [request.data.get(k, default)]. *)
Definition data_get (request_data : RequestData) (k default : string) : string :=
  match request_data k with
  | Some v => v
  | None => default
  end.

(** One entry of the legacy status answer. *)
Record LegacyRepository : Type := mk_LegacyRepository {
  lr_name : string;
  lr_provider : string;
  lr_last_backup : option string;
  lr_status : string
}.

Record LegacySummary : Type := mk_LegacySummary {
  repositories_monitored : Z;
  healthy : Z;
  failing : Z;
  last_run : option string
}.

Record LegacyStatus : Type := mk_LegacyStatus {
  summary : LegacySummary;
  repositories : list LegacyRepository
}.

Section Views.

Variable w : World.

Definition RepositoriesListView_get : M (Response (list RepositorySummary)) :=
  repos <- list_repositories w ;;
  ret (mk_Response HTTP_200_OK repos).

Definition BackupVersionsView_get (repo_id : string)
  : M (Response (list BackupVersion)) :=
  versions <- list_backup_versions w repo_id ;;
  ret (mk_Response HTTP_200_OK versions).

Definition RestorePreviewView_post (request_data : RequestData) (repo_id : string)
  : M (Response RestorePreview) :=
  match nonempty (request_data "backup_id") with
  | None => ret (mk_Response HTTP_400_BAD_REQUEST (PreviewError "backup_id is required"))
  | Some backup_id =>
      preview <- get_restore_preview w repo_id backup_id ;;
      match preview with
      | PreviewError _ => ret (mk_Response HTTP_404_NOT_FOUND preview)
      | Preview _ _ _ _ _ _ => ret (mk_Response HTTP_200_OK preview)
      end
  end.

Definition DownloadLinkView_post (request_data : RequestData) (repo_id : string)
  : M (Response (Body string)) :=
  match nonempty (request_data "backup_id") with
  | None => ret (mk_Response HTTP_400_BAD_REQUEST (ErrorBody "backup_id is required"))
  | Some backup_id =>
      download_url <- get_download_link w repo_id backup_id ;;
      match nonempty download_url with
      | None =>
          ret (mk_Response HTTP_500_INTERNAL_SERVER_ERROR
                 (ErrorBody "Failed to generate download link"))
      | Some u => ret (mk_Response HTTP_200_OK (Payload u))
      end
  end.

Definition RestoreView_post (request_data : RequestData) (repo_id : string)
  : M (Response (Body RestoreOutcome)) :=
  let backup_id := request_data "backup_id" in
  let target_org := request_data "target_org" in
  let target_project := request_data "target_project" in
  let target_repo_name := request_data "target_repo_name" in
  let visibility := data_get request_data "visibility" "private" in
  match nonempty backup_id, nonempty target_org, nonempty target_project,
        nonempty target_repo_name with
  | Some backup_id, Some target_org, Some target_project, Some target_repo_name =>
      result <- restore_to_azure_devops w repo_id backup_id target_org
                  target_project target_repo_name visibility ;;
      match result with
      | Error _ => ret (mk_Response HTTP_400_BAD_REQUEST (Payload result))
      | Success _ _ _ _ => ret (mk_Response HTTP_200_OK (Payload result))
      end
  | _, _, _, _ =>
      ret (mk_Response HTTP_400_BAD_REQUEST
             (ErrorBody
                "backup_id, target_org, target_project, and target_repo_name are required"))
  end.

(** The legacy view: the entry built for one summary. *)
Definition legacy_repository (r : RepositorySummary) : LegacyRepository :=
  mk_LegacyRepository
    (fmt (r_org r) ++ "/" ++ fmt (r_project r) ++ "/" ++ fmt (r_repo r))
    "Azure DevOps" (r_last_backup r) "Healthy".

Definition GitBackupStatusView_get : M (Response LegacyStatus) :=
  repos <- list_repositories w ;;
  ret (mk_Response HTTP_200_OK
         (mk_LegacyStatus
            (mk_LegacySummary
               (Z.of_nat (List.length repos))
               (Z.of_nat (List.length repos))
               0
               (match repos with
                | r :: _ => r_last_backup r
                | [] => None
                end))
            (map legacy_repository repos))).

End Views.

End Api.

(** * Definitions used in the statements *)

(** ** The specification's wording *)

(** The date extraction as the specification words it: the suffix alone
    is removed from the file name. *)
Definition spec_extract_date (filename : string) : value :=
  if Py.endswith filename ".zip" then
    let remainder := substring 0 (String.length filename - 4) filename in
    if (10 <=? String.length remainder)%nat
    then VStr (Py.slice_to 10 remainder)
    else VNone
  else VNone.

(** A path segment: not empty, no slash. *)
Definition segment (s : string) : Prop :=
  Py.truthy s = true /\ Py.contains "/" s = false.

(** The key [{prefix}/org/project/repo/stamp.zip]; without a prefix the
    key starts at the organisation. *)
Definition well_formed_key (prefix org project repo stamp : string) : string :=
  (if Py.truthy prefix then prefix ++ "/" else "")
    ++ org ++ "/" ++ project ++ "/" ++ repo ++ "/" ++ stamp ++ ".zip".

(** The messages of the restore. *)
Definition link_failed : string := "Failed to generate download link for backup".

Definition token_missing : string :=
  "Azure DevOps PAT not configured. Set AZURE_DEVOPS_PAT environment variable.".

Definition conflict (target_repo_name target_project : string) : string :=
  "Repository " ++ target_repo_name ++ " already exists in " ++ target_project.

(** ** Order and stability *)

(** [a] sorts at or after [b]. *)
Definition str_ge (a b : string) : Prop := String.leb b a = true.

(** [x] may stand before [y] in a newest-first sequence. *)
Definition before {A : Type} (key : A -> string) (x y : A) : Prop :=
  str_ge (key x) (key y).

(** The elements carrying the key [t], in order of appearance. *)
Definition keyed {A : Type} (key : A -> string) (t : string) (l : list A) : list A :=
  filter (fun x => String.eqb (key x) t) l.

(** The blobs for which the loop of [list_backup_versions] appends a
    version. *)
Definition survives (env : Environ) (b : Blob) : bool :=
  Py.endswith (name b) ".zip"
  && match _parse_blob_path env (name b) with
     | Some (_ :: _) => true
     | _ => false
     end.

(** ** Observations on a computation *)

(** Requests to the destination host. *)
Definition is_post (ev : event) : bool :=
  match ev with
  | EvPost _ _ _ _ => true
  | _ => false
  end.

(** Requests leaving the process, to the object store or to the
    destination host. *)
Definition is_network_call (ev : event) : bool :=
  match ev with
  | EvListBlobs _ _ => true
  | EvPost _ _ _ _ => true
  | EvPrint _ => false
  end.

Definition quiet (ev : event) : bool := negb (is_post ev).

(** [c] only appends to the log, and only events satisfying [P]. *)
Definition appends (P : event -> bool) {A : Type} (c : M A) : Prop :=
  forall s, exists evs, log (snd (c s)) = (log s ++ evs)%list /\ forallb P evs = true.

(** [c] returns from every state. *)
Definition never_raises {A : Type} (c : M A) : Prop :=
  forall s, exists a s', c s = (Ok a, s').

(** Whatever [c] returns satisfies [Q]. *)
Definition returns {A : Type} (Q : A -> Prop) (c : M A) : Prop :=
  forall s a s', c s = (Ok a, s') -> Q a.

(** A link, when one is issued, is not the empty string. *)
Definition issued (o : option string) : Prop :=
  forall u, o = Some u -> Py.truthy u = true.

(** ** Sample worlds *)

Definition no_env : Environ := fun _ => None.

Definition env_of (bindings : list (string * string)) : Environ :=
  fun k => match find (fun kv => String.eqb (fst kv) k) bindings with
           | Some kv => Some (snd kv)
           | None => None
           end.

Definition account_env : Environ :=
  env_of [("AZURE_STORAGE_ACCOUNT_NAME", "acct")].

(** A connection string that carries the account key. *)
Definition connection_string : string :=
  "DefaultEndpointsProtocol=https;AccountName=acct;AccountKey=a2V5;EndpointSuffix=core.windows.net".

Definition key_env : Environ :=
  env_of [("AZURE_STORAGE_CONNECTION_STRING", connection_string)].

Definition token_env : Environ :=
  env_of [("AZURE_STORAGE_CONNECTION_STRING", connection_string);
          ("AZURE_DEVOPS_PAT", "secret")].

(** What reading [account_url] raises on the client of the storage SDK. *)
Definition no_account_url : exn :=
  "'BlobServiceClient' object has no attribute 'account_url'".

(** The answer of the destination host to a successful creation. *)
Definition created : Response :=
  mk_Response 201 "created"
    (Ok (JObj [("id", JStr "42");
               ("webUrl", JStr "https://dev.azure.com/acme/Dest/_git/svc-a")])).

(** A world around a container holding [blobs]: a listing returns the
    blobs whose name starts with the requested prefix and then fails with
    [listing_failure], if any; [connect] answers
    [from_connection_string]; the client has no [account_url]; every
    request to the destination host is answered by [answer]. *)
Definition world_with (env : Environ) (blobs : list Blob) (listing_failure : option exn)
  (connect : string -> Exc BlobServiceClient) (answer : Exc Response) : World :=
  {| environ := env;
     AZURE_STORAGE_AVAILABLE := true;
     clock := fun _ => PyTime.mk_datetime 2025 3 10 12 0 0 0 None;
     from_connection_string := connect;
     DefaultAzureCredential := Ok tt;
     new_BlobServiceClient := fun u => Ok (mk_BlobServiceClient u);
     get_container_client := fun _ n => Ok (mk_ContainerClient n);
     list_blobs :=
       fun _ p =>
         mk_Listing (filter (fun b => Py.startswith (name b) p) blobs) listing_failure;
     get_blob_client :=
       fun c n b => Ok (mk_BlobClient (primary_endpoint c ++ "/" ++ n ++ "/" ++ b));
     account_url := fun _ => Raise no_account_url;
     import_blob_sas := Ok tt;
     generate_blob_sas := fun _ _ _ _ _ => Ok "sig=abc";
     import_requests := Ok tt;
     requests_post := fun _ _ _ _ => answer
  |}.

Definition connected (_ : string) : Exc BlobServiceClient :=
  Ok (mk_BlobServiceClient "https://acct.blob.core.windows.net").

(** The world in which nothing fails. *)
Definition calm_world (env : Environ) (blobs : list Blob) : World :=
  world_with env blobs None connected (Ok created).

Definition utc (y m d h mi : Z) : PyTime.datetime :=
  PyTime.mk_datetime y m d h mi 0 0 (Some 0%Z).

(** The container of scenario A, and its catalog. *)
Definition scenario_blobs : list Blob :=
  [ mk_Blob "acme/ProjectX/svc-a/2025-03-01-0900.zip" (Some (utc 2025 3 1 9 0)) (Some 1048576%Z);
    mk_Blob "acme/ProjectX/svc-a/2025-03-02-0900.zip" (Some (utc 2025 3 2 9 0)) (Some 2097152%Z) ].

Definition scenario_summary : RepositorySummary :=
  mk_RepositorySummary "acme-ProjectX-svc-a" (VStr "acme") (VStr "ProjectX")
    (VStr "svc-a") 2 (Some "2025-03-02T00:00:00Z").

(** A container with one archive whose name carries no date. *)
Definition undated_blobs : list Blob :=
  [ mk_Blob "acme/ProjectX/svc-a/backup.zip" (Some (utc 2025 3 1 9 0)) (Some 1048576%Z) ].

(** A world in which the destination host reports a conflict. *)
Definition conflict_world : World :=
  world_with token_env scenario_blobs None connected
    (Ok (mk_Response 409 "conflict" (Raise "no body"))).

(** A world whose connection string the storage SDK rejects. *)
Definition misconfigured_world : World :=
  world_with (env_of [("AZURE_STORAGE_CONNECTION_STRING", "garbage")]) scenario_blobs None
    (fun _ => Raise "Connection string is either blank or malformed.")
    (Ok created).

(** A world in which the listing of the object store breaks. *)
Definition unreachable_store_world : World :=
  world_with token_env scenario_blobs (Some "Connection reset by peer") connected
    (Ok created).

(** ** Statements about the catalog *)

(** The archives counted by a catalog. *)
Definition total_count (rs : list RepositorySummary) : Z :=
  fold_right Z.add 0%Z (map r_backup_count rs).

(** The identifier of a summary is built from its three fields. *)
Definition summary_id_matches (r : RepositorySummary) : Prop :=
  r_id r = fmt (r_org r) ++ "-" ++ fmt (r_project r) ++ "-" ++ fmt (r_repo r).

(** The prefix the catalog lists under (lines 152-154). *)
Definition catalog_prefix (env : Environ) : string :=
  if Py.truthy (storage_prefix env) then storage_prefix env ++ "/"
  else storage_prefix env.

(** The container name (lines 151, 214, 269). *)
Definition container_of (env : Environ) : string :=
  getenv_default env "AZURE_STORAGE_CONTAINER" "git-backups".

(** No storage account is reachable: the SDK is missing, or neither the
    connection string nor the account name is set. *)
Definition unconfigured (w : World) : Prop :=
  AZURE_STORAGE_AVAILABLE w = false
  \/ (nonempty (getenv (environ w) "AZURE_STORAGE_CONNECTION_STRING") = None
      /\ nonempty (getenv (environ w) "AZURE_STORAGE_ACCOUNT_NAME") = None).

(** The state after appending [evs] to the log. *)
Definition logged (s : state) (evs : list event) : state :=
  mk_state (ticks s) (log s ++ evs)%list.

(** The invariant of the dictionary built by the catalog loop. *)
Definition entry_ok (kr : string * RepositorySummary) : Prop :=
  r_id (snd kr) = fst kr
  /\ summary_id_matches (snd kr)
  /\ (1 <= r_backup_count (snd kr))%Z.

Definition catalog_ok (m : repos) : Prop :=
  NoDup (map fst m) /\ Forall entry_ok m.

(** A world without storage configuration. *)
Definition bare_world : World := calm_world no_env scenario_blobs.

(** ** Statements about dates *)

(** The calendar date [y]-[m]-[d] at midnight. *)
Definition midnight (y m d : Z) : PyTime.datetime :=
  PyTime.mk_datetime y m d 0 0 0 0 None.

(** The values [datetime.fromisoformat] gives on ten characters: a valid
    date at a full hour, without offset. *)
Definition parsed_time (t : PyTime.datetime) : Prop :=
  exists y m d h,
    t = PyTime.mk_datetime y m d h 0 0 0 None
    /\ PyTime.valid_date y m d = true /\ (0 <= h <= 23)%Z.

(** The calendar date of [t]. *)
Definition date_of (t : PyTime.datetime) : PyTime.datetime :=
  midnight (PyTime.year t) (PyTime.month t) (PyTime.day t).

(** What line 185 stores for a parsed date. *)
Definition stamp (t : PyTime.datetime) : string := PyTime.isoformat t ++ "Z".

(** The identifier under which the catalog files a blob, if it does. *)
Definition catalog_id (env : Environ) (b : Blob) : option string :=
  if survives env b then
    match _parse_blob_path env (name b) with
    | Some parsed =>
        Some (fmt (dict_get parsed "org" VNone) ++ "-"
                ++ fmt (dict_get parsed "project" VNone) ++ "-"
                ++ fmt (dict_get parsed "repo" VNone))
    | None => None
    end
  else None.

(** Whether the catalog files the blob under the identifier [k]. *)
Definition files_under (env : Environ) (k : string) (b : Blob) : bool :=
  match catalog_id env b with
  | Some id => String.eqb id k
  | None => false
  end.

(** The archives of repository [k] among [blobs]. *)
Definition archives_of (env : Environ) (k : string) (blobs : list Blob) : list Blob :=
  filter (files_under env k) blobs.

(** The date a blob contributes to the repository [k]: what
    [datetime.fromisoformat] makes of the [date_str] of its key. *)
Definition blob_date (env : Environ) (k : string) (b : Blob) : option PyTime.datetime :=
  match catalog_id env b, _parse_blob_path env (name b) with
  | Some id, Some parsed =>
      if String.eqb id k then
        match dict_get parsed "date_str" VNone with
        | VStr d => match PyTime.fromisoformat d with
                    | Ok t => Some t
                    | Raise _ => None
                    end
        | VNone => None
        end
      else None
  | _, _ => None
  end.

(** The dates of the archives of repository [k] among [blobs]. *)
Definition dates_of (env : Environ) (k : string) (blobs : list Blob)
  : list PyTime.datetime :=
  flat_map (fun b => match blob_date env k b with
                     | Some t => [t]
                     | None => []
                     end) blobs.

(** [last] is the stamp of one of [dates] whose calendar date is the
    latest among them, or absent when there is none. *)
Definition latest_of (last : option string) (dates : list PyTime.datetime) : Prop :=
  match last with
  | None => dates = []
  | Some l =>
      exists t, l = stamp t /\ parsed_time t /\ In t dates
                /\ forall t', In t' dates -> PyTime.gt (date_of t') (date_of t) = false
  end.

(** The invariant of the catalog loop after the blobs [processed]: the
    entry of a repository counts its archives and holds a latest date
    of them, and a repository without entry has no archive. *)
Definition filed (env : Environ) (m : repos) (processed : list Blob) : Prop :=
  forall k,
    match repos_lookup m k with
    | Some r =>
        latest_of (r_last_backup r) (dates_of env k processed)
        /\ r_backup_count r = Z.of_nat (List.length (archives_of env k processed))
    | None => archives_of env k processed = [] /\ dates_of env k processed = []
    end.

(** ** Statements about the version lister *)

(** The number of occurrences of a character. *)
Fixpoint count_char (c : ascii) (s : string) : nat :=
  match s with
  | EmptyString => O
  | String a s' => ((if Ascii.eqb a c then 1 else 0) + count_char c s')%nat
  end.

(** The prefix the version lister asks for (line 216). *)
Definition blob_prefix_of (env : Environ) (org project repo : string) : string :=
  if Py.truthy (storage_prefix env)
  then storage_prefix env ++ "/" ++ org ++ "/" ++ project ++ "/" ++ repo ++ "/"
  else org ++ "/" ++ project ++ "/" ++ repo ++ "/".

(** The version [v] was built from the blob [b] for [repo_id]. *)
Definition built (env : Environ) (repo_id : string) (b : Blob) (v : BackupVersion)
  : Prop :=
  v_blob_path v = name b
  /\ v_size_bytes v = or_zero (size b)
  /\ exists parsed,
      _parse_blob_path env (name b) = Some parsed
      /\ v_id v = repo_id ++ "-" ++ fmt (dict_get parsed "date_str" VNone).

(** Adding the retention window to the blob's date stays in range. *)
Definition in_range (b : Blob) : Prop :=
  match last_modified b with
  | Some t => exists t', PyTime.add_days t 90 = Ok t'
  | None => True
  end.

(** What computing the retention date of a blob raises, if it does. *)
Definition retention_failure (b : Blob) : option exn :=
  match last_modified b with
  | Some t => match PyTime.add_days t 90 with
              | Ok _ => None
              | Raise e => Some e
              end
  | None => None
  end.

(** The exception that ends the version loop over a listing that
    yields [blobs] and then fails with [listing_failure], if any: the
    first retention date out of range among the blobs that survive, or
    else the failure of the listing. *)
Fixpoint first_failure (env : Environ) (blobs : list Blob) (listing_failure : option exn)
  : option exn :=
  match blobs with
  | [] => listing_failure
  | b :: blobs' =>
      if survives env b then
        match retention_failure b with
        | Some e => Some e
        | None => first_failure env blobs' listing_failure
        end
      else first_failure env blobs' listing_failure
  end.

(** A container whose archives carry a week date, a calendar date and a
    week with an hour. *)
Definition week_blobs : list Blob :=
  [ mk_Blob "acme/ProjectX/svc-a/2025-W10-1.zip" (Some (utc 2025 3 3 9 0)) (Some 1048576%Z);
    mk_Blob "acme/ProjectX/svc-a/2025-03-02-0900.zip" (Some (utc 2025 3 2 9 0)) (Some 2097152%Z);
    mk_Blob "acme/ProjectX/svc-a/2025W10T09.zip" (Some (utc 2025 3 3 9 0)) (Some 1048576%Z) ].

(** A container whose second archive was modified too late for a
    retention date to exist. *)
Definition late_blobs : list Blob :=
  [ mk_Blob "acme/ProjectX/svc-a/2025-03-01-0900.zip" (Some (utc 2025 3 1 9 0)) (Some 1048576%Z);
    mk_Blob "acme/ProjectX/svc-a/2025-03-02-0900.zip" (Some (utc 9999 12 1 9 0)) (Some 2097152%Z) ].

(** ** Statements about the link issuer *)

(** [u] is a link to the blob of the version [v]: the unsigned URL of
    the blob path, which needs [client.account_url], or the URL of its
    blob client followed by a token. *)
Definition link_for (w : World) (client : BlobServiceClient) (v : BackupVersion)
  (u : string) : Prop :=
  plain_url w client (container_of (environ w)) (v_blob_path v) = Ok u
  \/ exists connection_string blob_client sas_token,
      nonempty (getenv (environ w) "AZURE_STORAGE_CONNECTION_STRING")
      = Some connection_string
      /\ Py.truthy (conn_get connection_string "AccountKey") = true
      /\ get_blob_client w client (container_of (environ w)) (v_blob_path v)
         = Ok blob_client
      /\ u = url blob_client ++ "?" ++ sas_token.

(** Two archives of one repository taken on the same day. *)
Definition same_day_blobs : list Blob :=
  [ mk_Blob "acme/ProjectX/svc-a/2025-03-02-0900.zip" (Some (utc 2025 3 2 9 0)) (Some 1048576%Z);
    mk_Blob "acme/ProjectX/svc-a/2025-03-02-1800.zip" (Some (utc 2025 3 2 18 0)) (Some 2097152%Z) ].

(** The versions a run reports, or none when it raises. *)
Definition reported (run : Exc (list BackupVersion) * state) : list BackupVersion :=
  match fst run with
  | Ok vs => vs
  | Raise _ => []
  end.

(** ** Statements about the restore *)

(** The one request of a restore to the destination host. *)
Definition the_post (pat target_org target_project target_repo_name : string) : event :=
  EvPost (create_repo_url_of target_org target_project) (headers_of pat)
    (create_payload_of target_repo_name target_project) 30.

(** The message of a successful creation. *)
Definition created_message (target_repo_name : string) : string :=
  "Repository " ++ target_repo_name
    ++ " created. Import backup manually or implement import API.".

(** A world whose destination host refuses the request. *)
Definition refusing_world : World :=
  world_with token_env scenario_blobs None connected
    (Ok (mk_Response 403 "Access denied" (Raise "no body"))).

(** ** Statements about the views *)

(** The message of the restore view for an incomplete request. *)
Definition fields_required : string :=
  "backup_id, target_org, target_project, and target_repo_name are required".

(** A request body with the given fields. *)
Definition request_of (fields : list (string * string)) : Api.RequestData :=
  fun k => match find (fun kv => String.eqb (fst kv) k) fields with
           | Some kv => Some (snd kv)
           | None => None
           end.

(** ** Statements about the connection string and the unsigned link *)

(** The connection string made of the given settings. *)
Definition conn_string (settings : list (string * string)) : string :=
  Py.join ";" (map (fun kv => fst kv ++ "=" ++ snd kv) settings).

(** The value of the last setting named [key], or the empty string. *)
Definition last_binding (settings : list (string * string)) (key : string) : string :=
  fold_left (fun found kv => if String.eqb (fst kv) key then snd kv else found)
    settings "".

(** A setting that can be written in a connection string. *)
Definition writable (kv : string * string) : Prop :=
  Py.contains ";" (fst kv) = false
  /\ Py.contains "=" (fst kv) = false
  /\ Py.contains ";" (snd kv) = false.

(** ** Statements about the menu registry *)

(** The definition binds the three required keys. *)
Definition menu_valid (m : Menu.definition) : Prop :=
  forall k, In k ["id"; "title"; "routes"] -> exists v, members_lookup m k = Some v.

(** The registry after a sequence of registrations, going on after a
    rejected one. *)
Fixpoint register_each (ms : list Menu.definition) (reg : Menu.registry)
  : Menu.registry :=
  match ms with
  | [] => reg
  | m :: ms' => register_each ms' (snd (Menu.register_module_menu m reg))
  end.

(** ** Statements about mock mode *)

(** A world in mock mode whose storage SDK is missing and whose
    destination host cannot be reached. *)
Definition mock_world : World :=
  {| environ := env_of [("DJANGO_BACKUPS_MOCK", "True")];
     AZURE_STORAGE_AVAILABLE := false;
     clock := fun _ => PyTime.mk_datetime 2025 3 10 12 0 0 0 None;
     from_connection_string := fun _ => Raise "no SDK";
     DefaultAzureCredential := Raise "no SDK";
     new_BlobServiceClient := fun _ => Raise "no SDK";
     get_container_client := fun _ _ => Raise "no SDK";
     list_blobs := fun _ _ => mk_Listing [] (Some "no SDK");
     get_blob_client := fun _ _ _ => Raise "no SDK";
     account_url := fun _ => Raise "no SDK";
     import_blob_sas := Raise "no SDK";
     generate_blob_sas := fun _ _ _ _ _ => Raise "no SDK";
     import_requests := Raise "No module named 'requests'";
     requests_post := fun _ _ _ _ => Raise "unreachable"
  |}.

(** * Properties *)

(** ** Sanity checks of the model *)

Example parse_ex1 :
  _parse_blob_path no_env "acme/ProjectX/svc-a/2025-03-01-0900.zip"
  = Some [("org", VStr "acme"); ("project", VStr "ProjectX"); ("repo", VStr "svc-a");
          ("date_str", VStr "2025-03-01");
          ("blob_name", VStr "acme/ProjectX/svc-a/2025-03-01-0900.zip")].
Proof. reflexivity. Qed.

Example parse_ex2 : _parse_blob_path no_env "a/b/c" = None.
Proof. reflexivity. Qed.

Example parse_ex3 :
  _parse_blob_path no_env "a/b/c/d/e.zip"
  = Some [("org", VStr "a"); ("project", VStr "b"); ("repo", VStr "c/d");
          ("date_str", VNone); ("blob_name", VStr "a/b/c/d/e.zip")].
Proof. reflexivity. Qed.

Example replace_ex : Py.replace "2025.zip-03-01.zip" ".zip" "" = "2025-03-01".
Proof. reflexivity. Qed.

Example iso_ex1 :
  PyTime.isoformat (PyTime.mk_datetime 2025 3 2 9 0 0 0 (Some 0%Z))
  = "2025-03-02T09:00:00+00:00".
Proof. reflexivity. Qed.

Example iso_ex2 :
  PyTime.fromisoformat "2025-03-02" = Ok (PyTime.mk_datetime 2025 3 2 0 0 0 0 None).
Proof. reflexivity. Qed.

Example iso_ex3 :
  PyTime.sub_days (PyTime.mk_datetime 2024 3 2 9 0 0 5 None) 3
  = Ok (PyTime.mk_datetime 2024 2 28 9 0 0 5 None).
Proof. reflexivity. Qed.

Example quote_ex :
  Codec.quote "acme/ProjectX/svc a/2025-03-01-0900.zip"
  = "acme%2FProjectX%2Fsvc%20a%2F2025-03-01-0900.zip".
Proof. reflexivity. Qed.

Example b64_ex : Codec.b64encode (Codec.utf8 ":secret") = "OnNlY3JldA==".
Proof. reflexivity. Qed.

(** ** Path parser *)

Lemma skip_prefix_length (prefix : string) (parts : list string) :
  (List.length parts - 1 <= List.length (skip_prefix prefix parts) <= List.length parts)%nat.
Proof.
  unfold skip_prefix.
  destruct (Py.truthy prefix && String.eqb (nth 0 parts "") prefix).
  - rewrite length_skipn. lia.
  - lia.
Qed.

Lemma parse_some_of_four (env : Environ) (key : string) :
  (4 <= List.length (Py.split "/" (Py.strip "/" key)))%nat ->
  exists d, _parse_blob_path env key = Some d.
Proof.
  intros Hlen. unfold _parse_blob_path.
  destruct (Nat.ltb_spec (List.length (Py.split "/" (Py.strip "/" key))) 4) as [Hlt | _];
    [lia |].
  pose proof (skip_prefix_length (storage_prefix env) (Py.split "/" (Py.strip "/" key))) as Hskip.
  destruct (Nat.ltb_spec
              (List.length (skip_prefix (storage_prefix env)
                              (Py.split "/" (Py.strip "/" key)))) 3) as [Hlt | _];
    [lia |].
  destruct (split_repo_filename _) as [repo filename].
  eexists. reflexivity.
Qed.

(** C3, as amended.  The parser answers [None] exactly when the key,
    trimmed of leading and trailing slashes and split on [/], has fewer
    than four segments, the count being taken before the optional prefix
    segment is dropped; in particular a key with fewer than three
    segments besides the prefix is answered by [None]. *)
Theorem parse_none_iff_fewer_than_four (env : Environ) (key : string) :
  (_parse_blob_path env key = None
   <-> (List.length (Py.split "/" (Py.strip "/" key)) < 4)%nat)
  /\ ((List.length (non_prefix_segments env key) < 3)%nat ->
      _parse_blob_path env key = None).
Proof.
  assert (Hiff : _parse_blob_path env key = None
                 <-> (List.length (Py.split "/" (Py.strip "/" key)) < 4)%nat).
  { split.
    - intros Hnone.
      destruct (Nat.lt_ge_cases (List.length (Py.split "/" (Py.strip "/" key))) 4)
        as [Hlt | Hge]; [exact Hlt |].
      destruct (parse_some_of_four env key Hge) as [d Hd]. congruence.
    - intros Hlt. unfold _parse_blob_path.
      apply Nat.ltb_lt in Hlt. rewrite Hlt. reflexivity. }
  split; [exact Hiff |].
  intros Hfew. apply Hiff.
  pose proof (skip_prefix_length (storage_prefix env) (Py.split "/" (Py.strip "/" key))).
  unfold non_prefix_segments in Hfew. lia.
Qed.

Lemma parse_none_iff_fewer_than_four_witness :
  (List.length (non_prefix_segments no_env "acme/ProjectX") < 3)%nat
  /\ _parse_blob_path no_env "acme/ProjectX" = None.
Proof.
  split.
  - vm_compute. lia.
  - apply (parse_none_iff_fewer_than_four no_env "acme/ProjectX"). vm_compute. lia.
Defined.

(** C3, as stated, fails: with no prefix configured the key [a/b/c]
    keeps three segments, which is not fewer than three, and yet the
    parser answers [None]. *)
Lemma parse_none_three_segments :
  ~ (forall (env : Environ) (key : string),
        _parse_blob_path env key = None
        <-> ((List.length (non_prefix_segments env key) < 4)%nat
             /\ (List.length (non_prefix_segments env key) < 3)%nat)).
Proof.
  intros H.
  destruct (H no_env "a/b/c") as [Hforward _].
  destruct (Hforward eq_refl) as [_ Hthree].
  vm_compute in Hthree. lia.
Qed.

(** ** Version identifiers *)

(** The dictionary returned by the parser always binds ["date_str"]. *)
Lemma parsed_binds_date_str (env : Environ) (key : string) (parsed : dict) :
  _parse_blob_path env key = Some parsed ->
  exists v, dict_lookup parsed "date_str" = Some v.
Proof.
  unfold _parse_blob_path.
  destruct (List.length (Py.split "/" (Py.strip "/" key)) <? 4)%nat; [discriminate |].
  destruct (List.length (skip_prefix _ _) <? 3)%nat; [discriminate |].
  destruct (split_repo_filename _) as [repo filename].
  intros H. injection H as <-. eexists. reflexivity.
Qed.

(** Hence the default of [parsed.get('date_str', blob.name)] is never
    taken: the identifier is built from the stored value, [None]
    included. *)
Lemma version_id_ignores_blob_name (env : Environ) (key : string) (parsed : dict)
  (default : value) :
  _parse_blob_path env key = Some parsed ->
  dict_get parsed "date_str" default = dict_get parsed "date_str" VNone.
Proof.
  intros H. destruct (parsed_binds_date_str env key parsed H) as [v Hv].
  unfold dict_get. rewrite Hv. reflexivity.
Qed.

(** C1, at the failing input.  An archive whose file name carries no date
    is listed under the identifier ending in [None]; the raw key the
    claim asks for does not appear in it. *)
Theorem undated_version_id_is_None :
  fst (list_backup_versions (calm_world account_env undated_blobs)
         "acme-ProjectX-svc-a" init)
  = Ok [ mk_BackupVersion "acme-ProjectX-svc-a-None"
           "2025-03-01T09:00:00+00:00" 1048576 (round2_div 1048576 1048576)
           (Some "2025-05-30T09:00:00+00:00")
           "acme/ProjectX/svc-a/backup.zip" ]
  /\ "acme-ProjectX-svc-a-None"
     <> "acme-ProjectX-svc-a" ++ "-" ++ "acme/ProjectX/svc-a/backup.zip".
Proof.
  split.
  - vm_compute. reflexivity.
  - vm_compute. discriminate.
Qed.

(** ** Date extraction *)

(** C4, at the failing input.  [replace] removes every [.zip] of the file
    name, not the suffix only: for [x.zip12345.zip] the remainder after
    the suffix has ten characters, so the claim expects them as the
    date, while the code is left with [x12345] and reports no date. *)
Theorem extract_date_removes_every_zip :
  spec_extract_date "x.zip12345.zip" = VStr "x.zip12345"
  /\ extract_date "x.zip12345.zip" = VNone
  /\ _parse_blob_path no_env "acme/ProjectX/svc-a/x.zip12345.zip"
     = Some [("org", VStr "acme"); ("project", VStr "ProjectX"); ("repo", VStr "svc-a");
             ("date_str", VNone);
             ("blob_name", VStr "acme/ProjectX/svc-a/x.zip12345.zip")].
Proof. repeat split; vm_compute; reflexivity. Qed.

(** ** Well-formed keys *)

Lemma length_append (a b : string) :
  String.length (a ++ b) = (String.length a + String.length b)%nat.
Proof. induction a as [| x a IH]; cbn; [reflexivity | rewrite IH; reflexivity]. Qed.

Lemma append_assoc (a b c : string) : (a ++ b) ++ c = a ++ (b ++ c).
Proof. induction a as [| x a IH]; cbn; [reflexivity | rewrite IH; reflexivity]. Qed.

Lemma split_without (c : ascii) (s : string) :
  Py.contains c s = false -> Py.split c s = [s].
Proof.
  induction s as [| a s IH]; cbn; [reflexivity |].
  intros H. apply orb_false_iff in H. destruct H as [Ha Hs].
  rewrite Ha, (IH Hs). reflexivity.
Qed.

Lemma split_segment (c : ascii) (a rest : string) :
  Py.contains c a = false ->
  Py.split c (a ++ String c rest) = a :: Py.split c rest.
Proof.
  induction a as [| x a IH]; cbn.
  - intros _. rewrite Ascii.eqb_refl. reflexivity.
  - intros H. apply orb_false_iff in H. destruct H as [Hx Ha].
    rewrite Hx, (IH Ha). reflexivity.
Qed.

Lemma contains_append (c : ascii) (a b : string) :
  Py.contains c (a ++ b) = Py.contains c a || Py.contains c b.
Proof.
  induction a as [| x a IH]; cbn; [reflexivity |].
  rewrite IH, orb_assoc. reflexivity.
Qed.

Lemma rsplit_once_without (c : ascii) (s : string) :
  Py.contains c s = false -> Py.rsplit_once c s = [s].
Proof.
  induction s as [| a s IH]; cbn; [reflexivity |].
  intros H. apply orb_false_iff in H. destruct H as [Ha Hs].
  rewrite (IH Hs), Ha. reflexivity.
Qed.

Lemma rsplit_once_last (c : ascii) (a f : string) :
  Py.contains c f = false ->
  Py.rsplit_once c (a ++ String c f) = [a; f].
Proof.
  intros Hf. induction a as [| x a IH]; cbn.
  - rewrite (rsplit_once_without c f Hf), Ascii.eqb_refl. destruct f; reflexivity.
  - rewrite IH. reflexivity.
Qed.

Lemma lstrip_clean (c : ascii) (s : string) :
  Py.truthy s = true -> Py.contains c s = false ->
  forall rest, Py.lstrip c (s ++ rest) = s ++ rest.
Proof.
  destruct s as [| a s]; [discriminate |].
  cbn. intros _ H rest. apply orb_false_iff in H. destruct H as [Ha _].
  rewrite Ha. reflexivity.
Qed.

Lemma rstrip_zip (s : string) : Py.rstrip "/" (s ++ ".zip") = s ++ ".zip".
Proof.
  induction s as [| a s IH]; [reflexivity |].
  cbn [append Py.rstrip]. rewrite IH. destruct s; reflexivity.
Qed.

Lemma substring_append_right (a b : string) :
  substring (String.length a) (String.length b) (a ++ b) = b.
Proof.
  induction a as [| x a IH]; cbn [String.length append substring]; [| exact IH].
  induction b as [| y b IHb]; cbn; [reflexivity | rewrite IHb; reflexivity].
Qed.

Lemma endswith_append (s p : string) : Py.endswith (s ++ p) p = true.
Proof.
  unfold Py.endswith. rewrite length_append.
  replace (String.length s + String.length p - String.length p)%nat
    with (String.length s) by lia.
  rewrite substring_append_right, String.eqb_refl.
  destruct (Nat.leb_spec (String.length p) (String.length s + String.length p));
    [reflexivity | lia].
Qed.

(** On a stem without a dot, removing every [.zip] removes the suffix
    only. *)
Lemma replace_zip_suffix (stem : string) :
  Py.contains "." stem = false -> Py.replace (stem ++ ".zip") ".zip" "" = stem.
Proof.
  unfold Py.replace. induction stem as [| a stem IH]; [reflexivity |].
  intros H. cbn in H. apply orb_false_iff in H. destruct H as [Ha Hstem].
  cbn [append Py.replace_from]. cbn [String.prefix].
  destruct (ascii_dec "." a) as [<- | Hne]; [discriminate |].
  rewrite (IH Hstem). reflexivity.
Qed.

Lemma substring_append_left (a b : string) :
  substring 0 (String.length a) (a ++ b) = a.
Proof.
  induction a as [| x a IH]; cbn; [destruct b; reflexivity | rewrite IH; reflexivity].
Qed.

(** The code and the wording of the specification extract the same date
    from a file name whose stem holds no dot. *)
Lemma extract_date_agrees (stem : string) :
  Py.contains "." stem = false ->
  extract_date (stem ++ ".zip") = spec_extract_date (stem ++ ".zip").
Proof.
  intros H. unfold extract_date, spec_extract_date.
  rewrite endswith_append, (replace_zip_suffix stem H), length_append.
  cbn [String.length].
  replace (String.length stem + 4 - 4)%nat with (String.length stem) by lia.
  rewrite substring_append_left. reflexivity.
Qed.

(** The second half of C4.  For a key of the shape
    [{prefix}/org/project/repo/stamp.zip], where the configured prefix is
    one segment or none and the stamp has at least ten characters, no
    slash and no dot (as [YYYY-MM-DD-HHMM] has), the parser recovers the
    organisation, the project and the repository exactly, and the date is
    the first ten characters of the stamp. *)
Lemma parse_well_formed_key (env : Environ) (org project repo stamp : string) :
  Py.contains "/" (storage_prefix env) = false ->
  segment org -> segment project -> segment repo ->
  Py.contains "/" stamp = false -> Py.contains "." stamp = false ->
  (10 <= String.length stamp)%nat ->
  _parse_blob_path env (well_formed_key (storage_prefix env) org project repo stamp)
  = Some [ ("org", VStr org); ("project", VStr project); ("repo", VStr repo);
           ("date_str", VStr (substring 0 10 stamp));
           ("blob_name",
            VStr (well_formed_key (storage_prefix env) org project repo stamp)) ].
Proof.
  intros Hprefix [Horg Horg'] [Hproject Hproject'] [Hrepo Hrepo'] Hstamp Hdot Hlen.
  assert (Hfile : Py.contains "/" (stamp ++ ".zip") = false)
    by (rewrite contains_append, Hstamp; reflexivity).
  assert (Hdate : extract_date (stamp ++ ".zip") = VStr (substring 0 10 stamp)).
  { unfold extract_date. rewrite endswith_append, (replace_zip_suffix stamp Hdot).
    destruct (Nat.leb_spec 10 (String.length stamp)); [reflexivity | lia]. }
  assert (Hsplit : forall tail,
             Py.contains "/" tail = false ->
             split_repo_filename (repo ++ "/" ++ tail) = (repo, tail)).
  { intros tail Htail. unfold split_repo_filename.
    rewrite contains_append. cbn [append Py.contains]. rewrite Ascii.eqb_refl, orb_true_r.
    rewrite (rsplit_once_last "/" repo tail Htail). reflexivity. }
  assert (Hparts : Py.split "/" (org ++ "/" ++ project ++ "/" ++ repo ++ "/" ++ stamp ++ ".zip")
                   = [org; project; repo; stamp ++ ".zip"]).
  { cbn [append].
    rewrite (split_segment "/" org _ Horg'), (split_segment "/" project _ Hproject'),
      (split_segment "/" repo _ Hrepo'), (split_without "/" _ Hfile). reflexivity. }
  unfold _parse_blob_path.
  set (key := well_formed_key (storage_prefix env) org project repo stamp).
  assert (Hstrip : Py.strip "/" key = key).
  { unfold Py.strip, key, well_formed_key.
    destruct (Py.truthy (storage_prefix env)) eqn:Htruthy.
    - rewrite !append_assoc.
      rewrite (lstrip_clean "/" (storage_prefix env) Htruthy Hprefix).
      rewrite <- !append_assoc. apply rstrip_zip.
    - change ("" ++ ?x) with x. rewrite (lstrip_clean "/" org Horg Horg').
      rewrite <- !append_assoc. apply rstrip_zip. }
  rewrite Hstrip. unfold key, well_formed_key.
  destruct (Py.truthy (storage_prefix env)) eqn:Htruthy.
  - rewrite !append_assoc. cbn [append].
    rewrite (split_segment "/" (storage_prefix env) _ Hprefix).
    change (String "/" (project ++ String "/" (repo ++ String "/" (stamp ++ ".zip"))))
      with ("/" ++ project ++ "/" ++ repo ++ "/" ++ stamp ++ ".zip").
    rewrite Hparts. cbn [List.length Nat.ltb Nat.leb].
    unfold skip_prefix. rewrite Htruthy. cbn [nth andb]. rewrite String.eqb_refl.
    cbn [skipn List.length Nat.ltb Nat.leb nth Py.join].
    rewrite (Hsplit _ Hfile), Hdate. reflexivity.
  - cbn [append].
    change (String "/" (project ++ String "/" (repo ++ String "/" (stamp ++ ".zip"))))
      with ("/" ++ project ++ "/" ++ repo ++ "/" ++ stamp ++ ".zip").
    rewrite Hparts. cbn [List.length Nat.ltb Nat.leb].
    unfold skip_prefix. rewrite Htruthy. cbn [andb].
    cbn [skipn List.length Nat.ltb Nat.leb nth Py.join].
    rewrite (Hsplit _ Hfile), Hdate. reflexivity.
Qed.

Lemma parse_well_formed_key_example :
  _parse_blob_path (env_of [("AZURE_STORAGE_PREFIX", "/backups/")])
    "backups/acme/ProjectX/svc-a/2025-03-01-0900.zip"
  = Some [ ("org", VStr "acme"); ("project", VStr "ProjectX"); ("repo", VStr "svc-a");
           ("date_str", VStr "2025-03-01");
           ("blob_name", VStr "backups/acme/ProjectX/svc-a/2025-03-01-0900.zip") ].
Proof.
  apply (parse_well_formed_key (env_of [("AZURE_STORAGE_PREFIX", "/backups/")])
           "acme" "ProjectX" "svc-a" "2025-03-01-0900");
    try (split; reflexivity); try reflexivity.
  cbn. lia.
Defined.

(** ** Catalog *)

Lemma parse_depends_on_prefix (env env' : Environ) (key : string) :
  storage_prefix env = storage_prefix env' ->
  _parse_blob_path env key = _parse_blob_path env' key.
Proof. intros H. unfold _parse_blob_path. rewrite H. reflexivity. Qed.

Lemma catalog_step_depends_on_prefix (w w' : World) (m : repos) (b : Blob) :
  storage_prefix (environ w) = storage_prefix (environ w') ->
  catalog_step w m b = catalog_step w' m b.
Proof.
  intros H. unfold catalog_step.
  rewrite (parse_depends_on_prefix (environ w) (environ w') (name b) H).
  reflexivity.
Qed.

(** Evaluate a step of the catalog loop whose world and blob name are
    known. *)
Ltac run_catalog_step :=
  match goal with
  | |- context [catalog_step ?w0 ?m ?b] =>
      let r := eval vm_compute in (catalog_step w0 m b) in
      change (catalog_step w0 m b) with r
  end.

(** C9.  When no prefix is configured and the listing yields exactly the
    two archives of scenario A, in either order, the catalog is the single
    summary of [acme-ProjectX-svc-a] with two backups, and its last backup
    is the later calendar date, 2025-03-02, written as midnight of that
    day. *)
Theorem scenario_A_single_summary (w : World) (client : BlobServiceClient)
  (cc : ContainerClient) (b1 b2 : Blob) (s : state) :
  MOCK_MODE (environ w) = false ->
  _get_storage_client w = Ok (Some client) ->
  storage_prefix (environ w) = "" ->
  get_container_client w client
    (getenv_default (environ w) "AZURE_STORAGE_CONTAINER" "git-backups") = Ok cc ->
  list_blobs w cc "" = mk_Listing [b1; b2] None ->
  (name b1 = "acme/ProjectX/svc-a/2025-03-01-0900.zip"
   /\ name b2 = "acme/ProjectX/svc-a/2025-03-02-0900.zip")
  \/ (name b1 = "acme/ProjectX/svc-a/2025-03-02-0900.zip"
      /\ name b2 = "acme/ProjectX/svc-a/2025-03-01-0900.zip") ->
  fst (list_repositories w s) = Ok [scenario_summary]
  /\ r_id scenario_summary = "acme-ProjectX-svc-a"
  /\ r_backup_count scenario_summary = 2%Z
  /\ option_map (Py.slice_to 10) (r_last_backup scenario_summary) = Some "2025-03-02".
Proof.
  intros Hmock Hclient Hprefix Hcc Hlist Hnames.
  split; [| repeat split].
  unfold list_repositories. rewrite Hmock.
  unfold lift, try_except, for_blobs. cbn [bind M_Monad].
  rewrite Hclient, Hprefix. cbn [Py.truthy].
  rewrite Hcc. cbn [emit]. rewrite Hlist.
  cbn [yielded failure for_each bind M_Monad].
  assert (Hsame : storage_prefix (environ w) = storage_prefix (environ (calm_world no_env [])))
    by (rewrite Hprefix; reflexivity).
  rewrite (catalog_step_depends_on_prefix w _ [] b1 Hsame).
  destruct b1 as [n1 lm1 sz1], b2 as [n2 lm2 sz2]. cbn [name] in Hnames.
  destruct Hnames as [[-> ->] | [-> ->]].
  - run_catalog_step. cbn iota beta.
    rewrite (catalog_step_depends_on_prefix w _ _ _ Hsame).
    run_catalog_step. reflexivity.
  - run_catalog_step. cbn iota beta.
    rewrite (catalog_step_depends_on_prefix w _ _ _ Hsame).
    run_catalog_step. reflexivity.
Qed.

Lemma scenario_A_single_summary_witness :
  fst (list_repositories (calm_world account_env scenario_blobs) init)
  = Ok [scenario_summary].
Proof.
  apply (scenario_A_single_summary (calm_world account_env scenario_blobs)
           (mk_BlobServiceClient "https://acct.blob.core.windows.net")
           (mk_ContainerClient "git-backups")
           (mk_Blob "acme/ProjectX/svc-a/2025-03-01-0900.zip" (Some (utc 2025 3 1 9 0))
              (Some 1048576%Z))
           (mk_Blob "acme/ProjectX/svc-a/2025-03-02-0900.zip" (Some (utc 2025 3 2 9 0))
              (Some 2097152%Z))
           init).
  - reflexivity.
  - reflexivity.
  - reflexivity.
  - reflexivity.
  - reflexivity.
  - left. split; reflexivity.
Defined.

(** ** Order on strings *)

Lemma compare_refl (s : string) : String.compare s s = Eq.
Proof.
  induction s as [| a s IH]; [reflexivity |].
  cbn. unfold Ascii.compare. rewrite N.compare_refl. exact IH.
Qed.

Lemma compare_lt_trans (a b c : string) :
  String.compare a b = Lt -> String.compare b c = Lt -> String.compare a c = Lt.
Proof.
  revert b c. induction a as [| x a IH]; intros [| y b] [| z c]; cbn;
    try discriminate; try reflexivity.
  unfold Ascii.compare.
  destruct (N.compare_spec (N_of_ascii x) (N_of_ascii y)) as [Hxy | Hxy | Hxy];
    destruct (N.compare_spec (N_of_ascii y) (N_of_ascii z)) as [Hyz | Hyz | Hyz];
    try discriminate; intros H1 H2.
  - rewrite Hxy, Hyz, N.compare_refl. eauto.
  - rewrite Hxy. apply N.compare_lt_iff in Hyz. rewrite Hyz. reflexivity.
  - rewrite <- Hyz. apply N.compare_lt_iff in Hxy. rewrite Hxy. reflexivity.
  - assert (Hxz : (N_of_ascii x < N_of_ascii z)%N) by lia.
    apply N.compare_lt_iff in Hxz. rewrite Hxz. reflexivity.
Qed.

Lemma ltb_false_ge (a b : string) : String.ltb a b = false -> str_ge a b.
Proof.
  unfold String.ltb, str_ge, String.leb. rewrite (String.compare_antisym b a).
  destruct (String.compare a b); cbn; congruence.
Qed.

Lemma ltb_true_ge (a b : string) : String.ltb a b = true -> str_ge b a.
Proof.
  unfold String.ltb, str_ge, String.leb.
  destruct (String.compare a b); cbn; congruence.
Qed.

Lemma ltb_true_neq (a b : string) : String.ltb a b = true -> a <> b.
Proof.
  unfold String.ltb. intros H ->. rewrite compare_refl in H. discriminate.
Qed.

Lemma str_ge_refl (a : string) : str_ge a a.
Proof. unfold str_ge, String.leb. rewrite compare_refl. reflexivity. Qed.

Lemma str_ge_trans (a b c : string) : str_ge a b -> str_ge b c -> str_ge a c.
Proof.
  unfold str_ge, String.leb. intros Hab Hbc.
  destruct (String.compare b a) eqn:Eba; try discriminate;
    destruct (String.compare c b) eqn:Ecb; try discriminate.
  - apply String.compare_eq_iff in Eba, Ecb. subst. rewrite compare_refl. reflexivity.
  - apply String.compare_eq_iff in Eba. subst. rewrite Ecb. reflexivity.
  - apply String.compare_eq_iff in Ecb. subst. rewrite Eba. reflexivity.
  - rewrite (compare_lt_trans c b a Ecb Eba). reflexivity.
Qed.

(** ** The sort *)

Section SortFacts.
Context {A : Type} (key : A -> string).

Lemma insert_desc_perm (x : A) (l : list A) :
  Permutation (x :: l) (insert_desc key x l).
Proof.
  induction l as [| y l IH]; cbn; [reflexivity |].
  destruct (String.ltb (key x) (key y)); [| reflexivity].
  rewrite perm_swap. constructor. exact IH.
Qed.

Lemma sort_desc_perm (l : list A) : Permutation l (sort_desc key l).
Proof.
  induction l as [| x l IH]; cbn; [constructor |].
  rewrite <- insert_desc_perm. constructor. exact IH.
Qed.

Lemma insert_desc_sorted (x : A) (l : list A) :
  StronglySorted (before key) l -> StronglySorted (before key) (insert_desc key x l).
Proof.
  induction 1 as [| y l Hl IH Hy]; cbn.
  - repeat constructor.
  - destruct (String.ltb (key x) (key y)) eqn:E.
    + constructor; [exact IH |].
      rewrite <- (insert_desc_perm x l).
      constructor; [apply ltb_true_ge; exact E | exact Hy].
    + constructor; [constructor; assumption |].
      assert (Hxy : before key x y) by (apply ltb_false_ge; exact E).
      constructor; [exact Hxy |].
      eapply Forall_impl; [| exact Hy].
      intros z Hz. unfold before in *. eapply str_ge_trans; eassumption.
Qed.

Lemma sort_desc_sorted (l : list A) : StronglySorted (before key) (sort_desc key l).
Proof.
  induction l as [| x l IH]; cbn; [constructor |].
  apply insert_desc_sorted. exact IH.
Qed.

Lemma insert_desc_keyed (t : string) (x : A) (l : list A) :
  keyed key t (insert_desc key x l) = keyed key t (x :: l).
Proof.
  induction l as [| y l IH]; [reflexivity |].
  cbn [insert_desc]. destruct (String.ltb (key x) (key y)) eqn:E; [| reflexivity].
  apply ltb_true_neq in E.
  unfold keyed in *. cbn [filter] in *. rewrite IH.
  destruct (String.eqb_spec (key x) t) as [Hx | Hx];
    destruct (String.eqb_spec (key y) t) as [Hy | Hy]; try reflexivity.
  congruence.
Qed.

(** Stability: sorting does not reorder the elements of equal key. *)
Lemma sort_desc_stable (t : string) (l : list A) :
  keyed key t (sort_desc key l) = keyed key t l.
Proof.
  induction l as [| x l IH]; [reflexivity |].
  cbn [sort_desc]. rewrite insert_desc_keyed.
  unfold keyed in *. cbn [filter]. rewrite IH. reflexivity.
Qed.

End SortFacts.

(** ** Formatted dates sort like dates *)

Lemma compare_common_prefix (p u v : string) :
  String.compare (p ++ u) (p ++ v) = String.compare u v.
Proof.
  induction p as [| x p IH]; cbn; [reflexivity |].
  unfold Ascii.compare. rewrite N.compare_refl. exact IH.
Qed.

Lemma compare_lt_append (a b x y : string) :
  String.length a = String.length b ->
  String.compare a b = Lt ->
  String.compare (a ++ x) (b ++ y) = Lt.
Proof.
  revert b. induction a as [| c a IH]; intros [| d b]; cbn; try discriminate.
  intros Hlen. injection Hlen as Hlen.
  destruct (Ascii.compare c d); try discriminate; auto.
Qed.

Lemma pad_length (w : nat) (z : Z) : String.length (PyTime.pad w z) = w.
Proof.
  revert z. induction w as [| w IH]; intros z; cbn; [reflexivity |].
  rewrite length_append, IH. cbn. lia.
Qed.

Lemma digit_code (z : Z) : N_of_ascii (PyTime.digit z) = Z.to_N (48 + z mod 10).
Proof.
  unfold PyTime.digit. apply N_ascii_embedding.
  pose proof (Z.mod_pos_bound z 10 ltac:(lia)). lia.
Qed.

(** Zero-padded numerals of one width compare like the numbers. *)
Lemma pad_increasing (w : nat) (a b : Z) :
  (0 <= a < b)%Z -> (b < 10 ^ Z.of_nat w)%Z ->
  String.compare (PyTime.pad w a) (PyTime.pad w b) = Lt.
Proof.
  revert a b. induction w as [| w IH]; intros a b Hab Hb.
  - cbn in Hb. lia.
  - cbn [PyTime.pad].
    rewrite Nat2Z.inj_succ, Z.pow_succ_r in Hb by lia.
    destruct (Z.eq_dec (a / 10) (b / 10)) as [Heq | Hne].
    + rewrite Heq, compare_common_prefix. cbn.
      unfold Ascii.compare. rewrite !digit_code.
      assert (Hmod : (a mod 10 < b mod 10)%Z).
      { pose proof (Z.div_mod a 10 ltac:(lia)). pose proof (Z.div_mod b 10 ltac:(lia)). lia. }
      pose proof (Z.mod_pos_bound a 10 ltac:(lia)).
      pose proof (Z.mod_pos_bound b 10 ltac:(lia)).
      assert (Hlt : (Z.to_N (48 + a mod 10) < Z.to_N (48 + b mod 10))%N) by lia.
      apply N.compare_lt_iff in Hlt. rewrite Hlt. reflexivity.
    + apply compare_lt_append; [rewrite !pad_length; reflexivity |].
      apply IH.
      * assert (a / 10 <= b / 10)%Z by (apply Z.div_le_mono; lia).
        assert (0 <= a / 10)%Z by (apply Z.div_pos; lia). lia.
      * apply Z.div_lt_upper_bound; lia.
Qed.

Lemma days_in_month_bounds (y m : Z) : (28 <= PyTime.days_in_month y m <= 31)%Z.
Proof.
  unfold PyTime.days_in_month.
  destruct (m =? 2)%Z; [destruct (PyTime.is_leap y); lia |].
  destruct ((m =? 4) || (m =? 6) || (m =? 9) || (m =? 11))%Z; lia.
Qed.

Lemma valid_date_iff (y m d : Z) :
  PyTime.valid_date y m d = true
  <-> (1 <= y <= 9999 /\ 1 <= m <= 12 /\ 1 <= d <= PyTime.days_in_month y m)%Z.
Proof.
  unfold PyTime.valid_date. rewrite !andb_true_iff, !Z.leb_le. tauto.
Qed.

Lemma valid_split (t : PyTime.datetime) :
  PyTime.valid t = true
  <-> PyTime.valid_date (PyTime.year t) (PyTime.month t) (PyTime.day t) = true
      /\ ((0 <=? PyTime.hour t) && (PyTime.hour t <=? 23)
          && (0 <=? PyTime.minute t) && (PyTime.minute t <=? 59)
          && (0 <=? PyTime.second t) && (PyTime.second t <=? 59)
          && (0 <=? PyTime.microsecond t) && (PyTime.microsecond t <=? 999999))%Z = true.
Proof.
  unfold PyTime.valid. rewrite !andb_true_iff. tauto.
Qed.

Lemma isoformat_date_first (t : PyTime.datetime) :
  exists rest,
    (forall y m d, PyTime.isoformat (PyTime.with_date t y m d)
                   = PyTime.pad 4 y ++ "-" ++ PyTime.pad 2 m ++ "-" ++ PyTime.pad 2 d ++ rest)
    /\ PyTime.isoformat t
       = PyTime.pad 4 (PyTime.year t) ++ "-" ++ PyTime.pad 2 (PyTime.month t) ++ "-"
           ++ PyTime.pad 2 (PyTime.day t) ++ rest.
Proof.
  eexists. split.
  - intros y m d. unfold PyTime.isoformat, PyTime.fmt_date, PyTime.with_date.
    cbn [PyTime.year PyTime.month PyTime.day PyTime.hour PyTime.minute PyTime.second
           PyTime.microsecond PyTime.utcoffset].
    rewrite !append_assoc. reflexivity.
  - unfold PyTime.isoformat, PyTime.fmt_date. rewrite !append_assoc. reflexivity.
Qed.

(** The day before a valid date is valid and is formatted strictly
    lower. *)
Lemma pred_day_earlier (t t' : PyTime.datetime) (suffix : string) :
  PyTime.valid t = true ->
  PyTime.pred_day t = Ok t' ->
  PyTime.valid t' = true
  /\ String.compare (PyTime.isoformat t' ++ suffix) (PyTime.isoformat t ++ suffix) = Lt.
Proof.
  intros Hvalid Hpred.
  apply valid_split in Hvalid. destruct Hvalid as [Hdate Htime].
  apply valid_date_iff in Hdate. destruct Hdate as (Hy & Hm & Hd).
  destruct (isoformat_date_first t) as (rest & Hwith & Hself).
  pose proof (days_in_month_bounds (PyTime.year t) (PyTime.month t)) as Hdim.
  rewrite Hself. unfold PyTime.pred_day in Hpred.
  destruct (Z.ltb_spec 1 (PyTime.day t)) as [Hday | Hday].
  - injection Hpred as <-. split.
    + apply valid_split. split; [| exact Htime].
      apply valid_date_iff. cbn. lia.
    + rewrite Hwith, !append_assoc.
      rewrite (compare_common_prefix (PyTime.pad 4 _)).
      rewrite (compare_common_prefix "-").
      rewrite (compare_common_prefix (PyTime.pad 2 _)).
      rewrite (compare_common_prefix "-").
      apply compare_lt_append; [rewrite !pad_length; reflexivity |].
      apply pad_increasing; cbn; lia.
  - destruct (Z.ltb_spec 1 (PyTime.month t)) as [Hmonth | Hmonth].
    + injection Hpred as <-. split.
      * apply valid_split. split; [| exact Htime].
        apply valid_date_iff. cbn.
        pose proof (days_in_month_bounds (PyTime.year t) (PyTime.month t - 1)). lia.
      * rewrite Hwith, !append_assoc.
        rewrite (compare_common_prefix (PyTime.pad 4 _)).
        rewrite (compare_common_prefix "-").
        apply compare_lt_append; [rewrite !pad_length; reflexivity |].
        apply pad_increasing; cbn; lia.
    + destruct (Z.ltb_spec 1 (PyTime.year t)) as [Hyear | Hyear]; [| discriminate].
      injection Hpred as <-. split.
      * apply valid_split. split; [| exact Htime].
        apply valid_date_iff. cbn. lia.
      * rewrite Hwith, !append_assoc.
        apply compare_lt_append; [rewrite !pad_length; reflexivity |].
        apply pad_increasing; cbn; lia.
Qed.

(** ** Version lister *)

Lemma iter_days_last (step : PyTime.datetime -> Exc PyTime.datetime) (n : nat)
  (t : PyTime.datetime) :
  PyTime.iter_days step (S n) t
  = match PyTime.iter_days step n t with
    | Ok t' => step t'
    | Raise e => Raise e
    end.
Proof.
  revert t. induction n as [| n IH]; intros t.
  - cbn. destruct (step t); reflexivity.
  - cbn [PyTime.iter_days] in *. destruct (step t) as [t1 | e]; [| reflexivity].
    apply IH.
Qed.

Lemma sub_days_monotone (base : PyTime.datetime) (suffix : string) :
  PyTime.valid base = true ->
  forall (j i : nat) (di dj : PyTime.datetime),
    (i <= j)%nat ->
    PyTime.sub_days base i = Ok di ->
    PyTime.sub_days base j = Ok dj ->
    PyTime.valid dj = true
    /\ str_ge (PyTime.isoformat di ++ suffix) (PyTime.isoformat dj ++ suffix).
Proof.
  intros Hbase. unfold PyTime.sub_days.
  induction j as [| j IH]; intros i di dj Hle Hi Hj.
  - assert (i = 0)%nat as -> by lia. cbn in Hi, Hj.
    injection Hi as <-. injection Hj as <-. split; [exact Hbase | apply str_ge_refl].
  - rewrite iter_days_last in Hj.
    destruct (PyTime.iter_days PyTime.pred_day j base) as [dk | e] eqn:Hk; [| discriminate].
    destruct (IH j dk dk (le_n j) Hk eq_refl) as [Hvalid _].
    destruct (pred_day_earlier dk dj suffix Hvalid Hj) as [Hvalid' Hlt].
    split; [exact Hvalid' |].
    destruct (Nat.eq_dec i (S j)) as [-> | Hne].
    + rewrite iter_days_last, Hk in Hi. rewrite Hi in Hj. injection Hj as <-.
      apply str_ge_refl.
    + destruct (IH i di dk ltac:(lia) Hi eq_refl) as [_ Hge].
      eapply str_ge_trans; [exact Hge |].
      unfold str_ge, String.leb. rewrite Hlt. reflexivity.
Qed.

Lemma for_each_collect {B C : Type} (f : B -> Exc C) (xs : list B) (acc r : list C) :
  for_each xs acc (fun a x => v <- f x ;; ret (a ++ [v])%list) = Ok r ->
  exists vs, r = (acc ++ vs)%list /\ Forall2 (fun x v => f x = Ok v) xs vs.
Proof.
  revert acc. induction xs as [| x xs IH]; intros acc; cbn.
  - intros H. injection H as <-. exists []. rewrite app_nil_r. split; constructor.
  - destruct (f x) as [v | e] eqn:Hfx; cbn; [| discriminate].
    intros H. destruct (IH _ H) as (vs & -> & Hall).
    exists (v :: vs). rewrite <- app_assoc. split; [reflexivity |].
    constructor; assumption.
Qed.

Lemma Forall2_in_right {B C : Type} (P : B -> C -> Prop) (xs : list B) (ys : list C) (y : C) :
  Forall2 P xs ys -> In y ys -> exists x, In x xs /\ P x y.
Proof.
  induction 1 as [| x y' xs ys Hxy _ IH]; cbn; [tauto |].
  intros [<- | Hin].
  - exists x. auto.
  - destruct (IH Hin) as (x' & Hx' & HP). exists x'. auto.
Qed.

Lemma indexed_sorted {C : Type} (key : C -> string) (P : nat -> C -> Prop) :
  (forall i j v v', (i <= j)%nat -> P i v -> P j v' -> before key v v') ->
  forall (n a : nat) (vs : list C),
    Forall2 P (seq a n) vs -> StronglySorted (before key) vs.
Proof.
  intros Hmono. induction n as [| n IH]; intros a vs Hall; cbn in Hall.
  - inversion Hall. constructor.
  - inversion Hall as [| i v ks vs' Hv Hrest]; subst.
    constructor; [eapply IH; exact Hrest |].
    apply Forall_forall. intros v' Hin.
    destruct (Forall2_in_right _ _ _ _ Hrest Hin) as (j & Hj & HPj).
    apply in_seq in Hj. eapply Hmono; [| exact Hv | exact HPj]. lia.
Qed.

Lemma mock_versions_sorted (w : World) (repo_id : string) (s : state)
  (vs : list BackupVersion) :
  PyTime.valid (clock w (ticks s)) = true ->
  fst (_get_mock_backup_versions w repo_id s) = Ok vs ->
  StronglySorted (before v_timestamp) vs.
Proof.
  intros Hvalid. unfold _get_mock_backup_versions, utcnow, lift. cbn [bind M_Monad fst].
  intros Hrun. apply for_each_collect in Hrun. destruct Hrun as (vs' & -> & Hall).
  cbn [app].
  apply (indexed_sorted v_timestamp
           (fun i v => mock_version repo_id (clock w (ticks s)) i = Ok v) ) with (n := 10%nat) (a := 0%nat);
    [| exact Hall].
  intros i j v v' Hle Hv Hv'. unfold mock_version in Hv, Hv'. cbn [bind Exc_Monad ret] in Hv, Hv'.
  destruct (PyTime.sub_days (clock w (ticks s)) i) as [di | e] eqn:Hi; [| discriminate].
  destruct (PyTime.sub_days (clock w (ticks s)) j) as [dj | e] eqn:Hj; [| discriminate].
  destruct (PyTime.add_days di 90); [| discriminate].
  destruct (PyTime.add_days dj 90); [| discriminate].
  assert (Hts : v_timestamp v = PyTime.isoformat di ++ "Z")
    by (apply (f_equal (fun r => match r with Ok x => v_timestamp x | Raise _ => "" end)) in Hv;
        symmetry; exact Hv).
  assert (Hts' : v_timestamp v' = PyTime.isoformat dj ++ "Z")
    by (apply (f_equal (fun r => match r with Ok x => v_timestamp x | Raise _ => "" end)) in Hv';
        symmetry; exact Hv').
  unfold before. rewrite Hts, Hts'.
  exact (proj2 (sub_days_monotone _ "Z" Hvalid j i di dj Hle Hi Hj)).
Qed.

Lemma version_of_blob_path (w : World) (repo_id : string) (parsed : dict) (b : Blob)
  (s s' : state) (v : BackupVersion) :
  version_of w repo_id parsed b s = (Ok v, s') -> v_blob_path v = name b.
Proof.
  unfold version_of, utcnow, lift. cbn [bind ret M_Monad].
  destruct (last_modified b) as [t |].
  - destruct (PyTime.add_days t 90); [| discriminate].
    intros H. injection H as <- _. reflexivity.
  - intros H. injection H as <- _. reflexivity.
Qed.

Lemma versions_step_appends (w : World) (repo_id : string) (acc acc' : list BackupVersion)
  (b : Blob) (s s' : state) :
  versions_step w repo_id acc b s = (Ok acc', s') ->
  map v_blob_path acc'
  = (map v_blob_path acc ++ map name (filter (survives (environ w)) [b]))%list.
Proof.
  unfold versions_step, survives. cbn [filter].
  destruct (Py.endswith (name b) ".zip"); cbn [negb andb].
  - destruct (_parse_blob_path (environ w) (name b)) as [[| kv parsed] |].
    + intros H. injection H as <- _. cbn. rewrite app_nil_r. reflexivity.
    + cbn [bind ret M_Monad].
      destruct (version_of w repo_id (kv :: parsed) b s) as [[v | e] s1] eqn:Hv;
        [| discriminate].
      intros H. injection H as <- _.
      rewrite map_app. cbn. rewrite (version_of_blob_path _ _ _ _ _ _ _ Hv). reflexivity.
    + intros H. injection H as <- _. cbn. rewrite app_nil_r. reflexivity.
  - intros H. injection H as <- _. cbn. rewrite app_nil_r. reflexivity.
Qed.

(** The loop appends one version per surviving blob, in listing order. *)
Lemma versions_in_listing_order (w : World) (repo_id : string) (blobs : list Blob) :
  forall (acc pre : list BackupVersion) (s s' : state),
    for_each blobs acc (versions_step w repo_id) s = (Ok pre, s') ->
    map v_blob_path pre
    = (map v_blob_path acc ++ map name (filter (survives (environ w)) blobs))%list.
Proof.
  induction blobs as [| b blobs IH]; intros acc pre s s'.
  - cbn. intros H. injection H as <- _. rewrite app_nil_r. reflexivity.
  - cbn [for_each bind M_Monad].
    destruct (versions_step w repo_id acc b s) as [[acc1 | e] s1] eqn:Hstep; [| discriminate].
    intros Hrest. rewrite (IH _ _ _ _ Hrest).
    rewrite (versions_step_appends _ _ _ _ _ _ _ Hstep).
    rewrite <- app_assoc, <- map_app.
    change (b :: blobs) with ([b] ++ blobs)%list. rewrite filter_app. reflexivity.
Qed.

(** Outside mock mode a successful call returns either nothing or the
    sorted collection of one listing. *)
Lemma list_backup_versions_form (w : World) (repo_id : string) (s : state)
  (vs : list BackupVersion) :
  MOCK_MODE (environ w) = false ->
  fst (list_backup_versions w repo_id s) = Ok vs ->
  vs = []
  \/ exists cc p s1 pre s2,
      for_each (yielded (list_blobs w cc p)) [] (versions_step w repo_id) s1 = (Ok pre, s2)
      /\ vs = sort_desc v_timestamp pre.
Proof.
  intros Hmock. unfold list_backup_versions. rewrite Hmock.
  unfold lift, try_except, for_blobs, emit, print. cbn [bind ret M_Monad fst].
  destruct (_get_storage_client w) as [[client |] | e]; cbn [fst];
    [| intros H; injection H as <-; auto | discriminate].
  destruct (Py.split_max "-" repo_id 2) as [| org [| project [| repo rest]]];
    try (intros H; injection H as <-; auto; fail).
  destruct (get_container_client w client _) as [cc | e]; cbn [fst emit];
    [| intros H; injection H as <-; auto].
  match goal with
  | |- context [for_each ?xs [] ?f ?st] =>
      destruct (for_each xs [] f st) as [[pre | e] s2] eqn:Hloop
  end; cbn [fst]; [| intros H; injection H as <-; auto].
  destruct (failure (list_blobs w cc _)); cbn [fst];
    [intros H; injection H as <-; auto |].
  intros H. injection H as <-. right. eauto 10.
Qed.

(** C6.  Whenever [list_backup_versions] returns, the sequence is sorted
    by timestamp, newest first: each element's timestamp is at least
    that of every later one.  Outside mock mode it is a rearrangement of
    the versions collected in listing order in which the versions of
    equal timestamp keep that order.  Timestamps are compared as the
    strings stored in the records; the clock is assumed to give valid
    dates. *)
Theorem versions_newest_first_stable (w : World) (repo_id : string) (s : state)
  (vs : list BackupVersion) :
  (forall n, PyTime.valid (clock w n) = true) ->
  fst (list_backup_versions w repo_id s) = Ok vs ->
  StronglySorted (before v_timestamp) vs
  /\ (MOCK_MODE (environ w) = false ->
      exists pre,
        (pre = [] \/ exists cc p,
            map v_blob_path pre
            = map name (filter (survives (environ w)) (yielded (list_blobs w cc p))))
        /\ Permutation pre vs
        /\ forall t, keyed v_timestamp t vs = keyed v_timestamp t pre).
Proof.
  intros Hclock Hrun.
  destruct (MOCK_MODE (environ w)) eqn:Hmock.
  - split; [| discriminate].
    unfold list_backup_versions in Hrun. rewrite Hmock in Hrun.
    eapply mock_versions_sorted; [apply Hclock | exact Hrun].
  - destruct (list_backup_versions_form w repo_id s vs Hmock Hrun)
      as [-> | (cc & p & s1 & pre & s2 & Hloop & ->)].
    + split; [constructor |]. intros _. exists []. repeat split; auto.
    + split; [apply sort_desc_sorted |]. intros _. exists pre. repeat split.
      * right. exists cc, p. apply (versions_in_listing_order _ _ _ _ _ _ _ Hloop).
      * apply sort_desc_perm.
      * intros t. apply sort_desc_stable.
Qed.

Lemma versions_newest_first_stable_witness :
  StronglySorted (before v_timestamp)
    [ mk_BackupVersion "acme-ProjectX-svc-a-2025-03-02" "2025-03-02T09:00:00+00:00"
        2097152 (round2_div 2097152 1048576) (Some "2025-05-31T09:00:00+00:00")
        "acme/ProjectX/svc-a/2025-03-02-0900.zip";
      mk_BackupVersion "acme-ProjectX-svc-a-2025-03-01" "2025-03-01T09:00:00+00:00"
        1048576 (round2_div 1048576 1048576) (Some "2025-05-30T09:00:00+00:00")
        "acme/ProjectX/svc-a/2025-03-01-0900.zip" ].
Proof.
  apply (versions_newest_first_stable (calm_world account_env scenario_blobs)
           "acme-ProjectX-svc-a" init).
  - intros n. reflexivity.
  - vm_compute. reflexivity.
Defined.

(** ** What a computation adds to the log *)

Section Appends.
Context (P : event -> bool).

Lemma appends_ret {A : Type} (a : A) : appends P (ret a).
Proof. intros s. exists []. cbn. rewrite app_nil_r. auto. Qed.

Lemma appends_lift {A : Type} (c : Exc A) : appends P (lift c).
Proof. intros s. exists []. cbn. rewrite app_nil_r. auto. Qed.

Lemma appends_emit (ev : event) : P ev = true -> appends P (emit ev).
Proof. intros H s. exists [ev]. cbn. rewrite H. auto. Qed.

Lemma appends_utcnow (w : World) : appends P (utcnow w).
Proof. intros s. exists []. cbn. rewrite app_nil_r. auto. Qed.

Lemma appends_bind {A B : Type} (c : M A) (k : A -> M B) :
  appends P c -> (forall a, appends P (k a)) -> appends P (bind c k).
Proof.
  intros Hc Hk s. cbn. destruct (Hc s) as (evs & Hlog & Hall).
  destruct (c s) as [[a | e] s1]; cbn [snd] in *.
  - destruct (Hk a s1) as (evs' & Hlog' & Hall').
    exists (evs ++ evs')%list. rewrite Hlog', Hlog, app_assoc, forallb_app, Hall, Hall'. auto.
  - exists evs. auto.
Qed.

Lemma appends_try {A : Type} (body : M A) (handler : exn -> M A) :
  appends P body -> (forall e, appends P (handler e)) -> appends P (try_except body handler).
Proof.
  intros Hc Hk s. unfold try_except. destruct (Hc s) as (evs & Hlog & Hall).
  destruct (body s) as [[a | e] s1]; cbn [snd] in *.
  - exists evs. auto.
  - destruct (Hk e s1) as (evs' & Hlog' & Hall').
    exists (evs ++ evs')%list. rewrite Hlog', Hlog, app_assoc, forallb_app, Hall, Hall'. auto.
Qed.

Lemma appends_for_each {A B : Type} (xs : list B) (body : A -> B -> M A) :
  (forall acc x, appends P (body acc x)) -> forall acc, appends P (for_each xs acc body).
Proof.
  intros Hbody. induction xs as [| x xs IH]; intros acc; cbn [for_each].
  - apply appends_ret.
  - apply appends_bind; [apply Hbody | intros a; apply IH].
Qed.

End Appends.

Ltac appends_step :=
  match goal with
  | |- appends _ (bind _ _) => apply appends_bind; [| intros ?]
  | |- appends _ (ret _) => apply appends_ret
  | |- appends _ (lift _) => apply appends_lift
  | |- appends _ (utcnow _) => apply appends_utcnow
  | |- appends _ (emit _) => apply appends_emit; reflexivity
  | |- appends _ (print _) => apply appends_emit; reflexivity
  | |- appends _ (try_except _ _) => apply appends_try; [| intros ?]
  | |- appends _ (for_each _ _ _) => apply appends_for_each; intros ? ?
  | |- appends _ (match ?x with _ => _ end) => destruct x
  end.

Lemma list_backup_versions_quiet (w : World) (repo_id : string) :
  appends quiet (list_backup_versions w repo_id).
Proof.
  unfold list_backup_versions, _get_mock_backup_versions, for_blobs, versions_step,
    version_of.
  repeat appends_step.
Qed.

Lemma get_download_link_quiet (w : World) (repo_id backup_id : string) :
  appends quiet (get_download_link w repo_id backup_id).
Proof.
  unfold get_download_link, issue_link, shared_key_url.
  repeat (appends_step || apply list_backup_versions_quiet).
Qed.

Lemma quiet_not_post (evs : list event) (u : string) (h : list (string * string))
  (p : Json) (t : Z) :
  forallb quiet evs = true -> ~ In (EvPost u h p t) evs.
Proof.
  intros Hall Hin. rewrite forallb_forall in Hall.
  specialize (Hall _ Hin). discriminate.
Qed.

(** ** Computations that cannot raise, and what they return *)

Lemma never_raises_ret {A : Type} (a : A) : never_raises (ret a).
Proof. intros s. cbn. eauto. Qed.

Lemma never_raises_lift {A : Type} (c : Exc A) :
  (exists a, c = Ok a) -> never_raises (lift c).
Proof. intros [a ->] s. unfold lift. eauto. Qed.

Lemma never_raises_emit (ev : event) : never_raises (emit ev).
Proof. intros s. unfold emit. eauto. Qed.

Lemma never_raises_bind {A B : Type} (c : M A) (k : A -> M B) :
  never_raises c -> (forall a, never_raises (k a)) -> never_raises (bind c k).
Proof.
  intros Hc Hk s. cbn. destruct (Hc s) as (a & s1 & ->). apply Hk.
Qed.

(** A handler that cannot raise makes the whole [try] total. *)
Lemma never_raises_try {A : Type} (body : M A) (handler : exn -> M A) :
  (forall e, never_raises (handler e)) -> never_raises (try_except body handler).
Proof.
  intros Hh s. unfold try_except. destruct (body s) as [[a | e] s1]; [eauto | apply Hh].
Qed.

Lemma returns_ret {A : Type} (Q : A -> Prop) (a : A) : Q a -> returns Q (ret a).
Proof. intros H s a' s' Heq. cbn in Heq. injection Heq as <- _. exact H. Qed.

Lemma returns_bind {A B : Type} (R : A -> Prop) (Q : B -> Prop) (c : M A) (k : A -> M B) :
  returns R c -> (forall a, R a -> returns Q (k a)) -> returns Q (bind c k).
Proof.
  intros Hc Hk s b s'. cbn. destruct (c s) as [[a | e] s1] eqn:Hcs; [| discriminate].
  apply (Hk a (Hc _ _ _ Hcs)).
Qed.

Lemma returns_any {A : Type} (c : M A) : returns (fun _ => True) c.
Proof. intros s a s' _. exact I. Qed.

Lemma returns_try {A : Type} (Q : A -> Prop) (body : M A) (handler : exn -> M A) :
  returns Q body -> (forall e, returns Q (handler e)) -> returns Q (try_except body handler).
Proof.
  intros Hb Hh s a s'. unfold try_except.
  destruct (body s) as [[a' | e] s1] eqn:Hbs.
  - intros Heq. injection Heq as <- _. apply (Hb _ _ _ Hbs).
  - apply Hh.
Qed.

Lemma truthy_append_right (a b : string) : Py.truthy b = true -> Py.truthy (a ++ b) = true.
Proof. destruct a; cbn; auto. Qed.

Lemma plain_url_truthy (w : World) (client : BlobServiceClient)
  (container_name blob_path : string) :
  returns (fun u => Py.truthy u = true)
    (lift (plain_url w client container_name blob_path)).
Proof.
  intros s u s'. unfold lift, plain_url. cbn [bind ret Exc_Monad].
  destruct (account_url w client) as [a | e]; [| discriminate].
  intros H. injection H as <- _. apply truthy_append_right. reflexivity.
Qed.

Lemma shared_key_url_issued (w : World) (container_name blob_path : string)
  (blob_client : BlobClient) :
  returns issued (shared_key_url w container_name blob_path blob_client).
Proof.
  unfold shared_key_url.
  destruct (nonempty _) as [cs |]; [| apply returns_ret; intros u; discriminate].
  destruct (Py.truthy (conn_get cs "AccountKey")); [| apply returns_ret; intros u; discriminate].
  eapply returns_bind; [apply returns_any | intros now _].
  eapply returns_bind; [apply returns_any | intros expiry _].
  eapply returns_bind; [apply returns_any | intros sas _].
  apply returns_ret. intros u Hu. injection Hu as <-.
  apply truthy_append_right. reflexivity.
Qed.

Lemma get_download_link_issued (w : World) (repo_id backup_id : string) :
  returns issued (get_download_link w repo_id backup_id).
Proof.
  unfold get_download_link.
  destruct (MOCK_MODE (environ w)).
  { apply returns_ret. intros u Hu. injection Hu as <-. reflexivity. }
  eapply returns_bind; [apply returns_any | intros [client |] _];
    [| apply returns_ret; intros u; discriminate].
  eapply returns_bind; [apply returns_any | intros versions _].
  destruct (find _ versions) as [backup |]; [| apply returns_ret; intros u; discriminate].
  destruct (negb _); [apply returns_ret; intros u; discriminate |].
  apply returns_try.
  - unfold issue_link.
    eapply returns_bind; [apply returns_any | intros _ _].
    eapply returns_bind; [apply returns_any | intros blob_client _].
    eapply returns_bind; [apply shared_key_url_issued | intros [u |] Hsigned].
    + apply returns_ret. exact Hsigned.
    + eapply returns_bind; [apply plain_url_truthy | intros u Hplain].
      apply returns_ret. intros u' Hu. injection Hu as <-. exact Hplain.
  - intros e. eapply returns_bind; [apply returns_any | intros _ _].
    eapply returns_bind; [apply plain_url_truthy | intros u Hplain].
    apply returns_ret. intros u' Hu. injection Hu as <-. exact Hplain.
Qed.

Lemma list_backup_versions_total (w : World) (repo_id : string) :
  MOCK_MODE (environ w) = false ->
  (exists client, _get_storage_client w = Ok client) ->
  never_raises (list_backup_versions w repo_id).
Proof.
  intros Hmock Hclient. unfold list_backup_versions. rewrite Hmock.
  apply never_raises_bind; [apply never_raises_lift; exact Hclient |].
  intros [client |]; [| apply never_raises_ret].
  destruct (Py.split_max "-" repo_id 2) as [| org [| project [| repo rest]]];
    try apply never_raises_ret.
  apply never_raises_try. intros e.
  apply never_raises_bind; [apply never_raises_emit | intros _; apply never_raises_ret].
Qed.



(** ** Restore orchestrator *)

(** The stages of a restore outside mock mode. *)
Lemma restore_stages (w : World) (repo_id backup_id org project repo visibility : string)
  (s : state) :
  MOCK_MODE (environ w) = false ->
  restore_to_azure_devops w repo_id backup_id org project repo visibility s
  = match get_download_link w repo_id backup_id s with
    | (Raise e, s1) => (Raise e, s1)
    | (Ok download_url, s1) =>
        match nonempty download_url with
        | None => (Ok (Error link_failed), s1)
        | Some u =>
            match nonempty (getenv (environ w) "AZURE_DEVOPS_PAT") with
            | None => (Ok (Error token_missing), s1)
            | Some pat =>
                match create_repository w u pat org project repo s1 with
                | (Ok out, s2) => (Ok out, s2)
                | (Raise e, s2) => (Ok (Error ("Restore failed: " ++ e)), s2)
                end
            end
        end
    end.
Proof.
  intros Hmock. unfold restore_to_azure_devops. rewrite Hmock. cbn [bind M_Monad].
  destruct (get_download_link w repo_id backup_id s) as [[download_url | e] s1];
    [| reflexivity].
  destruct (nonempty download_url) as [u |]; [| reflexivity].
  destruct (nonempty (getenv (environ w) "AZURE_DEVOPS_PAT")) as [pat |]; reflexivity.
Qed.

(** The create step logs at most its one request. *)
Lemma create_repository_log (w : World) (u pat org project repo : string) (s : state) :
  log (snd (create_repository w u pat org project repo s)) = log s
  \/ log (snd (create_repository w u pat org project repo s))
     = (log s ++ [EvPost (create_repo_url_of org project) (headers_of pat)
                    (create_payload_of repo project) 30])%list.
Proof.
  unfold create_repository, lift, emit. cbn [bind ret M_Monad].
  destruct (import_requests w); [| left; reflexivity].
  right.
  destruct (requests_post w _ _ _ _) as [resp | e]; [| reflexivity].
  destruct (negb _).
  - destruct (status_code resp =? 409)%Z; reflexivity.
  - destruct (json resp) as [data | e]; [| reflexivity].
    destruct (json_get data "id"); [| reflexivity].
    destruct (json_get data "webUrl"); reflexivity.
Qed.

Lemma create_repository_conflict (w : World) (u pat org project repo : string) (s : state)
  (resp : Response) :
  log (snd (create_repository w u pat org project repo s)) <> log s ->
  requests_post w (create_repo_url_of org project) (headers_of pat)
    (create_payload_of repo project) 30 = Ok resp ->
  status_code resp = 409%Z ->
  fst (create_repository w u pat org project repo s) = Ok (Error (conflict repo project)).
Proof.
  unfold create_repository, lift, emit. cbn [bind ret M_Monad].
  destruct (import_requests w); [| cbn; congruence].
  intros _ Hpost Hstatus. rewrite Hpost, Hstatus. reflexivity.
Qed.

Lemma app_same_head {A : Type} (l evs evs' : list A) :
  (l ++ evs')%list = (l ++ evs)%list -> evs = evs'.
Proof. intros H. apply app_inv_head in H. auto. Qed.

Lemma app_nil_head {A : Type} (l evs : list A) : l = (l ++ evs)%list -> evs = [].
Proof.
  intros H. rewrite <- (app_nil_r l) in H at 1. apply app_inv_head in H. auto.
Qed.

(** C5.  Whenever a restore has sent its create-repository request and
    the destination host answered it with status 409, the outcome is the
    conflict error naming the repository and the project; it is neither
    the generic creation failure nor a success. *)
Theorem conflict_is_reported (w : World)
  (repo_id backup_id org project repo visibility : string) (s s' : state)
  (out : Exc RestoreOutcome) (evs : list event)
  (u : string) (h : list (string * string)) (p : Json) (t : Z) (resp : Response) :
  restore_to_azure_devops w repo_id backup_id org project repo visibility s = (out, s') ->
  log s' = (log s ++ evs)%list ->
  In (EvPost u h p t) evs ->
  requests_post w u h p t = Ok resp ->
  status_code resp = 409%Z ->
  out = Ok (Error ("Repository " ++ repo ++ " already exists in " ++ project))
  /\ (forall body, out <> Ok (Error ("Failed to create repository: " ++ body)))
  /\ (forall message repo_url repo_id_ado download_url,
         out <> Ok (Success message repo_url repo_id_ado download_url)).
Proof.
  intros Hrun Hlog Hin Hpost Hstatus.
  assert (Hout : out = Ok (Error (conflict repo project))).
  { destruct (MOCK_MODE (environ w)) eqn:Hmock.
    - unfold restore_to_azure_devops in Hrun. rewrite Hmock in Hrun.
      cbn in Hrun. injection Hrun as <- <-.
      apply app_nil_head in Hlog. subst evs. contradiction.
    - rewrite restore_stages in Hrun by exact Hmock.
      destruct (get_download_link_quiet w repo_id backup_id s) as (evs1 & Hlog1 & Hquiet).
      assert (Hstop : log s' = log (snd (get_download_link w repo_id backup_id s)) -> False).
      { intros Heq. rewrite Hlog1 in Heq. rewrite Heq in Hlog.
        apply app_same_head in Hlog. subst evs.
        exact (quiet_not_post _ _ _ _ _ Hquiet Hin). }
      destruct (get_download_link w repo_id backup_id s) as [[download_url | e] s1];
        cbn [snd] in *; [| injection Hrun as <- <-; exfalso; auto].
      destruct (nonempty download_url) as [link |];
        [| injection Hrun as <- <-; exfalso; auto].
      destruct (nonempty (getenv (environ w) "AZURE_DEVOPS_PAT")) as [pat |];
        [| injection Hrun as <- <-; exfalso; auto].
      pose proof (create_repository_log w link pat org project repo s1) as Hcreate.
      pose proof (create_repository_conflict w link pat org project repo s1) as Hconflict.
      destruct (create_repository w link pat org project repo s1) as [r s2];
        cbn [fst snd] in *.
      assert (Hs2 : log s' = log s2) by (destruct r; injection Hrun as _ <-; reflexivity).
      destruct Hcreate as [Hsame | Hposted]; [exfalso; apply Hstop; congruence |].
      rewrite Hs2, Hposted, Hlog1, <- app_assoc in Hlog.
      apply app_same_head in Hlog. subst evs.
      apply in_app_or in Hin. destruct Hin as [Hin | [Hin | []]];
        [exfalso; exact (quiet_not_post _ _ _ _ _ Hquiet Hin) |].
      injection Hin as <- <- <- <-.
      assert (Hr : r = Ok (Error (conflict repo project))).
      { apply (Hconflict resp); [| exact Hpost | exact Hstatus].
        rewrite Hposted. intros Heq. apply (f_equal (@List.length event)) in Heq.
        rewrite length_app in Heq. cbn in Heq. lia. }
      subst r. injection Hrun as <- _. reflexivity. }
  subst out. unfold conflict. repeat split.
  - intros body Heq. injection Heq as Heq. discriminate.
  - intros; discriminate.
Qed.

Lemma conflict_is_reported_witness :
  fst (restore_to_azure_devops conflict_world "acme-ProjectX-svc-a"
         "acme-ProjectX-svc-a-2025-03-02" "acme" "Dest" "svc-a" "private" init)
  = Ok (Error "Repository svc-a already exists in Dest").
Proof.
  pose (run := restore_to_azure_devops conflict_world "acme-ProjectX-svc-a"
                 "acme-ProjectX-svc-a-2025-03-02" "acme" "Dest" "svc-a" "private" init).
  change (fst run = Ok (Error "Repository svc-a already exists in Dest")).
  apply (conflict_is_reported conflict_world "acme-ProjectX-svc-a"
           "acme-ProjectX-svc-a-2025-03-02" "acme" "Dest" "svc-a" "private"
           init (snd run) (fst run) (log (snd run))
           (create_repo_url_of "acme" "Dest") (headers_of "secret")
           (create_payload_of "svc-a" "Dest") 30
           (mk_Response 409 "conflict" (Raise "no body"))).
  - exact (surjective_pairing run).
  - reflexivity.
  - vm_compute. right. left. reflexivity.
  - reflexivity.
  - reflexivity.
Defined.

(** C2, as amended.  Outside mock mode, when the token
    [AZURE_DEVOPS_PAT] is unset or empty and link resolution has yielded
    a link, the restore ends with the error naming the missing setting,
    in the state link resolution left; what was logged meanwhile holds
    no request to the destination host (the object store may have been
    listed). *)
Theorem missing_token_stops_before_destination (w : World)
  (repo_id backup_id org project repo visibility : string) (s s1 : state)
  (link : string) :
  MOCK_MODE (environ w) = false ->
  nonempty (getenv (environ w) "AZURE_DEVOPS_PAT") = None ->
  get_download_link w repo_id backup_id s = (Ok (Some link), s1) ->
  restore_to_azure_devops w repo_id backup_id org project repo visibility s
  = (Ok (Error "Azure DevOps PAT not configured. Set AZURE_DEVOPS_PAT environment variable."),
     s1)
  /\ exists evs, log s1 = (log s ++ evs)%list
                 /\ forall u h p t, ~ In (EvPost u h p t) evs.
Proof.
  intros Hmock Htoken Hlink. split.
  - rewrite restore_stages by exact Hmock. rewrite Hlink.
    pose proof (get_download_link_issued w repo_id backup_id s _ _ Hlink link eq_refl)
      as Htruthy.
    cbn [nonempty]. rewrite Htruthy, Htoken. reflexivity.
  - destruct (get_download_link_quiet w repo_id backup_id s) as (evs & Hlog & Hquiet).
    rewrite Hlink in Hlog. cbn [snd] in Hlog.
    exists evs. split; [exact Hlog |].
    intros u h p t. apply quiet_not_post. exact Hquiet.
Qed.

Lemma missing_token_stops_before_destination_witness :
  restore_to_azure_devops (calm_world key_env scenario_blobs) "acme-ProjectX-svc-a"
    "acme-ProjectX-svc-a-2025-03-02" "acme" "Dest" "svc-a" "private" init
  = (Ok (Error "Azure DevOps PAT not configured. Set AZURE_DEVOPS_PAT environment variable."),
     mk_state 1 [EvListBlobs "git-backups" "acme/ProjectX/svc-a/"]).
Proof.
  apply (missing_token_stops_before_destination (calm_world key_env scenario_blobs)
           "acme-ProjectX-svc-a" "acme-ProjectX-svc-a-2025-03-02" "acme" "Dest" "svc-a"
           "private" init (mk_state 1 [EvListBlobs "git-backups" "acme/ProjectX/svc-a/"])
           "https://acct.blob.core.windows.net/git-backups/acme/ProjectX/svc-a/2025-03-02-0900.zip?sig=abc").
  - reflexivity.
  - reflexivity.
  - vm_compute. reflexivity.
Defined.

(** C2, as stated, fails.  With the token unset the restore first
    resolves the link, which lists the object store: the error naming the
    token comes after that request, and for an unknown version the
    restore ends with the link error, which names no token. *)
Lemma missing_token_after_listing :
  MOCK_MODE (environ (calm_world key_env scenario_blobs)) = false
  /\ getenv (environ (calm_world key_env scenario_blobs)) "AZURE_DEVOPS_PAT" = None
  /\ restore_to_azure_devops (calm_world key_env scenario_blobs) "acme-ProjectX-svc-a"
       "acme-ProjectX-svc-a-2025-03-02" "acme" "Dest" "svc-a" "private" init
     = (Ok (Error "Azure DevOps PAT not configured. Set AZURE_DEVOPS_PAT environment variable."),
        mk_state 1 [EvListBlobs "git-backups" "acme/ProjectX/svc-a/"])
  /\ existsb is_network_call [EvListBlobs "git-backups" "acme/ProjectX/svc-a/"] = true
  /\ restore_to_azure_devops (calm_world key_env scenario_blobs) "acme-ProjectX-svc-a"
       "acme-ProjectX-svc-a-2024-01-01" "acme" "Dest" "svc-a" "private" init
     = (Ok (Error "Failed to generate download link for backup"),
        mk_state 0 [EvListBlobs "git-backups" "acme/ProjectX/svc-a/"]).
Proof. repeat split; vm_compute; reflexivity. Qed.

(** ** Link issuer *)

(** Once the version is resolved, whatever the signing raises is
    answered by the plain, percent-encoded URL, provided the handler can
    read [client.account_url]; when that read raises, its exception
    leaves the function. *)
Lemma signing_failure_falls_back (w : World) (repo_id backup_id : string) (s s1 s2 : state)
  (client : BlobServiceClient) (versions : list BackupVersion) (backup : BackupVersion)
  (e : exn) :
  MOCK_MODE (environ w) = false ->
  _get_storage_client w = Ok (Some client) ->
  list_backup_versions w repo_id s = (Ok versions, s1) ->
  find (fun v => String.eqb (v_id v) backup_id) versions = Some backup ->
  Py.truthy (v_blob_path backup) = true ->
  issue_link w client (getenv_default (environ w) "AZURE_STORAGE_CONTAINER" "git-backups")
    (v_blob_path backup) s1 = (Raise e, s2) ->
  fst (get_download_link w repo_id backup_id s)
  = match account_url w client with
    | Ok a =>
        Ok (Some (a ++ "/"
                    ++ getenv_default (environ w) "AZURE_STORAGE_CONTAINER" "git-backups"
                    ++ "/" ++ Codec.quote (v_blob_path backup)))
    | Raise e' => Raise e'
    end.
Proof.
  intros Hmock Hclient Hlist Hfind Hpath Hissue.
  unfold get_download_link. rewrite Hmock, Hclient. unfold lift at 1. cbn [bind M_Monad].
  rewrite Hlist, Hfind, Hpath. cbn [negb]. unfold try_except. rewrite Hissue.
  unfold print, emit, lift, plain_url. cbn [bind ret M_Monad Exc_Monad].
  destruct (account_url w client); reflexivity.
Qed.

(** C7, at the failing input.  The storage client is built before the
    [try]: when the SDK rejects the connection string, the exception
    leaves [get_download_link] instead of being turned into a link or
    into [None]. *)
Theorem get_download_link_raises :
  MOCK_MODE (environ misconfigured_world) = false
  /\ get_download_link misconfigured_world "acme-ProjectX-svc-a"
       "acme-ProjectX-svc-a-2025-03-02" init
     = (Raise "Connection string is either blank or malformed.", init).
Proof. split; vm_compute; reflexivity. Qed.

(** ** Totality of the restore *)




(** C10.  Two restores that differ in the visibility argument alone
    behave alike: same outcome, same clock readings, same log. *)
Theorem restore_ignores_visibility (w : World)
  (repo_id backup_id org project repo : string) (visibility visibility' : string)
  (s : state) :
  restore_to_azure_devops w repo_id backup_id org project repo visibility s
  = restore_to_azure_devops w repo_id backup_id org project repo visibility' s.
Proof. reflexivity. Qed.

(** * Further properties of the code *)

(** ** Shape of a parsed key *)

Lemma split_parts_clean (c : ascii) (s : string) :
  Forall (fun p => Py.contains c p = false) (Py.split c s).
Proof.
  induction s as [| a s IH]; cbn; [repeat constructor |].
  destruct (Ascii.eqb a c) eqn:Ha.
  - constructor; [reflexivity | exact IH].
  - destruct (Py.split c s) as [| p ps]; cbn.
    + repeat constructor. cbn. rewrite Ha. reflexivity.
    + inversion IH as [| ? ? Hp Hps]; subst.
      constructor; [cbn; rewrite Ha, Hp; reflexivity | exact Hps].
Qed.

Lemma skip_prefix_clean (prefix : string) (parts : list string) :
  Forall (fun p => Py.contains "/" p = false) parts ->
  Forall (fun p => Py.contains "/" p = false) (skip_prefix prefix parts).
Proof.
  intros H. unfold skip_prefix.
  destruct (Py.truthy prefix && String.eqb (nth 0 parts "") prefix); [| exact H].
  destruct parts; [exact H | inversion H; assumption].
Qed.

Lemma nth_clean (parts : list string) (n : nat) :
  Forall (fun p => Py.contains "/" p = false) parts ->
  Py.contains "/" (nth n parts "") = false.
Proof.
  intros H. destruct (Nat.lt_ge_cases n (List.length parts)) as [Hlt | Hge].
  - rewrite Forall_forall in H. apply H. apply nth_In. exact Hlt.
  - rewrite nth_overflow by exact Hge. reflexivity.
Qed.

Lemma substring_length (n : nat) (s : string) :
  (n <= String.length s)%nat -> String.length (substring 0 n s) = n.
Proof.
  revert s. induction n as [| n IH]; intros s Hlen.
  - destruct s; reflexivity.
  - destruct s as [| a s]; cbn in *; [lia |]. rewrite IH by lia. reflexivity.
Qed.

Lemma extract_date_shape (filename : string) :
  extract_date filename = VNone
  \/ exists d, extract_date filename = VStr d /\ String.length d = 10%nat.
Proof.
  unfold extract_date. destruct (Py.endswith filename ".zip"); [| left; reflexivity].
  destruct (Nat.leb_spec 10 (String.length (Py.replace filename ".zip" "")));
    [| left; reflexivity].
  right. eexists. split; [reflexivity |]. apply substring_length. assumption.
Qed.

(** Every parsed dictionary has the five bindings, in order. *)
Lemma parsed_shape (env : Environ) (key : string) (parsed : dict) :
  _parse_blob_path env key = Some parsed ->
  exists org project repo date_str,
    parsed = [ ("org", VStr org); ("project", VStr project); ("repo", VStr repo);
               ("date_str", date_str); ("blob_name", VStr key) ]
    /\ Py.contains "/" org = false
    /\ Py.contains "/" project = false
    /\ (date_str = VNone
        \/ exists d, date_str = VStr d /\ String.length d = 10%nat).
Proof.
  unfold _parse_blob_path.
  destruct (List.length (Py.split "/" (Py.strip "/" key)) <? 4)%nat; [discriminate |].
  destruct (List.length (skip_prefix _ _) <? 3)%nat; [discriminate |].
  destruct (split_repo_filename _) as [repo filename].
  intros H. injection H as <-.
  pose proof (skip_prefix_clean (storage_prefix env) _
                (split_parts_clean "/" (Py.strip "/" key))) as Hclean.
  eexists _, _, _, _. split; [reflexivity |].
  split; [apply nth_clean; exact Hclean |].
  split; [apply nth_clean; exact Hclean |].
  apply extract_date_shape.
Qed.

(** X1.  Whatever key is parsed, the dictionary binds the five keys
    [org], [project], [repo], [date_str], [blob_name] in that order; the
    organisation and the project hold no slash, the date is [None] or has
    exactly ten characters, and [blob_name] is the key as it was given
    (slashes around it included). *)
Theorem parse_result_shape (env : Environ) (key : string) (parsed : dict) :
  _parse_blob_path env key = Some parsed ->
  exists org project repo date_str,
    parsed = [ ("org", VStr org); ("project", VStr project); ("repo", VStr repo);
               ("date_str", date_str); ("blob_name", VStr key) ]
    /\ Py.contains "/" org = false
    /\ Py.contains "/" project = false
    /\ (date_str = VNone
        \/ exists d, date_str = VStr d /\ String.length d = 10%nat).
Proof. exact (parsed_shape env key parsed). Qed.

Lemma parse_result_shape_witness :
  exists org project repo date_str,
    [ ("org", VStr "a"); ("project", VStr ""); ("repo", VStr "b/c");
      ("date_str", VNone); ("blob_name", VStr "/a//b/c/notes.zip/") ]
    = [ ("org", VStr org); ("project", VStr project); ("repo", VStr repo);
        ("date_str", date_str); ("blob_name", VStr "/a//b/c/notes.zip/") ]
    /\ Py.contains "/" org = false
    /\ Py.contains "/" project = false
    /\ (date_str = VNone
        \/ exists d, date_str = VStr d /\ String.length d = 10%nat).
Proof.
  apply (parse_result_shape no_env "/a//b/c/notes.zip/"). reflexivity.
Defined.

(** ** A prefix of several segments *)

(** X2.  A configured prefix that itself holds a slash is never
    stripped: keys are parsed as if no prefix were configured, so the
    first segment of the prefix is taken for the organisation. *)
Theorem multi_segment_prefix_ignored (env : Environ) (key : string) :
  Py.contains "/" (storage_prefix env) = true ->
  _parse_blob_path env key = _parse_blob_path no_env key.
Proof.
  intros Hslash. unfold _parse_blob_path.
  assert (Hskip : forall parts,
             Forall (fun p => Py.contains "/" p = false) parts ->
             skip_prefix (storage_prefix env) parts
             = skip_prefix (storage_prefix no_env) parts).
  { intros parts Hclean. unfold skip_prefix.
    change (storage_prefix no_env) with "". cbn [Py.truthy andb].
    destruct (String.eqb_spec (nth 0 parts "") (storage_prefix env)) as [Heq | Hne];
      [| rewrite andb_false_r; reflexivity].
    pose proof (nth_clean parts 0 Hclean) as H0. rewrite Heq in H0. congruence. }
  rewrite (Hskip _ (split_parts_clean "/" (Py.strip "/" key))). reflexivity.
Qed.

Lemma multi_segment_prefix_ignored_witness :
  _parse_blob_path (env_of [("AZURE_STORAGE_PREFIX", "backups/git")])
    "backups/git/acme/ProjectX/svc-a/2025-03-01-0900.zip"
  = Some [ ("org", VStr "backups"); ("project", VStr "git");
           ("repo", VStr "acme/ProjectX/svc-a"); ("date_str", VStr "2025-03-01");
           ("blob_name", VStr "backups/git/acme/ProjectX/svc-a/2025-03-01-0900.zip") ].
Proof.
  rewrite (multi_segment_prefix_ignored (env_of [("AZURE_STORAGE_PREFIX", "backups/git")])
             "backups/git/acme/ProjectX/svc-a/2025-03-01-0900.zip");
    reflexivity.
Defined.

(** ** Storage that is not configured *)

Lemma unconfigured_no_client (w : World) :
  MOCK_MODE (environ w) = false -> unconfigured w -> _get_storage_client w = Ok None.
Proof.
  intros Hmock Hun. unfold _get_storage_client. rewrite Hmock. cbn [orb].
  destruct Hun as [Hsdk | [Hconn Hacct]].
  - rewrite Hsdk. reflexivity.
  - rewrite Hconn, Hacct. destruct (negb _); reflexivity.
Qed.

(** X3.  Outside mock mode, when no storage account is configured (or
    the SDK is missing), every operation answers without any request and
    without touching the clock: the catalog and the version list are
    empty, no link is issued, the preview finds no backup, and a restore
    ends with the link error. *)
Theorem unconfigured_storage_degrades (w : World)
  (repo_id backup_id org project repo visibility : string) (s : state) :
  MOCK_MODE (environ w) = false ->
  unconfigured w ->
  list_repositories w s = (Ok [], s)
  /\ list_backup_versions w repo_id s = (Ok [], s)
  /\ get_download_link w repo_id backup_id s = (Ok None, s)
  /\ get_restore_preview w repo_id backup_id s = (Ok (PreviewError "Backup not found"), s)
  /\ restore_to_azure_devops w repo_id backup_id org project repo visibility s
     = (Ok (Error "Failed to generate download link for backup"), s).
Proof.
  intros Hmock Hun. pose proof (unconfigured_no_client w Hmock Hun) as Hclient.
  assert (Hversions : list_backup_versions w repo_id s = (Ok [], s)).
  { unfold list_backup_versions. rewrite Hmock. unfold lift. cbn [bind M_Monad].
    rewrite Hclient. reflexivity. }
  assert (Hlink : get_download_link w repo_id backup_id s = (Ok None, s)).
  { unfold get_download_link. rewrite Hmock. unfold lift. cbn [bind M_Monad].
    rewrite Hclient. reflexivity. }
  repeat split.
  - unfold list_repositories. rewrite Hmock. unfold lift. cbn [bind M_Monad].
    rewrite Hclient. reflexivity.
  - exact Hversions.
  - exact Hlink.
  - unfold get_restore_preview. cbn [bind M_Monad]. rewrite Hversions. reflexivity.
  - rewrite restore_stages by exact Hmock. rewrite Hlink. reflexivity.
Qed.

Lemma unconfigured_storage_degrades_witness :
  list_repositories bare_world init = (Ok [], init)
  /\ restore_to_azure_devops bare_world "acme-ProjectX-svc-a"
       "acme-ProjectX-svc-a-2025-03-02" "acme" "Dest" "svc-a" "private" init
     = (Ok (Error "Failed to generate download link for backup"), init).
Proof.
  destruct (unconfigured_storage_degrades bare_world "acme-ProjectX-svc-a"
              "acme-ProjectX-svc-a-2025-03-02" "acme" "Dest" "svc-a" "private" init)
    as (Hcatalog & _ & _ & _ & Hrestore).
  - reflexivity.
  - right. split; reflexivity.
  - split; assumption.
Defined.

(** ** The catalog loop *)

Lemma repos_adjust_keys (m : repos) (k : string)
  (f : RepositorySummary -> RepositorySummary) :
  map fst (repos_adjust m k f) = map fst m.
Proof.
  induction m as [| [k' r] m IH]; cbn; [reflexivity |].
  destruct (String.eqb k' k); cbn; [reflexivity | rewrite IH; reflexivity].
Qed.

Lemma repos_mem_lookup (m : repos) (k : string) :
  repos_mem m k = true -> exists r, repos_lookup m k = Some r.
Proof.
  unfold repos_mem. destruct (repos_lookup m k) as [r |]; [eauto | discriminate].
Qed.

Lemma repos_lookup_none_keys (m : repos) (k : string) :
  repos_lookup m k = None -> ~ In k (map fst m).
Proof.
  induction m as [| [k' r] m IH]; cbn; [tauto |].
  destruct (String.eqb_spec k' k) as [-> | Hne]; [discriminate |].
  intros H [Heq | Hin]; [congruence | exact (IH H Hin)].
Qed.

Lemma repos_lookup_app_new (m : repos) (k : string) (r : RepositorySummary) :
  repos_lookup m k = None -> repos_lookup (m ++ [(k, r)])%list k = Some r.
Proof.
  induction m as [| [k' r'] m IH]; cbn.
  - rewrite String.eqb_refl. reflexivity.
  - destruct (String.eqb k' k); [discriminate | exact IH].
Qed.

(** Replacing the entry of [k] by a summary that keeps its identity and
    adds [delta] to its count. *)
Lemma repos_adjust_ok (m : repos) (k : string) (r r' : RepositorySummary)
  (f : RepositorySummary -> RepositorySummary) (delta : Z) :
  repos_lookup m k = Some r ->
  f r = r' ->
  r_id r' = r_id r -> r_org r' = r_org r -> r_project r' = r_project r ->
  r_repo r' = r_repo r ->
  r_backup_count r' = (r_backup_count r + delta)%Z -> (0 <= delta)%Z ->
  catalog_ok m ->
  catalog_ok (repos_adjust m k f)
  /\ total_count (map snd (repos_adjust m k f)) = (total_count (map snd m) + delta)%Z
  /\ repos_lookup (repos_adjust m k f) k = Some r'.
Proof.
  intros Hlookup Hf Hid Horg Hproject Hrepo Hcount Hdelta [Hnodup Hall].
  split; [split |].
  - rewrite repos_adjust_keys. exact Hnodup.
  - clear Hnodup. induction m as [| [k' r0] m IH]; cbn in *; [constructor |].
    inversion Hall as [| ? ? Hhead Htail]; subst.
    destruct (String.eqb k' k).
    + injection Hlookup as ->. constructor; [| exact Htail].
      destruct Hhead as (H1 & H2 & H3). unfold entry_ok, summary_id_matches in *.
      cbn [fst snd] in *. rewrite Hid, Horg, Hproject, Hrepo, Hcount.
      repeat split; try assumption. lia.
    + constructor; [exact Hhead | apply IH; assumption].
  - clear Hnodup Hall. induction m as [| [k' r0] m IH]; cbn in *; [discriminate |].
    destruct (String.eqb k' k) eqn:Hk.
    + injection Hlookup as ->. cbn. rewrite Hk. subst r'.
      split; [unfold total_count in *; cbn; lia | reflexivity].
    + cbn. rewrite Hk. destruct (IH Hlookup) as [Htotal Hfound].
      split; [unfold total_count in *; cbn in *; lia | exact Hfound].
Qed.

Lemma newer_backup_keeps (entry entry' : RepositorySummary) (d : string) :
  newer_backup entry d = Ok entry' ->
  r_id entry' = r_id entry /\ r_org entry' = r_org entry
  /\ r_project entry' = r_project entry /\ r_repo entry' = r_repo entry
  /\ r_backup_count entry' = r_backup_count entry.
Proof.
  unfold newer_backup. cbn [bind ret Exc_Monad].
  destruct (PyTime.fromisoformat d) as [t |]; [| discriminate].
  destruct (r_last_backup entry) as [last |].
  - destruct (PyTime.fromisoformat _) as [t0 |]; [| discriminate].
    destruct (PyTime.gt t t0); intros H; injection H as <-; repeat split.
  - intros H. injection H as <-. repeat split.
Qed.

Lemma repos_adjust_app_new (m : repos) (k : string) (r : RepositorySummary)
  (f : RepositorySummary -> RepositorySummary) :
  repos_lookup m k = None ->
  repos_adjust (m ++ [(k, r)])%list k f = (m ++ [(k, f r)])%list.
Proof.
  induction m as [| [k' r'] m IH]; cbn.
  - rewrite String.eqb_refl. reflexivity.
  - destruct (String.eqb k' k); [discriminate |]. intros H. rewrite (IH H). reflexivity.
Qed.

Lemma total_count_app (rs rs' : list RepositorySummary) :
  total_count (rs ++ rs') = (total_count rs + total_count rs')%Z.
Proof.
  unfold total_count. induction rs as [| r rs IH]; cbn; [reflexivity | rewrite IH; lia].
Qed.

(** Lines 170-180: after the count is incremented the entry of the
    repository exists, and one more archive is counted. *)
Lemma count_archive (m : repos) (org project repo : string) :
  let repo_id := org ++ "-" ++ project ++ "-" ++ repo in
  let m1 := if repos_mem m repo_id then m
            else (m ++ [(repo_id,
                         mk_RepositorySummary repo_id (VStr org) (VStr project)
                           (VStr repo) 0 None)])%list in
  catalog_ok m ->
  exists r,
    repos_lookup (repos_adjust m1 repo_id incr_count) repo_id = Some r
    /\ catalog_ok (repos_adjust m1 repo_id incr_count)
    /\ total_count (map snd (repos_adjust m1 repo_id incr_count))
       = (total_count (map snd m) + 1)%Z.
Proof.
  intros repo_id m1 Hok. subst m1. unfold repos_mem.
  destruct (repos_lookup m repo_id) as [r |] eqn:Hlookup.
  - destruct (repos_adjust_ok m repo_id r (incr_count r) incr_count 1 Hlookup)
      as (Hok' & Htotal & Hfound); try reflexivity; try lia; try exact Hok.
    eauto.
  - rewrite (repos_adjust_app_new m repo_id _ incr_count Hlookup).
    eexists. split; [apply repos_lookup_app_new; exact Hlookup |].
    destruct Hok as [Hnodup Hall]. split; [split |].
    + rewrite map_app. cbn. apply NoDup_app; [exact Hnodup | repeat constructor; tauto |].
      intros a Ha [<- | []]. exact (repos_lookup_none_keys m repo_id Hlookup Ha).
    + apply Forall_app. split; [exact Hall |]. constructor; [| constructor].
      unfold entry_ok, summary_id_matches. cbn. repeat split. lia.
    + rewrite map_app, total_count_app. unfold total_count at 2. cbn. lia.
Qed.

(** One step of the catalog loop never raises; it leaves the dictionary
    alone for a blob that does not survive and counts one more archive
    otherwise. *)
Lemma catalog_step_counts (w : World) (m : repos) (b : Blob) :
  catalog_ok m ->
  exists m',
    catalog_step w m b = Ok m'
    /\ catalog_ok m'
    /\ total_count (map snd m')
       = (total_count (map snd m) + (if survives (environ w) b then 1 else 0))%Z.
Proof.
  intros Hok. unfold catalog_step, survives.
  destruct (Py.endswith (name b) ".zip"); cbn [negb andb];
    [| exists m; repeat split; [apply Hok | apply Hok | lia]].
  destruct (_parse_blob_path (environ w) (name b)) as [parsed |] eqn:Hparse;
    [| exists m; repeat split; [apply Hok | apply Hok | lia]].
  destruct (parsed_shape _ _ _ Hparse) as (org & project & repo & date_str & -> & _).
  assert (Hget : forall k v, dict_lookup
                   [("org", VStr org); ("project", VStr project); ("repo", VStr repo);
                    ("date_str", date_str); ("blob_name", VStr (name b))] k = Some v ->
                 getitem
                   [("org", VStr org); ("project", VStr project); ("repo", VStr repo);
                    ("date_str", date_str); ("blob_name", VStr (name b))] k = Ok v)
    by (intros k v H; unfold getitem; rewrite H; reflexivity).
  rewrite (Hget "org" (VStr org) eq_refl), (Hget "project" (VStr project) eq_refl),
    (Hget "repo" (VStr repo) eq_refl), (Hget "date_str" date_str eq_refl).
  clear Hget. cbn [bind Exc_Monad fmt].
  destruct (count_archive m org project repo Hok) as (r & Hfound & Hok2 & Htotal).
  cbn zeta in Hfound, Hok2, Htotal.
  match type of Hok2 with
  | catalog_ok ?m2 => set (counted := m2) in *
  end.
  destruct date_str as [| [| c d]];
    try (exists counted; repeat split; [apply Hok2 | apply Hok2 | lia]).
  rewrite Hfound.
  destruct (newer_backup r (String c d)) as [r' |] eqn:Hnewer;
    [| exists counted; repeat split; [apply Hok2 | apply Hok2 | lia]].
  destruct (newer_backup_keeps _ _ _ Hnewer) as (Hid & Horg & Hproject & Hrepo & Hcount).
  destruct (repos_adjust_ok counted (org ++ "-" ++ project ++ "-" ++ repo) r r'
              (fun _ => r') 0 Hfound eq_refl Hid Horg Hproject Hrepo)
    as (Hok3 & Htotal3 & _); [lia | lia | exact Hok2 |].
  eexists. split; [reflexivity |]. split; [exact Hok3 | lia].
Qed.

Lemma catalog_loop (w : World) (blobs : list Blob) :
  forall (m : repos) (s : state),
    catalog_ok m ->
    exists m',
      for_each blobs m (fun repos_map blob => lift (catalog_step w repos_map blob)) s
      = (Ok m', s)
      /\ catalog_ok m'
      /\ total_count (map snd m')
         = (total_count (map snd m)
            + Z.of_nat (List.length (filter (survives (environ w)) blobs)))%Z.
Proof.
  induction blobs as [| b blobs IH]; intros m s Hok.
  - exists m. cbn. repeat split; [apply Hok | apply Hok | lia].
  - destruct (catalog_step_counts w m b Hok) as (m1 & Hstep & Hok1 & Htotal1).
    destruct (IH m1 s Hok1) as (m' & Hloop & Hok' & Htotal').
    exists m'. cbn [for_each bind M_Monad]. unfold lift at 1. rewrite Hstep.
    split; [exact Hloop |]. split; [exact Hok' |].
    cbn [filter]. destruct (survives (environ w) b); cbn [List.length]; lia.
Qed.

Lemma catalog_ok_ids (m : repos) :
  catalog_ok m ->
  NoDup (map r_id (map snd m))
  /\ Forall (fun r => summary_id_matches r /\ (1 <= r_backup_count r)%Z) (map snd m).
Proof.
  intros [Hnodup Hall].
  assert (Hids : map r_id (map snd m) = map fst m).
  { clear Hnodup. induction Hall as [| kr m (Hid & _) _ IH]; cbn; [reflexivity |].
    rewrite Hid, IH. reflexivity. }
  split; [rewrite Hids; exact Hnodup |].
  clear Hnodup Hids. induction Hall as [| kr m (_ & Hmatch & Hcount) _ IH]; cbn;
    constructor; auto.
Qed.

(** The catalog outside mock mode, once the client is there. *)
Lemma list_repositories_listing (w : World) (client : BlobServiceClient) (s : state) :
  MOCK_MODE (environ w) = false ->
  _get_storage_client w = Ok (Some client) ->
  list_repositories w s
  = match get_container_client w client (container_of (environ w)) with
    | Ok cc =>
        match for_each (A := repos)
                (yielded (list_blobs w cc (catalog_prefix (environ w)))) []
                (fun repos_map blob => lift (catalog_step w repos_map blob))
                (logged s [EvListBlobs (container_name_of cc)
                             (catalog_prefix (environ w))]) with
        | (Ok repos_map, s1) =>
            match failure (list_blobs w cc (catalog_prefix (environ w))) with
            | None => (Ok (map snd repos_map), s1)
            | Some e => (Ok [], logged s1 [EvPrint ("Error listing repositories: " ++ e)])
            end
        | (Raise e, s1) =>
            (Ok [], logged s1 [EvPrint ("Error listing repositories: " ++ e)])
        end
    | Raise e => (Ok [], logged s [EvPrint ("Error listing repositories: " ++ e)])
    end.
Proof.
  intros Hmock Hclient.
  unfold list_repositories. rewrite Hmock. unfold lift at 1. cbn [bind M_Monad].
  rewrite Hclient. unfold try_except, for_blobs, container_of, catalog_prefix, logged.
  unfold lift at 1. cbn [bind M_Monad].
  destruct (get_container_client w client _) as [cc | e]; [| reflexivity].
  unfold emit at 1. cbn [bind M_Monad].
  unfold repos.
  match goal with
  | |- context [for_each ?xs [] ?f ?st] => destruct (for_each xs [] f st) as [[m | e] s1]
  end; [| reflexivity].
  destruct (failure _); reflexivity.
Qed.

(** X5.  When the listing breaks, however many blobs it had yielded, the
    catalog is empty: what was collected is dropped, the cause is
    printed, and nothing is raised.  The same holds when the container
    client cannot be obtained. *)
Theorem catalog_listing_failure (w : World) (client : BlobServiceClient) (s : state) :
  MOCK_MODE (environ w) = false ->
  _get_storage_client w = Ok (Some client) ->
  (forall cc e,
      get_container_client w client (container_of (environ w)) = Ok cc ->
      failure (list_blobs w cc (catalog_prefix (environ w))) = Some e ->
      list_repositories w s
      = (Ok [], logged s [EvListBlobs (container_name_of cc) (catalog_prefix (environ w));
                          EvPrint ("Error listing repositories: " ++ e)]))
  /\ (forall e,
         get_container_client w client (container_of (environ w)) = Raise e ->
         list_repositories w s
         = (Ok [], logged s [EvPrint ("Error listing repositories: " ++ e)])).
Proof.
  intros Hmock Hclient. split.
  - intros cc e Hcc Hfail.
    assert (Hempty : catalog_ok []) by (split; constructor).
    destruct (catalog_loop w (yielded (list_blobs w cc (catalog_prefix (environ w)))) []
                (logged s [EvListBlobs (container_name_of cc) (catalog_prefix (environ w))])
                Hempty)
      as (m' & Hloop & _).
    rewrite (list_repositories_listing w client s Hmock Hclient), Hcc. cbv beta iota.
    rewrite Hloop, Hfail. unfold logged. cbn. rewrite <- app_assoc. reflexivity.
  - intros e Hcc.
    rewrite (list_repositories_listing w client s Hmock Hclient), Hcc. reflexivity.
Qed.

Lemma catalog_listing_failure_witness :
  list_repositories unreachable_store_world init
  = (Ok [], logged init [EvListBlobs "git-backups" "";
                         EvPrint "Error listing repositories: Connection reset by peer"]).
Proof.
  apply (proj1 (catalog_listing_failure unreachable_store_world
                  (mk_BlobServiceClient "https://acct.blob.core.windows.net") init
                  eq_refl eq_refl)
           (mk_ContainerClient "git-backups") "Connection reset by peer");
    reflexivity.
Defined.

(** ** Dates *)

Lemma digit_val_digit (z : Z) : PyTime.digit_val (PyTime.digit z) = Some (z mod 10)%Z.
Proof.
  unfold PyTime.digit_val. rewrite digit_code.
  pose proof (Z.mod_pos_bound z 10 ltac:(lia)) as Hr.
  rewrite Z2N.id by lia.
  destruct (Z.leb_spec 48 (48 + z mod 10)); [| lia].
  destruct (Z.leb_spec (48 + z mod 10) 57); [| lia].
  cbn [andb]. f_equal. lia.
Qed.

Lemma digit_val_range (a : ascii) (d : Z) :
  PyTime.digit_val a = Some d -> (0 <= d <= 9)%Z.
Proof.
  unfold PyTime.digit_val. cbv zeta.
  destruct (Z.leb_spec 48 (Z.of_N (N_of_ascii a)));
    destruct (Z.leb_spec (Z.of_N (N_of_ascii a)) 57); cbn [andb]; try discriminate.
  intros Heq. injection Heq as <-. lia.
Qed.

Lemma digit_not_W (z : Z) : Ascii.eqb (PyTime.digit z) "W" = false.
Proof.
  destruct (Ascii.eqb_spec (PyTime.digit z) "W") as [Heq | _]; [| reflexivity].
  apply (f_equal N_of_ascii) in Heq. rewrite digit_code in Heq.
  pose proof (Z.mod_pos_bound z 10 ltac:(lia)) as Hr.
  change (N_of_ascii "W") with 87%N in Heq. lia.
Qed.

Lemma number_pad4 (y : Z) :
  (0 <= y <= 9999)%Z ->
  PyTime.number [PyTime.digit (y / 10 / 10 / 10); PyTime.digit (y / 10 / 10);
                 PyTime.digit (y / 10); PyTime.digit y] 0 = Some y.
Proof.
  intros Hy. cbn [PyTime.number]. rewrite !digit_val_digit. f_equal.
  Z.div_mod_to_equations. lia.
Qed.

Lemma number_pad2 (m : Z) :
  (0 <= m <= 99)%Z ->
  PyTime.number [PyTime.digit (m / 10); PyTime.digit m] 0 = Some m.
Proof.
  intros Hm. cbn [PyTime.number]. rewrite !digit_val_digit. f_equal.
  Z.div_mod_to_equations. lia.
Qed.

Lemma number4_range (a b c d : ascii) (v : Z) :
  PyTime.number [a; b; c; d] 0 = Some v -> (0 <= v <= 9999)%Z.
Proof.
  cbn [PyTime.number].
  destruct (PyTime.digit_val a) as [x1 |] eqn:H1; [| discriminate].
  destruct (PyTime.digit_val b) as [x2 |] eqn:H2; [| discriminate].
  destruct (PyTime.digit_val c) as [x3 |] eqn:H3; [| discriminate].
  destruct (PyTime.digit_val d) as [x4 |] eqn:H4; [| discriminate].
  apply digit_val_range in H1. apply digit_val_range in H2.
  apply digit_val_range in H3. apply digit_val_range in H4.
  intros Heq.
  pose proof (f_equal (fun o => match o with Some x => x | None => 0%Z end) Heq) as Hv.
  cbv beta iota in Hv. lia.
Qed.

Lemma number2_range (a b : ascii) (v : Z) :
  PyTime.number [a; b] 0 = Some v -> (0 <= v <= 99)%Z.
Proof.
  cbn [PyTime.number].
  destruct (PyTime.digit_val a) as [x1 |] eqn:H1; [| discriminate].
  destruct (PyTime.digit_val b) as [x2 |] eqn:H2; [| discriminate].
  apply digit_val_range in H1. apply digit_val_range in H2.
  intros Heq.
  pose proof (f_equal (fun o => match o with Some x => x | None => 0%Z end) Heq) as Hv.
  cbv beta iota in Hv. lia.
Qed.

Lemma fmt_date_length (t : PyTime.datetime) : String.length (PyTime.fmt_date t) = 10%nat.
Proof. unfold PyTime.fmt_date. rewrite !length_append, !pad_length. reflexivity. Qed.

(** What the catalog stores re-parses to the calendar date it came
    from: the hour is lost. *)
Lemma stamp_reparses (t : PyTime.datetime) :
  parsed_time t -> PyTime.fromisoformat (Py.slice_to 10 (stamp t)) = Ok (date_of t).
Proof.
  intros (y & m & d & h & -> & Hvalid & Hh).
  pose proof Hvalid as Hbounds. apply valid_date_iff in Hbounds.
  destruct Hbounds as (Hy & Hm & Hd).
  pose proof (days_in_month_bounds y m) as Hdim.
  assert (Hten : Py.slice_to 10 (stamp (PyTime.mk_datetime y m d h 0 0 0 None))
                 = PyTime.fmt_date (PyTime.mk_datetime y m d h 0 0 0 None)).
  { unfold stamp, PyTime.isoformat, Py.slice_to. rewrite append_assoc.
    rewrite <- (fmt_date_length (PyTime.mk_datetime y m d h 0 0 0 None)) at 1.
    apply substring_append_left. }
  rewrite Hten. unfold PyTime.fromisoformat, PyTime.fmt_date, date_of, midnight.
  cbn [PyTime.year PyTime.month PyTime.day PyTime.pad append list_ascii_of_string].
  change (Ascii.eqb "-" "-") with true. cbv iota.
  rewrite digit_not_W.
  rewrite (number_pad4 y), (number_pad2 m), (number_pad2 d) by lia.
  unfold PyTime.of_calendar.
  destruct (Z.eqb_spec y 0) as [Hy0 | _]; [lia |].
  destruct (Z.leb_spec 1 m); [| lia]. destruct (Z.leb_spec m 12); [| lia].
  destruct (Z.leb_spec 1 d); [| lia].
  destruct (Z.leb_spec d (PyTime.days_in_month y m)); [| lia].
  reflexivity.
Qed.

Lemma with_date_self (t : PyTime.datetime) :
  t = PyTime.with_date t (PyTime.year t) (PyTime.month t) (PyTime.day t).
Proof. destruct t. reflexivity. Qed.

Lemma succ_day_valid (t t' : PyTime.datetime) :
  PyTime.valid_date (PyTime.year t) (PyTime.month t) (PyTime.day t) = true ->
  PyTime.succ_day t = Ok t' ->
  exists y m d, t' = PyTime.with_date t y m d /\ PyTime.valid_date y m d = true.
Proof.
  intros Hvalid. apply valid_date_iff in Hvalid. destruct Hvalid as (Hy & Hm & Hd).
  pose proof (days_in_month_bounds (PyTime.year t) (PyTime.month t)) as Hdim.
  pose proof (days_in_month_bounds (PyTime.year t) (PyTime.month t + 1)) as Hnext.
  pose proof (days_in_month_bounds (PyTime.year t + 1) 1) as Hjan.
  unfold PyTime.succ_day.
  destruct (Z.ltb_spec (PyTime.day t) (PyTime.days_in_month (PyTime.year t) (PyTime.month t))).
  - intros Heq. injection Heq as <-. do 3 eexists. split; [reflexivity |].
    apply valid_date_iff. lia.
  - destruct (Z.ltb_spec (PyTime.month t) 12).
    + intros Heq. injection Heq as <-. do 3 eexists. split; [reflexivity |].
      apply valid_date_iff. lia.
    + destruct (Z.ltb_spec (PyTime.year t) 9999); [| discriminate].
      intros Heq. injection Heq as <-. do 3 eexists. split; [reflexivity |].
      apply valid_date_iff. lia.
Qed.

Lemma pred_day_valid (t t' : PyTime.datetime) :
  PyTime.valid_date (PyTime.year t) (PyTime.month t) (PyTime.day t) = true ->
  PyTime.pred_day t = Ok t' ->
  exists y m d, t' = PyTime.with_date t y m d /\ PyTime.valid_date y m d = true.
Proof.
  intros Hvalid. apply valid_date_iff in Hvalid. destruct Hvalid as (Hy & Hm & Hd).
  pose proof (days_in_month_bounds (PyTime.year t) (PyTime.month t - 1)) as Hprev.
  unfold PyTime.pred_day.
  destruct (Z.ltb_spec 1 (PyTime.day t)).
  - intros Heq. injection Heq as <-. do 3 eexists. split; [reflexivity |].
    apply valid_date_iff. lia.
  - destruct (Z.ltb_spec 1 (PyTime.month t)).
    + intros Heq. injection Heq as <-. do 3 eexists. split; [reflexivity |].
      apply valid_date_iff. lia.
    + destruct (Z.ltb_spec 1 (PyTime.year t)); [| discriminate].
      intros Heq. injection Heq as <-. do 3 eexists. split; [reflexivity |].
      apply valid_date_iff. change (PyTime.days_in_month (PyTime.year t - 1) 12) with 31%Z.
      lia.
Qed.

Lemma iter_days_valid (step : PyTime.datetime -> Exc PyTime.datetime) :
  (forall t t',
      PyTime.valid_date (PyTime.year t) (PyTime.month t) (PyTime.day t) = true ->
      step t = Ok t' ->
      exists y m d, t' = PyTime.with_date t y m d /\ PyTime.valid_date y m d = true) ->
  forall (n : nat) (t t' : PyTime.datetime),
    PyTime.valid_date (PyTime.year t) (PyTime.month t) (PyTime.day t) = true ->
    PyTime.iter_days step n t = Ok t' ->
    exists y m d, t' = PyTime.with_date t y m d /\ PyTime.valid_date y m d = true.
Proof.
  intros Hstep. induction n as [| n IH]; intros t t' Hvalid; cbn [PyTime.iter_days].
  - intros Heq. injection Heq as <-. exists (PyTime.year t), (PyTime.month t), (PyTime.day t).
    split; [apply with_date_self | exact Hvalid].
  - destruct (step t) as [t1 | e] eqn:H1; [| discriminate].
    destruct (Hstep t t1 Hvalid H1) as (y1 & m1 & d1 & -> & Hvalid1).
    intros Hrest.
    destruct (IH (PyTime.with_date t y1 m1 d1) t' Hvalid1 Hrest) as (y & m & d & -> & Hv).
    exists y, m, d. split; [reflexivity | exact Hv].
Qed.

Lemma of_calendar_parsed (y m d : Z) (t : PyTime.datetime) :
  (0 <= y <= 9999)%Z -> PyTime.of_calendar y m d = Ok t -> parsed_time t.
Proof.
  intros Hy. unfold PyTime.of_calendar.
  destruct (Z.eqb_spec y 0); [discriminate |].
  destruct (Z.leb_spec 1 m); destruct (Z.leb_spec m 12); cbn [andb negb];
    try discriminate.
  destruct (Z.leb_spec 1 d); destruct (Z.leb_spec d (PyTime.days_in_month y m));
    cbn [andb negb]; try discriminate.
  intros Heq. injection Heq as <-. exists y, m, d, 0%Z.
  split; [reflexivity |]. split; [apply valid_date_iff |]; lia.
Qed.

Lemma of_isoweek_parsed (s : string) (y week weekday h : Z) (t : PyTime.datetime) :
  (0 <= y <= 9999)%Z -> (0 <= h)%Z ->
  PyTime.of_isoweek s y week weekday h = Ok t -> parsed_time t.
Proof.
  intros Hy Hh. unfold PyTime.of_isoweek.
  destruct (negb _ || negb _); [discriminate |].
  destruct (Z.eqb_spec y 0); [discriminate |]. cbv zeta.
  assert (Hjan : PyTime.valid_date
                   (PyTime.year (PyTime.mk_datetime y 1 1 0 0 0 0 None))
                   (PyTime.month (PyTime.mk_datetime y 1 1 0 0 0 0 None))
                   (PyTime.day (PyTime.mk_datetime y 1 1 0 0 0 0 None)) = true).
  { cbn. apply valid_date_iff. change (PyTime.days_in_month y 1) with 31%Z. lia. }
  match goal with
  | |- match ?c with _ => _ end = _ -> _ => destruct c as [t1 | e] eqn:Hconv
  end; [| discriminate].
  destruct (Z.ltb_spec 23 h); [discriminate |].
  intros Heq. injection Heq as <-.
  assert (Hmoved : exists y' m' d',
             t1 = PyTime.with_date (PyTime.mk_datetime y 1 1 0 0 0 0 None) y' m' d'
             /\ PyTime.valid_date y' m' d' = true).
  { match type of Hconv with
    | (if ?c then _ else _) = _ => destruct c
    end.
    - exact (iter_days_valid PyTime.pred_day pred_day_valid _ _ _ Hjan Hconv).
    - exact (iter_days_valid PyTime.succ_day succ_day_valid _ _ _ Hjan Hconv). }
  destruct Hmoved as (y' & m' & d' & -> & Hvalid).
  exists y', m', d', h. split; [reflexivity |]. split; [exact Hvalid | lia].
Qed.

Lemma fromisoformat_parsed (d : string) (t : PyTime.datetime) :
  PyTime.fromisoformat d = Ok t -> parsed_time t.
Proof.
  unfold PyTime.fromisoformat.
  destruct (list_ascii_of_string d) as [| c0 [| c1 [| c2 [| c3 [| c4 [| c5 [| c6
             [| c7 [| c8 [| c9 [| extra rest]]]]]]]]]]]; try discriminate.
  assert (Hweek : forall c c' weekday,
             match PyTime.number [c0; c1; c2; c3] 0, PyTime.number [c; c'] 0,
                   PyTime.number [c8; c9] 0 with
             | Some y, Some week, Some h => PyTime.of_isoweek d y week weekday h
             | _, _, _ => Raise (PyTime.invalid_iso d)
             end = Ok t -> parsed_time t).
  { intros c c' weekday.
    destruct (PyTime.number [c0; c1; c2; c3] 0) as [y |] eqn:Hy; [| discriminate].
    destruct (PyTime.number [c; c'] 0) as [week |]; [| discriminate].
    destruct (PyTime.number [c8; c9] 0) as [h |] eqn:Hh; [| discriminate].
    apply number4_range in Hy. apply number2_range in Hh.
    apply of_isoweek_parsed; lia. }
  destruct (Ascii.eqb c4 "-").
  - destruct (Ascii.eqb c5 "W").
    + destruct (Ascii.eqb c8 "-"); [| discriminate].
      destruct (PyTime.number [c0; c1; c2; c3] 0) as [y |] eqn:Hy; [| discriminate].
      destruct (PyTime.number [c6; c7] 0) as [week |]; [| discriminate].
      destruct (PyTime.number [c9] 0) as [weekday |]; [| discriminate].
      apply number4_range in Hy. apply of_isoweek_parsed; lia.
    + destruct (Ascii.eqb c7 "-"); [| discriminate].
      destruct (PyTime.number [c0; c1; c2; c3] 0) as [y |] eqn:Hy; [| discriminate].
      destruct (PyTime.number [c5; c6] 0) as [m |]; [| discriminate].
      destruct (PyTime.number [c8; c9] 0) as [dd |]; [| discriminate].
      apply number4_range in Hy. apply of_calendar_parsed. lia.
  - destruct (Ascii.eqb c4 "W"); [| discriminate].
    destruct (PyTime.digit_val c7), (PyTime.digit_val c8), (PyTime.digit_val c9);
      try discriminate; apply Hweek.
Qed.

Lemma lex_gt_irrefl (a : list Z) : PyTime.lex_gt a a = false.
Proof.
  induction a as [| x a IH]; cbn; [reflexivity |].
  rewrite Z.ltb_irrefl, Z.eqb_refl, IH. reflexivity.
Qed.

Lemma gt_irrefl (t : PyTime.datetime) : PyTime.gt t t = false.
Proof. apply lex_gt_irrefl. Qed.

(** The order of calendar dates, and of a parsed time against one. *)
Lemma date_not_later (a b : PyTime.datetime) :
  PyTime.gt (date_of a) (date_of b) = false
  <-> (PyTime.year a < PyTime.year b
       \/ (PyTime.year a = PyTime.year b
           /\ (PyTime.month a < PyTime.month b
               \/ (PyTime.month a = PyTime.month b /\ PyTime.day a <= PyTime.day b))))%Z.
Proof.
  unfold PyTime.gt, PyTime.fields, date_of, midnight.
  cbn [PyTime.lex_gt PyTime.year PyTime.month PyTime.day PyTime.hour PyTime.minute
         PyTime.second PyTime.microsecond].
  destruct (Z.ltb_spec (PyTime.year b) (PyTime.year a));
    destruct (Z.eqb_spec (PyTime.year a) (PyTime.year b));
    destruct (Z.ltb_spec (PyTime.month b) (PyTime.month a));
    destruct (Z.eqb_spec (PyTime.month a) (PyTime.month b));
    destruct (Z.ltb_spec (PyTime.day b) (PyTime.day a));
    destruct (Z.eqb_spec (PyTime.day a) (PyTime.day b));
    cbn; split; intros; try lia; try reflexivity; try discriminate.
Qed.

Lemma parsed_later (y m d h : Z) (b : PyTime.datetime) :
  (0 <= h)%Z ->
  PyTime.gt (PyTime.mk_datetime y m d h 0 0 0 None) (date_of b) = true
  <-> (PyTime.year b < y
       \/ (PyTime.year b = y
           /\ (PyTime.month b < m
               \/ (PyTime.month b = m
                   /\ (PyTime.day b < d \/ (PyTime.day b = d /\ 0 < h))))))%Z.
Proof.
  intros Hh. unfold PyTime.gt, PyTime.fields, date_of, midnight.
  cbn [PyTime.lex_gt PyTime.year PyTime.month PyTime.day PyTime.hour PyTime.minute
         PyTime.second PyTime.microsecond].
  destruct (Z.ltb_spec (PyTime.year b) y); destruct (Z.eqb_spec y (PyTime.year b));
    destruct (Z.ltb_spec (PyTime.month b) m); destruct (Z.eqb_spec m (PyTime.month b));
    destruct (Z.ltb_spec (PyTime.day b) d); destruct (Z.eqb_spec d (PyTime.day b));
    destruct (Z.ltb_spec 0 h); destruct (Z.eqb_spec h 0);
    cbn; split; intros; try lia; try reflexivity; try discriminate.
Qed.

(** Lines 183-185 on an entry whose date is absent or was written by
    the loop. *)
Lemma newer_backup_latest (entry : RepositorySummary) (d : string)
  (dates : list PyTime.datetime) :
  latest_of (r_last_backup entry) dates ->
  match PyTime.fromisoformat d with
  | Ok t =>
      exists entry', newer_backup entry d = Ok entry'
                     /\ latest_of (r_last_backup entry') (dates ++ [t])
  | Raise e => newer_backup entry d = Raise e
  end.
Proof.
  intros Hlatest. unfold newer_backup. cbn [bind ret Exc_Monad].
  destruct (PyTime.fromisoformat d) as [t | e] eqn:Hparse; [| reflexivity].
  pose proof (fromisoformat_parsed d t Hparse) as Hparsed.
  destruct (r_last_backup entry) as [last |] eqn:Hlast; cbn [latest_of] in Hlatest.
  - destruct Hlatest as (t0 & -> & Hparsed0 & Hin & Hmax).
    rewrite (stamp_reparses t0 Hparsed0).
    destruct (PyTime.gt t (date_of t0)) eqn:Hgt; eexists; (split; [reflexivity |]);
      cbn [r_last_backup set_last_backup latest_of].
    + exists t. split; [reflexivity |]. split; [exact Hparsed |].
      split; [apply in_or_app; right; left; reflexivity |].
      assert (Hnew : PyTime.gt (date_of t0) (date_of t) = false).
      { destruct Hparsed as (y & m & dd & h & -> & _ & Hh).
        apply parsed_later in Hgt; [| lia]. apply date_not_later.
        cbn [PyTime.year PyTime.month PyTime.day]. lia. }
      intros t' Ht'. apply in_app_or in Ht'. destruct Ht' as [Ht' | [<- | []]].
      * specialize (Hmax t' Ht'). apply date_not_later in Hmax, Hnew.
        apply date_not_later. lia.
      * apply gt_irrefl.
    + rewrite Hlast. cbn [latest_of].
      exists t0. split; [reflexivity |]. split; [exact Hparsed0 |].
      split; [apply in_or_app; left; exact Hin |].
      intros t' Ht'. apply in_app_or in Ht'. destruct Ht' as [Ht' | [<- | []]]; auto.
      destruct Hparsed as (y & m & dd & h & -> & _ & Hh).
      destruct (parsed_later y m dd h t0 (proj1 Hh)) as [_ Hback].
      rewrite Hgt in Hback.
      pose proof (fun later => diff_false_true (Hback later)) as Hnot.
      apply date_not_later. cbn [PyTime.year PyTime.month PyTime.day]. lia.
  - subst dates. eexists. split; [reflexivity |].
    cbn [r_last_backup set_last_backup latest_of app].
    exists t. split; [reflexivity |]. split; [exact Hparsed |].
    split; [left; reflexivity |].
    intros t' [<- | []]. apply gt_irrefl.
Qed.

(** ** The catalog files every archive *)

Lemma repos_lookup_adjust_same (m : repos) (k : string) (r : RepositorySummary)
  (f : RepositorySummary -> RepositorySummary) :
  repos_lookup m k = Some r -> repos_lookup (repos_adjust m k f) k = Some (f r).
Proof.
  induction m as [| [k' r'] m IH]; cbn; [discriminate |].
  destruct (String.eqb k' k) eqn:Hk; cbn; rewrite Hk; [congruence | exact IH].
Qed.

Lemma repos_lookup_adjust_other (m : repos) (k k' : string)
  (f : RepositorySummary -> RepositorySummary) :
  k' <> k -> repos_lookup (repos_adjust m k f) k' = repos_lookup m k'.
Proof.
  intros Hne. induction m as [| [k0 r0] m IH]; cbn; [reflexivity |].
  destruct (String.eqb_spec k0 k) as [-> | Hk]; cbn.
  - destruct (String.eqb_spec k k'); [congruence | reflexivity].
  - destruct (String.eqb k0 k'); [reflexivity | exact IH].
Qed.

Lemma repos_lookup_app_other (m : repos) (k k' : string) (r : RepositorySummary) :
  k' <> k -> repos_lookup (m ++ [(k, r)])%list k' = repos_lookup m k'.
Proof.
  intros Hne. induction m as [| [k0 r0] m IH]; cbn.
  - destruct (String.eqb_spec k k'); [congruence | reflexivity].
  - destruct (String.eqb k0 k'); [reflexivity | exact IH].
Qed.

Lemma repos_lookup_in (m : repos) (k : string) (r : RepositorySummary) :
  NoDup (map fst m) -> In (k, r) m -> repos_lookup m k = Some r.
Proof.
  induction m as [| [k' r'] m IH]; cbn; [tauto |].
  intros Hnodup [Heq | Hin].
  - injection Heq as -> ->. rewrite String.eqb_refl. reflexivity.
  - inversion Hnodup as [| ? ? Hnotin Hnodup']; subst.
    destruct (String.eqb_spec k' k) as [-> | Hne]; [| exact (IH Hnodup' Hin)].
    exfalso. apply Hnotin. apply (in_map fst) in Hin. exact Hin.
Qed.

Lemma repos_lookup_some_in (m : repos) (k : string) (r : RepositorySummary) :
  repos_lookup m k = Some r -> In (k, r) m.
Proof.
  induction m as [| [k' r'] m IH]; cbn; [discriminate |].
  destruct (String.eqb_spec k' k) as [-> | Hne].
  - intros H. injection H as ->. left. reflexivity.
  - intros H. right. exact (IH H).
Qed.

(** The step of the catalog loop on a blob that survives, in closed
    form. *)
Lemma catalog_step_survivor (w : World) (m : repos) (b : Blob)
  (org project repo : string) (date_str : value) :
  Py.endswith (name b) ".zip" = true ->
  _parse_blob_path (environ w) (name b)
  = Some [ ("org", VStr org); ("project", VStr project); ("repo", VStr repo);
           ("date_str", date_str); ("blob_name", VStr (name b)) ] ->
  let repo_id := org ++ "-" ++ project ++ "-" ++ repo in
  let counted :=
    repos_adjust
      (if repos_mem m repo_id then m
       else (m ++ [(repo_id,
                    mk_RepositorySummary repo_id (VStr org) (VStr project)
                      (VStr repo) 0 None)])%list)
      repo_id incr_count in
  catalog_step w m b
  = Ok (match date_str with
        | VStr (String _ _ as d) =>
            match repos_lookup counted repo_id with
            | Some entry =>
                match newer_backup entry d with
                | Ok entry' => repos_adjust counted repo_id (fun _ => entry')
                | Raise _ => counted
                end
            | None => counted
            end
        | _ => counted
        end).
Proof.
  intros Hzip Hparse repo_id counted. unfold catalog_step.
  rewrite Hzip, Hparse. cbn [negb].
  change (getitem _ "org") with (Ok (VStr org)).
  change (getitem _ "project") with (Ok (VStr project)).
  change (getitem _ "repo") with (Ok (VStr repo)).
  change (getitem _ "date_str") with (Ok date_str).
  cbn [bind Exc_Monad fmt]. fold repo_id. fold counted.
  destruct date_str as [| [| c d]]; try reflexivity.
  destruct (repos_lookup counted repo_id) as [entry |]; [| reflexivity].
  destruct (newer_backup entry (String c d)); reflexivity.
Qed.

Lemma dates_of_app (env : Environ) (k : string) (l1 l2 : list Blob) :
  dates_of env k (l1 ++ l2) = (dates_of env k l1 ++ dates_of env k l2)%list.
Proof. unfold dates_of. apply flat_map_app. Qed.

Lemma dates_of_snoc (env : Environ) (k : string) (processed : list Blob) (b : Blob) :
  dates_of env k (processed ++ [b])
  = (dates_of env k processed
       ++ match blob_date env k b with
          | Some t => [t]
          | None => []
          end)%list.
Proof.
  rewrite dates_of_app. f_equal. unfold dates_of. cbn [flat_map]. apply app_nil_r.
Qed.

Lemma archives_of_snoc (env : Environ) (k : string) (processed : list Blob) (b : Blob) :
  archives_of env k (processed ++ [b])
  = (archives_of env k processed ++ (if files_under env k b then [b] else []))%list.
Proof. unfold archives_of. rewrite filter_app. reflexivity. Qed.

Lemma counted_lookup (m : repos) (id : string) (fresh : RepositorySummary) :
  let counted :=
    repos_adjust (if repos_mem m id then m else (m ++ [(id, fresh)])%list) id incr_count in
  (forall k, k <> id -> repos_lookup counted k = repos_lookup m k)
  /\ exists r2,
      repos_lookup counted id = Some r2
      /\ r_last_backup r2 = match repos_lookup m id with
                            | Some r => r_last_backup r
                            | None => r_last_backup fresh
                            end
      /\ r_backup_count r2 = (match repos_lookup m id with
                              | Some r => r_backup_count r
                              | None => r_backup_count fresh
                              end + 1)%Z.
Proof.
  intros counted. subst counted. unfold repos_mem.
  destruct (repos_lookup m id) as [r |] eqn:Hlookup.
  - split.
    + intros k Hk. apply repos_lookup_adjust_other. exact Hk.
    + exists (incr_count r). split; [apply repos_lookup_adjust_same; exact Hlookup |].
      split; reflexivity.
  - split.
    + intros k Hk. rewrite repos_lookup_adjust_other by exact Hk.
      apply repos_lookup_app_other. exact Hk.
    + exists (incr_count fresh).
      split; [| split; reflexivity].
      apply repos_lookup_adjust_same. apply repos_lookup_app_new. exact Hlookup.
Qed.

Lemma catalog_step_filed (w : World) (m : repos) (b : Blob) (processed : list Blob) :
  filed (environ w) m processed ->
  exists m',
    catalog_step w m b = Ok m' /\ filed (environ w) m' (processed ++ [b]).
Proof.
  intros Hfiled.
  assert (Hskip : survives (environ w) b = false ->
                  catalog_step w m b = Ok m ->
                  exists m', catalog_step w m b = Ok m'
                             /\ filed (environ w) m' (processed ++ [b])).
  { intros Hsurv Hstep. exists m. split; [exact Hstep |]. intros k.
    rewrite dates_of_snoc, archives_of_snoc.
    unfold blob_date, files_under, catalog_id. rewrite Hsurv, !app_nil_r.
    apply Hfiled. }
  destruct (Py.endswith (name b) ".zip") eqn:Hzip.
  2: { apply Hskip; [unfold survives | unfold catalog_step]; rewrite Hzip; reflexivity. }
  destruct (_parse_blob_path (environ w) (name b)) as [parsed |] eqn:Hparse.
  2: { apply Hskip; [unfold survives | unfold catalog_step]; rewrite Hzip, Hparse;
       reflexivity. }
  destruct (parsed_shape _ _ _ Hparse) as (org & project & repo & date_str & -> & _).
  rewrite (catalog_step_survivor w m b org project repo date_str Hzip Hparse).
  cbv zeta.
  set (id := org ++ "-" ++ project ++ "-" ++ repo).
  set (fresh := mk_RepositorySummary id (VStr org) (VStr project) (VStr repo) 0 None).
  destruct (counted_lookup m id fresh) as (Hother & r2 & Hfound & Hlast & Hcount).
  cbv zeta in Hother, Hfound.
  set (counted := repos_adjust _ id incr_count) in *.
  assert (Hid : catalog_id (environ w) b = Some id).
  { unfold catalog_id, survives. rewrite Hzip, Hparse. reflexivity. }
  assert (Hold : latest_of (r_last_backup r2) (dates_of (environ w) id processed)
                 /\ r_backup_count r2
                    = (Z.of_nat (List.length (archives_of (environ w) id processed)) + 1)%Z).
  { rewrite Hlast, Hcount. specialize (Hfiled id).
    destruct (repos_lookup m id) as [r |].
    - destruct Hfiled as [Hl Hc]. rewrite Hc. split; [exact Hl | reflexivity].
    - destruct Hfiled as [Ha Hd]. rewrite Ha, Hd. split; reflexivity. }
  destruct Hold as [Hold Hcounted].
  assert (Hdate : forall k,
             blob_date (environ w) k b
             = if String.eqb id k
               then match date_str with
                    | VStr d => match PyTime.fromisoformat d with
                                | Ok t => Some t
                                | Raise _ => None
                                end
                    | VNone => None
                    end
               else None).
  { intros k. unfold blob_date. rewrite Hid, Hparse. reflexivity. }
  assert (Hunder : forall k, files_under (environ w) k b = String.eqb id k).
  { intros k. unfold files_under. rewrite Hid. reflexivity. }
  assert (Hrest : forall m',
             (forall k, k <> id -> repos_lookup m' k = repos_lookup counted k) ->
             forall k, k <> id ->
                       match repos_lookup m' k with
                       | Some r =>
                           latest_of (r_last_backup r)
                             (dates_of (environ w) k (processed ++ [b]))
                           /\ r_backup_count r
                              = Z.of_nat (List.length
                                            (archives_of (environ w) k (processed ++ [b])))
                       | None =>
                           archives_of (environ w) k (processed ++ [b]) = []
                           /\ dates_of (environ w) k (processed ++ [b]) = []
                       end).
  { intros m' Hm' k Hk.
    rewrite (Hm' k Hk), (Hother k Hk), dates_of_snoc, archives_of_snoc, Hdate, Hunder.
    destruct (String.eqb_spec id k) as [Heq | _]; [congruence |].
    rewrite !app_nil_r. apply Hfiled. }
  assert (Hsame : forall k, k <> id -> repos_lookup counted k = repos_lookup counted k)
    by reflexivity.
  assert (Hlength : Z.of_nat (List.length (archives_of (environ w) id (processed ++ [b])))
                    = (Z.of_nat (List.length (archives_of (environ w) id processed)) + 1)%Z).
  { rewrite archives_of_snoc, Hunder, String.eqb_refl, length_app. cbn [List.length]. lia. }
  assert (Hkeep : match date_str with
                  | VStr d => match PyTime.fromisoformat d with
                              | Ok _ => False
                              | Raise _ => True
                              end
                  | VNone => True
                  end ->
                  filed (environ w) counted (processed ++ [b])).
  { intros Hnone k. destruct (String.eqb_spec k id) as [-> | Hk];
      [| exact (Hrest counted Hsame k Hk)].
    rewrite Hfound, Hlength, dates_of_snoc, Hdate, String.eqb_refl.
    split; [| exact Hcounted].
    destruct date_str as [| d]; [rewrite app_nil_r; exact Hold |].
    destruct (PyTime.fromisoformat d); [contradiction | rewrite app_nil_r; exact Hold]. }
  destruct date_str as [| [| c d]].
  - eexists. split; [reflexivity | apply Hkeep; exact I].
  - eexists. split; [reflexivity | apply Hkeep; exact I].
  - rewrite Hfound.
    pose proof (newer_backup_latest r2 (String c d) _ Hold) as Hnewer.
    destruct (PyTime.fromisoformat (String c d)) as [t | e] eqn:Hparsed.
    + destruct Hnewer as (entry' & Hentry & Hlatest').
      destruct (newer_backup_keeps _ _ _ Hentry) as (_ & _ & _ & _ & Hsamecount).
      rewrite Hentry.
      eexists. split; [reflexivity |]. intros k.
      destruct (String.eqb_spec k id) as [-> | Hk].
      * rewrite (repos_lookup_adjust_same counted id r2 _ Hfound), dates_of_snoc.
        rewrite Hdate, String.eqb_refl, Hlength, Hsamecount.
        split; [exact Hlatest' | exact Hcounted].
      * apply Hrest; [| exact Hk]. intros k' Hk'.
        apply repos_lookup_adjust_other. exact Hk'.
    + rewrite Hnewer. eexists. split; [reflexivity |].
      apply Hkeep. exact I.
Qed.

Lemma catalog_loop_filed (w : World) (blobs : list Blob) :
  forall (m : repos) (processed : list Blob) (s : state),
    filed (environ w) m processed ->
    exists m',
      for_each blobs m (fun repos_map blob => lift (catalog_step w repos_map blob)) s
      = (Ok m', s)
      /\ filed (environ w) m' (processed ++ blobs).
Proof.
  induction blobs as [| b blobs IH]; intros m processed s Hfiled.
  - exists m. rewrite app_nil_r. split; [reflexivity | exact Hfiled].
  - destruct (catalog_step_filed w m b processed Hfiled) as (m1 & Hstep & Hfiled1).
    destruct (IH m1 (processed ++ [b])%list s Hfiled1) as (m' & Hloop & Hfiled').
    exists m'. cbn [for_each bind M_Monad]. unfold lift at 1. rewrite Hstep.
    split; [exact Hloop |]. rewrite <- app_assoc in Hfiled'. exact Hfiled'.
Qed.

(** The catalog when the listing succeeds. *)
Lemma catalog_outcome (w : World) (client : BlobServiceClient)
  (cc : ContainerClient) (s : state) :
  MOCK_MODE (environ w) = false ->
  _get_storage_client w = Ok (Some client) ->
  get_container_client w client (container_of (environ w)) = Ok cc ->
  failure (list_blobs w cc (catalog_prefix (environ w))) = None ->
  exists m,
    list_repositories w s
    = (Ok (map snd m),
       logged s [EvListBlobs (container_name_of cc) (catalog_prefix (environ w))])
    /\ catalog_ok m
    /\ filed (environ w) m (yielded (list_blobs w cc (catalog_prefix (environ w))))
    /\ total_count (map snd m)
       = Z.of_nat (List.length
                     (filter (survives (environ w))
                        (yielded (list_blobs w cc (catalog_prefix (environ w)))))).
Proof.
  intros Hmock Hclient Hcc Hfail.
  set (blobs := yielded (list_blobs w cc (catalog_prefix (environ w)))).
  set (s1 := logged s [EvListBlobs (container_name_of cc) (catalog_prefix (environ w))]).
  assert (Hempty : catalog_ok []) by (split; constructor).
  assert (Hnone : filed (environ w) [] []) by (intros k; split; reflexivity).
  destruct (catalog_loop w blobs [] s1 Hempty) as (m & Hloop & Hok & Htotal).
  destruct (catalog_loop_filed w blobs [] [] s1 Hnone) as (m2 & Hloop2 & Hfiled).
  rewrite Hloop in Hloop2. injection Hloop2 as <-. cbn [app] in Hfiled.
  exists m. split; [| split; [exact Hok | split; [exact Hfiled | exact Htotal]]].
  rewrite (list_repositories_listing w client s Hmock Hclient), Hcc. cbv beta iota.
  fold blobs s1. rewrite Hloop, Hfail. reflexivity.
Qed.

Lemma catalog_entry (m : repos) (r : RepositorySummary) :
  catalog_ok m -> In r (map snd m) ->
  repos_lookup m (r_id r) = Some r
  /\ summary_id_matches r /\ (1 <= r_backup_count r)%Z.
Proof.
  intros [Hnodup Hall] Hr. apply in_map_iff in Hr.
  destruct Hr as ([k r'] & <- & Hin). cbn [snd].
  rewrite Forall_forall in Hall. destruct (Hall _ Hin) as (Hid & Hmatch & Hcount).
  cbn [fst snd] in *. rewrite Hid.
  split; [exact (repos_lookup_in m k r' Hnodup Hin) | split; assumption].
Qed.

Lemma catalog_lists_id (env : Environ) (m : repos) (blobs : list Blob) (b : Blob)
  (k : string) :
  catalog_ok m -> filed env m blobs ->
  In b blobs -> catalog_id env b = Some k -> In k (map r_id (map snd m)).
Proof.
  intros [_ Hall] Hfiled Hb Hk. specialize (Hfiled k).
  destruct (repos_lookup m k) as [r |] eqn:Hlookup.
  - apply repos_lookup_some_in in Hlookup.
    rewrite Forall_forall in Hall. destruct (Hall _ Hlookup) as (Hid & _).
    cbn [fst snd] in Hid. rewrite <- Hid.
    apply in_map. apply (in_map snd) in Hlookup. exact Hlookup.
  - destruct Hfiled as [Hnone _].
    assert (Hin : In b (archives_of env k blobs)).
    { apply filter_In. split; [exact Hb |].
      unfold files_under. rewrite Hk. apply String.eqb_refl. }
    rewrite Hnone in Hin. contradiction.
Qed.

(** X4.  When the listing of the container succeeds, the catalog holds
    one summary per repository identifier: the identifiers are pairwise
    distinct, each is [org-project-repo] of its summary, every archive
    (a blob that ends in [.zip] and parses) has the summary of its
    identifier, and that summary counts exactly the archives of this
    identifier; so the counts add up to the number of archives.  One
    request is made, for the configured prefix. *)
Theorem catalog_counts_every_archive (w : World) (client : BlobServiceClient)
  (cc : ContainerClient) (s : state) :
  MOCK_MODE (environ w) = false ->
  _get_storage_client w = Ok (Some client) ->
  get_container_client w client (container_of (environ w)) = Ok cc ->
  failure (list_blobs w cc (catalog_prefix (environ w))) = None ->
  exists rs,
    list_repositories w s
    = (Ok rs, logged s [EvListBlobs (container_name_of cc) (catalog_prefix (environ w))])
    /\ NoDup (map r_id rs)
    /\ Forall (fun r =>
                 summary_id_matches r
                 /\ (1 <= r_backup_count r)%Z
                 /\ r_backup_count r
                    = Z.of_nat
                        (List.length
                           (archives_of (environ w) (r_id r)
                              (yielded (list_blobs w cc (catalog_prefix (environ w)))))))
         rs
    /\ (forall b k,
           In b (yielded (list_blobs w cc (catalog_prefix (environ w)))) ->
           catalog_id (environ w) b = Some k -> In k (map r_id rs))
    /\ total_count rs
       = Z.of_nat (List.length
                     (filter (survives (environ w))
                        (yielded (list_blobs w cc (catalog_prefix (environ w)))))).
Proof.
  intros Hmock Hclient Hcc Hfail.
  destruct (catalog_outcome w client cc s Hmock Hclient Hcc Hfail)
    as (m & Hrun & Hok & Hfiled & Htotal).
  exists (map snd m). split; [exact Hrun |].
  split; [exact (proj1 (catalog_ok_ids m Hok)) |].
  split; [| split; [| exact Htotal]].
  - apply Forall_forall. intros r Hr.
    destruct (catalog_entry m r Hok Hr) as (Hlookup & Hmatch & Hcount).
    specialize (Hfiled (r_id r)). rewrite Hlookup in Hfiled.
    split; [exact Hmatch | split; [exact Hcount | exact (proj2 Hfiled)]].
  - intros b k Hb Hk. exact (catalog_lists_id _ m _ b k Hok Hfiled Hb Hk).
Qed.

Lemma catalog_counts_every_archive_witness :
  exists rs,
    list_repositories (calm_world account_env scenario_blobs) init
    = (Ok rs, logged init [EvListBlobs "git-backups" ""])
    /\ NoDup (map r_id rs)
    /\ Forall (fun r =>
                 summary_id_matches r
                 /\ (1 <= r_backup_count r)%Z
                 /\ r_backup_count r
                    = Z.of_nat (List.length (archives_of account_env (r_id r) scenario_blobs)))
         rs
    /\ (forall b k,
           In b scenario_blobs -> catalog_id account_env b = Some k -> In k (map r_id rs))
    /\ total_count rs
       = Z.of_nat (List.length (filter (survives account_env) scenario_blobs)).
Proof.
  apply (catalog_counts_every_archive (calm_world account_env scenario_blobs)
           (mk_BlobServiceClient "https://acct.blob.core.windows.net")
           (mk_ContainerClient "git-backups") init); reflexivity.
Defined.

(** X6.  When the listing succeeds, the [last_backup] of every summary
    is what line 185 stores ([isoformat] followed by [Z]) for one of the
    archives of that repository whose [date_str]
    [datetime.fromisoformat] accepts, and the calendar date of that
    archive is the latest among them; it is absent exactly when
    [fromisoformat] accepts none.  Only calendar dates are compared with
    what is stored: of two archives of one day either may be kept. *)
Theorem catalog_last_backup_is_latest (w : World) (client : BlobServiceClient)
  (cc : ContainerClient) (s : state) :
  MOCK_MODE (environ w) = false ->
  _get_storage_client w = Ok (Some client) ->
  get_container_client w client (container_of (environ w)) = Ok cc ->
  failure (list_blobs w cc (catalog_prefix (environ w))) = None ->
  exists rs,
    fst (list_repositories w s) = Ok rs
    /\ Forall (fun r =>
                 latest_of (r_last_backup r)
                   (dates_of (environ w) (r_id r)
                      (yielded (list_blobs w cc (catalog_prefix (environ w))))))
         rs.
Proof.
  intros Hmock Hclient Hcc Hfail.
  destruct (catalog_outcome w client cc s Hmock Hclient Hcc Hfail)
    as (m & Hrun & Hok & Hfiled & _).
  exists (map snd m). split; [rewrite Hrun; reflexivity |].
  apply Forall_forall. intros r Hr.
  destruct (catalog_entry m r Hok Hr) as (Hlookup & _).
  specialize (Hfiled (r_id r)). rewrite Hlookup in Hfiled. exact (proj1 Hfiled).
Qed.

Lemma catalog_last_backup_is_latest_witness :
  exists rs,
    fst (list_repositories (calm_world account_env week_blobs) init) = Ok rs
    /\ Forall (fun r =>
                 latest_of (r_last_backup r)
                   (dates_of account_env (r_id r) week_blobs))
         rs.
Proof.
  apply (catalog_last_backup_is_latest (calm_world account_env week_blobs)
           (mk_BlobServiceClient "https://acct.blob.core.windows.net")
           (mk_ContainerClient "git-backups") init); reflexivity.
Defined.


(** ** The version loop *)

Lemma version_of_built (w : World) (repo_id : string) (parsed : dict) (b : Blob)
  (s s' : state) (v : BackupVersion) :
  _parse_blob_path (environ w) (name b) = Some parsed ->
  version_of w repo_id parsed b s = (Ok v, s') ->
  built (environ w) repo_id b v.
Proof.
  intros Hparse. unfold version_of, utcnow, lift. cbn [bind ret M_Monad].
  rewrite (version_id_ignores_blob_name _ _ _ (VStr (name b)) Hparse).
  destruct (last_modified b) as [t |]; cbn [bind ret M_Monad].
  - destruct (PyTime.add_days t 90); [| discriminate].
    intros H. injection H as <- _. repeat split. eauto.
  - intros H. injection H as <- _. repeat split. eauto.
Qed.

Lemma versions_step_built (w : World) (repo_id : string) (acc acc' : list BackupVersion)
  (b : Blob) (s s' : state) :
  versions_step w repo_id acc b s = (Ok acc', s') ->
  exists news,
    acc' = (acc ++ news)%list
    /\ Forall2 (built (environ w) repo_id) (filter (survives (environ w)) [b]) news.
Proof.
  unfold versions_step, survives. cbn [filter].
  destruct (Py.endswith (name b) ".zip"); cbn [negb andb].
  - destruct (_parse_blob_path (environ w) (name b)) as [[| kv parsed] |] eqn:Hparse.
    + intros H. injection H as <- _. exists []. rewrite app_nil_r. split; constructor.
    + cbn [bind ret M_Monad].
      destruct (version_of w repo_id (kv :: parsed) b s) as [[v | e] s1] eqn:Hv;
        [| discriminate].
      intros H. injection H as <- _. exists [v]. split; [reflexivity |].
      constructor; [| constructor]. exact (version_of_built _ _ _ _ _ _ _ Hparse Hv).
    + intros H. injection H as <- _. exists []. rewrite app_nil_r. split; constructor.
  - intros H. injection H as <- _. exists []. rewrite app_nil_r. split; constructor.
Qed.

Lemma versions_loop_built (w : World) (repo_id : string) (blobs : list Blob) :
  forall (acc pre : list BackupVersion) (s s' : state),
    for_each blobs acc (versions_step w repo_id) s = (Ok pre, s') ->
    exists news,
      pre = (acc ++ news)%list
      /\ Forall2 (built (environ w) repo_id) (filter (survives (environ w)) blobs) news.
Proof.
  induction blobs as [| b blobs IH]; intros acc pre s s'.
  - cbn. intros H. injection H as <- _. exists []. rewrite app_nil_r. split; constructor.
  - cbn [for_each bind M_Monad].
    destruct (versions_step w repo_id acc b s) as [[acc1 | e] s1] eqn:Hstep; [| discriminate].
    intros Hrest.
    destruct (versions_step_built _ _ _ _ _ _ _ Hstep) as (n1 & -> & Hn1).
    destruct (IH _ _ _ _ Hrest) as (n2 & -> & Hn2).
    exists (n1 ++ n2)%list. rewrite app_assoc. split; [reflexivity |].
    change (b :: blobs) with ([b] ++ blobs)%list. rewrite filter_app.
    apply Forall2_app; assumption.
Qed.

Lemma versions_step_total (w : World) (repo_id : string) (acc : list BackupVersion)
  (b : Blob) (s : state) :
  in_range b -> exists acc' s', versions_step w repo_id acc b s = (Ok acc', s').
Proof.
  intros Hrange. unfold versions_step.
  destruct (negb _); [cbn; eauto |].
  destruct (_parse_blob_path (environ w) (name b)) as [[| kv parsed] |];
    [cbn; eauto | | cbn; eauto].
  unfold version_of, utcnow, lift, in_range in *. cbn [bind ret M_Monad].
  destruct (last_modified b) as [t |]; cbn [bind ret M_Monad]; [| eauto].
  destruct Hrange as [t' ->]. eauto.
Qed.

Lemma versions_loop_total (w : World) (repo_id : string) (blobs : list Blob) :
  Forall in_range blobs ->
  forall (acc : list BackupVersion) (s : state),
  exists pre s', for_each blobs acc (versions_step w repo_id) s = (Ok pre, s').
Proof.
  induction 1 as [| b blobs Hb _ IH]; intros acc s.
  - cbn. eauto.
  - destruct (versions_step_total w repo_id acc b s Hb) as (acc1 & s1 & Hstep).
    destruct (IH acc1 s1) as (pre & s' & Hloop).
    exists pre, s'. cbn [for_each bind M_Monad]. rewrite Hstep. exact Hloop.
Qed.

(** The version lister outside mock mode, once the client is there and
    the identifier has its three parts. *)
Lemma list_backup_versions_listing (w : World) (client : BlobServiceClient)
  (repo_id org project repo : string) (rest : list string) (s : state) :
  MOCK_MODE (environ w) = false ->
  _get_storage_client w = Ok (Some client) ->
  Py.split_max "-" repo_id 2 = org :: project :: repo :: rest ->
  list_backup_versions w repo_id s
  = match get_container_client w client (container_of (environ w)) with
    | Ok cc =>
        match for_each
                (yielded (list_blobs w cc (blob_prefix_of (environ w) org project repo)))
                [] (versions_step w repo_id)
                (logged s [EvListBlobs (container_name_of cc)
                             (blob_prefix_of (environ w) org project repo)]) with
        | (Ok versions, s1) =>
            match failure (list_blobs w cc (blob_prefix_of (environ w) org project repo)) with
            | None => (Ok (sort_desc v_timestamp versions), s1)
            | Some e =>
                (Ok [], logged s1 [EvPrint ("Error listing backup versions: " ++ e)])
            end
        | (Raise e, s1) =>
            (Ok [], logged s1 [EvPrint ("Error listing backup versions: " ++ e)])
        end
    | Raise e => (Ok [], logged s [EvPrint ("Error listing backup versions: " ++ e)])
    end.
Proof.
  intros Hmock Hclient Hsplit.
  unfold list_backup_versions. rewrite Hmock. unfold lift at 1. cbn [bind M_Monad].
  rewrite Hclient, Hsplit.
  unfold try_except, for_blobs, container_of, blob_prefix_of, logged.
  unfold lift at 1. cbn [bind M_Monad].
  destruct (get_container_client w client _) as [cc | e]; [| reflexivity].
  unfold emit at 1. cbn [bind M_Monad].
  destruct (Py.truthy (storage_prefix (environ w)));
    match goal with
    | |- context [for_each ?xs [] ?f ?st] => destruct (for_each xs [] f st) as [[m | e] s1]
    end; try reflexivity; destruct (failure _); reflexivity.
Qed.

(** ** Repository identifiers *)

Lemma split_max_zero (c : ascii) (s : string) : Py.split_max c s 0 = [s].
Proof. destruct s; reflexivity. Qed.

Lemma split_max_length (c : ascii) (s : string) :
  forall n, List.length (Py.split_max c s n) = S (Nat.min (count_char c s) n).
Proof.
  induction s as [| a s IH]; intros [| k]; try reflexivity.
  - cbn [List.length Py.split_max count_char]. rewrite Nat.min_0_r. reflexivity.
  - cbn [Py.split_max count_char]. destruct (Ascii.eqb a c).
    + cbn [List.length]. rewrite IH. reflexivity.
    + specialize (IH (S k)).
      destruct (Py.split_max c s (S k)) as [| x xs]; [discriminate |].
      cbn [List.length Nat.add] in *. exact IH.
Qed.

Lemma split_max_segment (c : ascii) (a rest : string) (k : nat) :
  Py.contains c a = false ->
  Py.split_max c (a ++ String c rest) (S k) = a :: Py.split_max c rest k.
Proof.
  induction a as [| x a IH]; cbn.
  - intros _. rewrite Ascii.eqb_refl. reflexivity.
  - intros H. apply orb_false_iff in H. destruct H as [Hx Ha].
    rewrite Hx, (IH Ha). reflexivity.
Qed.

(** The identifier the catalog builds splits back into its parts when
    neither the organisation nor the project holds a hyphen. *)
Lemma split_max_id (org project repo : string) :
  Py.contains "-" org = false -> Py.contains "-" project = false ->
  Py.split_max "-" (org ++ "-" ++ project ++ "-" ++ repo) 2 = [org; project; repo].
Proof.
  intros Horg Hproject.
  change (org ++ "-" ++ project ++ "-" ++ repo)
    with (org ++ String "-" (project ++ String "-" repo)).
  rewrite (split_max_segment _ _ _ _ Horg), (split_max_segment _ _ _ _ Hproject).
  rewrite split_max_zero. reflexivity.
Qed.

Lemma startswith_append (p q : string) : Py.startswith (p ++ q) p = true.
Proof.
  unfold Py.startswith. induction p as [| a p IH]; cbn.
  - destruct q; reflexivity.
  - destruct (ascii_dec a a) as [_ | Hne]; [exact IH | congruence].
Qed.

Lemma endswith_zip_truthy (s : string) :
  Py.endswith s ".zip" = true -> Py.truthy s = true.
Proof. destruct s; [discriminate | reflexivity]. Qed.

Lemma Forall2_in_left {B C : Type} (P : B -> C -> Prop) (xs : list B) (ys : list C) (x : B) :
  Forall2 P xs ys -> In x xs -> exists y, In y ys /\ P x y.
Proof.
  induction 1 as [| x' y xs ys Hxy _ IH]; cbn; [tauto |].
  intros [<- | Hin].
  - exists y. auto.
  - destruct (IH Hin) as (y' & Hy' & HP). exists y'. auto.
Qed.

(** Outside mock mode every listed version comes from a blob of the
    listing that passed the filters of the loop. *)
Lemma versions_built (w : World) (repo_id : string) (s : state) (vs : list BackupVersion) :
  MOCK_MODE (environ w) = false ->
  fst (list_backup_versions w repo_id s) = Ok vs ->
  Forall (fun v => exists b, survives (environ w) b = true
                             /\ built (environ w) repo_id b v) vs.
Proof.
  intros Hmock Hrun.
  destruct (list_backup_versions_form w repo_id s vs Hmock Hrun)
    as [-> | (cc & p & s1 & pre & s2 & Hloop & ->)]; [constructor |].
  destruct (versions_loop_built _ _ _ _ _ _ _ Hloop) as (news & -> & Hbuilt).
  cbn [app] in *. apply Forall_forall. intros v Hv.
  apply (Permutation_in _ (Permutation_sym (sort_desc_perm v_timestamp news))) in Hv.
  destruct (Forall2_in_right _ _ _ _ Hbuilt Hv) as (b & Hb & Hbv).
  apply filter_In in Hb. exists b. tauto.
Qed.

Lemma versions_paths_truthy (w : World) (repo_id : string) (s : state)
  (vs : list BackupVersion) (v : BackupVersion) :
  MOCK_MODE (environ w) = false ->
  fst (list_backup_versions w repo_id s) = Ok vs ->
  In v vs -> Py.truthy (v_blob_path v) = true.
Proof.
  intros Hmock Hrun Hv.
  pose proof (versions_built w repo_id s vs Hmock Hrun) as Hall.
  rewrite Forall_forall in Hall. destruct (Hall v Hv) as (b & Hb & Hpath & _).
  rewrite Hpath. apply endswith_zip_truthy.
  unfold survives in Hb. apply andb_true_iff in Hb. tauto.
Qed.

(** X7.  An identifier with fewer than two hyphens names no repository:
    outside mock mode the version list is empty, no link is resolved,
    the preview answers "Backup not found" and the restore ends with the
    link error, all without a request to the store or a log line. *)
Theorem short_repo_id_finds_nothing (w : World) (client : option BlobServiceClient)
  (repo_id backup_id target_org target_project target_repo_name visibility : string)
  (s : state) :
  MOCK_MODE (environ w) = false ->
  _get_storage_client w = Ok client ->
  (count_char "-" repo_id < 2)%nat ->
  list_backup_versions w repo_id s = (Ok [], s)
  /\ get_download_link w repo_id backup_id s = (Ok None, s)
  /\ get_restore_preview w repo_id backup_id s = (Ok (PreviewError "Backup not found"), s)
  /\ restore_to_azure_devops w repo_id backup_id target_org target_project
       target_repo_name visibility s
     = (Ok (Error link_failed), s).
Proof.
  intros Hmock Hclient Hcount.
  assert (Hlist : list_backup_versions w repo_id s = (Ok [], s)).
  { unfold list_backup_versions. rewrite Hmock. unfold lift. cbn [bind M_Monad].
    rewrite Hclient. destruct client as [c |]; [| reflexivity].
    pose proof (split_max_length "-" repo_id 2) as Hlen.
    destruct (Py.split_max "-" repo_id 2) as [| org [| project [| repo rest]]];
      try reflexivity.
    cbn [List.length] in Hlen. lia. }
  assert (Hlink : get_download_link w repo_id backup_id s = (Ok None, s)).
  { unfold get_download_link. rewrite Hmock. unfold lift. cbn [bind M_Monad].
    rewrite Hclient. destruct client as [c |]; [| reflexivity].
    rewrite Hlist. reflexivity. }
  repeat split; try assumption.
  - unfold get_restore_preview. cbn [bind M_Monad]. rewrite Hlist. reflexivity.
  - unfold restore_to_azure_devops. rewrite Hmock. cbn [bind M_Monad].
    rewrite Hlink. reflexivity.
Qed.

Lemma short_repo_id_finds_nothing_witness :
  list_backup_versions (calm_world account_env scenario_blobs) "acme-ProjectX" init
  = (Ok [], init)
  /\ get_download_link (calm_world account_env scenario_blobs) "acme-ProjectX"
       "acme-ProjectX-2025-03-02" init = (Ok None, init)
  /\ get_restore_preview (calm_world account_env scenario_blobs) "acme-ProjectX"
       "acme-ProjectX-2025-03-02" init = (Ok (PreviewError "Backup not found"), init)
  /\ restore_to_azure_devops (calm_world account_env scenario_blobs) "acme-ProjectX"
       "acme-ProjectX-2025-03-02" "acme" "ProjectX" "svc-a" "private" init
     = (Ok (Error link_failed), init).
Proof.
  apply (short_repo_id_finds_nothing (calm_world account_env scenario_blobs)
           (Some (mk_BlobServiceClient "https://acct.blob.core.windows.net")));
    [reflexivity | reflexivity | cbn; lia].
Defined.

(** ** From the catalog to the versions *)

Lemma well_formed_key_prefix (env : Environ) (org project repo stamp : string) :
  well_formed_key (storage_prefix env) org project repo stamp
  = blob_prefix_of env org project repo ++ stamp ++ ".zip".
Proof.
  unfold well_formed_key, blob_prefix_of.
  destruct (Py.truthy (storage_prefix env)); rewrite <- ?append_assoc; reflexivity.
Qed.

Lemma well_formed_key_survives (env : Environ) (org project repo stamp : string) (b : Blob) :
  Py.contains "/" (storage_prefix env) = false ->
  segment org -> segment project -> segment repo ->
  Py.contains "/" stamp = false -> Py.contains "." stamp = false ->
  (10 <= String.length stamp)%nat ->
  name b = well_formed_key (storage_prefix env) org project repo stamp ->
  survives env b = true.
Proof.
  intros Hprefix Horg Hproject Hrepo Hslash Hdot Hlen Hname.
  unfold survives. rewrite Hname.
  rewrite (parse_well_formed_key env org project repo stamp) by assumption.
  rewrite well_formed_key_prefix, <- append_assoc, endswith_append. reflexivity.
Qed.

(** X8.  The catalog and the version lister agree on a well-formed key.
    Let the configured prefix hold no slash, and take an archive
    [{prefix}/org/project/repo/stamp.zip] whose organisation and project
    hold no hyphen.  When the catalog listing yields it and succeeds,
    [list_repositories] returns a summary with the identifier
    org-project-repo; the version lister, asked for that identifier,
    requests a prefix the key starts with and, when the store yields the
    archive, the listing does not fail and the retention dates stay in
    range, reports a version with this blob path and the id
    org-project-repo-<date>. *)
Theorem catalog_id_finds_archive (w : World) (client : BlobServiceClient)
  (cc : ContainerClient) (org project repo stamp : string) (b : Blob) (s : state) :
  MOCK_MODE (environ w) = false ->
  _get_storage_client w = Ok (Some client) ->
  get_container_client w client (container_of (environ w)) = Ok cc ->
  Py.contains "/" (storage_prefix (environ w)) = false ->
  segment org -> segment project -> segment repo ->
  Py.contains "-" org = false -> Py.contains "-" project = false ->
  Py.contains "/" stamp = false -> Py.contains "." stamp = false ->
  (10 <= String.length stamp)%nat ->
  name b = well_formed_key (storage_prefix (environ w)) org project repo stamp ->
  In b (yielded (list_blobs w cc (catalog_prefix (environ w)))) ->
  failure (list_blobs w cc (catalog_prefix (environ w))) = None ->
  In b (yielded (list_blobs w cc (blob_prefix_of (environ w) org project repo))) ->
  failure (list_blobs w cc (blob_prefix_of (environ w) org project repo)) = None ->
  Forall in_range (yielded (list_blobs w cc (blob_prefix_of (environ w) org project repo))) ->
  (exists rs,
      fst (list_repositories w s) = Ok rs
      /\ In (org ++ "-" ++ project ++ "-" ++ repo) (map r_id rs))
  /\ Py.startswith (name b) (blob_prefix_of (environ w) org project repo) = true
  /\ exists vs s',
      list_backup_versions w (org ++ "-" ++ project ++ "-" ++ repo) s = (Ok vs, s')
      /\ exists v,
          In v vs
          /\ v_blob_path v = name b
          /\ v_id v = org ++ "-" ++ project ++ "-" ++ repo ++ "-" ++ substring 0 10 stamp.
Proof.
  intros Hmock Hclient Hcc Hprefix Horg Hproject Hrepo Hhorg Hhproject Hslash Hdot Hlen
    Hname Hlisted Hlisting Hin Hfail Hrange.
  pose proof (well_formed_key_survives _ _ _ _ _ _ Hprefix Horg Hproject Hrepo Hslash Hdot
                Hlen Hname) as Hsurv.
  pose proof (parse_well_formed_key (environ w) org project repo stamp Hprefix Horg
                Hproject Hrepo Hslash Hdot Hlen) as Hparse.
  rewrite <- Hname in Hparse.
  split; [| split].
  - destruct (catalog_outcome w client cc s Hmock Hclient Hcc Hlisting)
      as (m & Hrun & Hok & Hfiled & _).
    exists (map snd m). split; [rewrite Hrun; reflexivity |].
    apply (catalog_lists_id (environ w) m _ b _ Hok Hfiled Hlisted).
    unfold catalog_id. rewrite Hsurv, Hparse. reflexivity.
  - rewrite Hname, well_formed_key_prefix. apply startswith_append.
  - rewrite (list_backup_versions_listing w client _ org project repo [] s Hmock Hclient
               (split_max_id org project repo Hhorg Hhproject)).
    rewrite Hcc, Hfail.
    match goal with
    | |- context [for_each ?xs [] ?f ?st] =>
        destruct (versions_loop_total w (org ++ "-" ++ project ++ "-" ++ repo) xs Hrange [] st)
          as (pre & s1 & Hloop)
    end.
    rewrite Hloop. exists (sort_desc v_timestamp pre), s1. split; [reflexivity |].
    destruct (versions_loop_built _ _ _ _ _ _ _ Hloop) as (news & -> & Hbuilt).
    cbn [app] in *.
    assert (Hb : In b (filter (survives (environ w))
                         (yielded (list_blobs w cc (blob_prefix_of (environ w) org project repo))))).
    { apply filter_In. auto. }
    destruct (Forall2_in_left _ _ _ _ Hbuilt Hb) as (v & Hv & Hpath & _ & parsed & Hp & Hid).
    exists v. split; [| split].
    + apply (Permutation_in _ (sort_desc_perm v_timestamp news)). exact Hv.
    + exact Hpath.
    + rewrite Hid. rewrite Hparse in Hp. injection Hp as <-.
      change (dict_get _ "date_str" VNone) with (VStr (substring 0 10 stamp)).
      cbn [fmt]. rewrite !append_assoc. reflexivity.
Qed.

Lemma catalog_id_finds_archive_witness :
  (exists rs,
      fst (list_repositories (calm_world account_env scenario_blobs) init) = Ok rs
      /\ In ("acme" ++ "-" ++ "ProjectX" ++ "-" ++ "svc-a") (map r_id rs))
  /\ Py.startswith "acme/ProjectX/svc-a/2025-03-02-0900.zip" "acme/ProjectX/svc-a/" = true
  /\ exists vs s',
      list_backup_versions (calm_world account_env scenario_blobs)
        ("acme" ++ "-" ++ "ProjectX" ++ "-" ++ "svc-a") init
      = (Ok vs, s')
      /\ exists v,
          In v vs
          /\ v_blob_path v = "acme/ProjectX/svc-a/2025-03-02-0900.zip"
          /\ v_id v = "acme" ++ "-" ++ "ProjectX" ++ "-" ++ "svc-a" ++ "-"
                        ++ substring 0 10 "2025-03-02-0900".
Proof.
  apply (catalog_id_finds_archive (calm_world account_env scenario_blobs)
           (mk_BlobServiceClient "https://acct.blob.core.windows.net")
           (mk_ContainerClient "git-backups") "acme" "ProjectX" "svc-a" "2025-03-02-0900"
           (mk_Blob "acme/ProjectX/svc-a/2025-03-02-0900.zip" (Some (utc 2025 3 2 9 0))
              (Some 2097152%Z))
           init);
    try reflexivity; try (split; reflexivity).
  - cbn. lia.
  - cbn. auto.
  - cbn. auto.
  - repeat constructor; (eexists; vm_compute; reflexivity).
Defined.

(** ** Resolving a link *)

(** What the body of the link issuer returns, when it returns. *)
Lemma issue_link_returns (w : World) (client : BlobServiceClient)
  (container_name blob_path : string) (s s1 : state) (o : option string) :
  issue_link w client container_name blob_path s = (Ok o, s1) ->
  exists u,
    o = Some u
    /\ (plain_url w client container_name blob_path = Ok u
        \/ exists connection_string blob_client sas_token,
            nonempty (getenv (environ w) "AZURE_STORAGE_CONNECTION_STRING")
            = Some connection_string
            /\ Py.truthy (conn_get connection_string "AccountKey") = true
            /\ get_blob_client w client container_name blob_path = Ok blob_client
            /\ u = url blob_client ++ "?" ++ sas_token).
Proof.
  assert (Hplain : forall s0,
             (let (r, s') := lift (plain_url w client container_name blob_path) s0 in
              match r with
              | Ok u => ret (Some u) s'
              | Raise e => (Raise e, s')
              end) = (Ok o, s1) ->
             exists u, o = Some u
                       /\ plain_url w client container_name blob_path = Ok u).
  { intros s0. unfold lift. cbn [ret M_Monad].
    destruct (plain_url w client container_name blob_path) as [u | e]; [| discriminate].
    intros Heq. injection Heq as <- _. eauto. }
  unfold issue_link, shared_key_url, utcnow.
  unfold lift at 1. cbn [bind ret M_Monad].
  destruct (import_blob_sas w); [| discriminate].
  unfold lift at 1. cbn [bind ret M_Monad].
  destruct (get_blob_client w client container_name blob_path) as [bc | e]; [| discriminate].
  destruct (nonempty (getenv (environ w) "AZURE_STORAGE_CONNECTION_STRING")) as [cs |]
    eqn:Hcs; cbn [bind ret M_Monad].
  2: { intros Heq. destruct (Hplain _ Heq) as (u & -> & Hu). eauto. }
  destruct (Py.truthy (conn_get cs "AccountKey")) eqn:Hkey; cbn [bind ret M_Monad].
  2: { intros Heq. destruct (Hplain _ Heq) as (u & -> & Hu). eauto. }
  unfold lift. cbn [bind ret M_Monad].
  destruct (add_hour _); [| discriminate].
  destruct (generate_blob_sas w _ _ _ _ _) as [sas | e]; [| discriminate].
  intros Heq. injection Heq as <- _. eexists. split; [reflexivity |]. right.
  exists cs, bc, sas. repeat split; assumption.
Qed.

(** The link issuer on a listed id, in closed form: the guarded body,
    and the handler of lines 303-307, whose read of [account_url] is not
    guarded. *)
Lemma get_download_link_listed (w : World) (client : BlobServiceClient)
  (repo_id backup_id : string) (s s1 : state) (vs : list BackupVersion)
  (v : BackupVersion) :
  MOCK_MODE (environ w) = false ->
  _get_storage_client w = Ok (Some client) ->
  list_backup_versions w repo_id s = (Ok vs, s1) ->
  find (fun v => String.eqb (v_id v) backup_id) vs = Some v ->
  get_download_link w repo_id backup_id s
  = match issue_link w client (container_of (environ w)) (v_blob_path v) s1 with
    | (Ok o, s2) => (Ok o, s2)
    | (Raise e, s2) =>
        match plain_url w client (container_of (environ w)) (v_blob_path v) with
        | Ok u =>
            (Ok (Some u), logged s2 [EvPrint ("Error generating download link: " ++ e)])
        | Raise e' =>
            (Raise e', logged s2 [EvPrint ("Error generating download link: " ++ e)])
        end
    end.
Proof.
  intros Hmock Hclient Hrun Hfind.
  assert (Hpath : Py.truthy (v_blob_path v) = true).
  { apply (versions_paths_truthy w repo_id s vs v Hmock); [rewrite Hrun; reflexivity |].
    apply find_some in Hfind. tauto. }
  unfold get_download_link. rewrite Hmock, Hclient. unfold lift at 1. cbn [bind M_Monad].
  rewrite Hrun, Hfind, Hpath. cbn [negb]. unfold try_except, container_of.
  destruct (issue_link w client _ (v_blob_path v) s1) as [[o | e] s2]; [reflexivity |].
  unfold print, emit, lift, logged. cbn [bind ret M_Monad].
  destruct (plain_url w client _ (v_blob_path v)); reflexivity.
Qed.

Lemma get_download_link_resolves (w : World) (client : BlobServiceClient)
  (repo_id backup_id : string) (s : state) (vs : list BackupVersion) :
  MOCK_MODE (environ w) = false ->
  _get_storage_client w = Ok (Some client) ->
  fst (list_backup_versions w repo_id s) = Ok vs ->
  match find (fun v => String.eqb (v_id v) backup_id) vs with
  | None => fst (get_download_link w repo_id backup_id s) = Ok None
  | Some v =>
      forall o, fst (get_download_link w repo_id backup_id s) = Ok o ->
                exists u, o = Some u /\ link_for w client v u
  end.
Proof.
  intros Hmock Hclient Hrun.
  destruct (list_backup_versions w repo_id s) as [[vs' | e] s1] eqn:Hlist;
    cbn [fst] in Hrun; [| discriminate].
  injection Hrun as ->.
  destruct (find (fun v => String.eqb (v_id v) backup_id) vs) as [v |] eqn:Hfind.
  - rewrite (get_download_link_listed w client repo_id backup_id s s1 vs v Hmock Hclient
               Hlist Hfind).
    destruct (issue_link w client _ (v_blob_path v) s1) as [[o' | e] s2] eqn:Hissue.
    + intros o Heq. injection Heq as <-.
      exact (issue_link_returns _ _ _ _ _ _ _ Hissue).
    + destruct (plain_url w client _ (v_blob_path v)) as [u | e'] eqn:Hplain;
        [| discriminate].
      intros o Heq. injection Heq as <-. exists u. split; [reflexivity |]. left.
      exact Hplain.
  - unfold get_download_link. rewrite Hmock, Hclient. unfold lift at 1.
    cbn [bind M_Monad]. rewrite Hlist, Hfind. reflexivity.
Qed.

Lemma find_none_iff {B : Type} (p : B -> bool) (l : list B) :
  find p l = None <-> forall x, In x l -> p x = false.
Proof.
  split.
  - intros H x Hx. exact (find_none _ _ H x Hx).
  - induction l as [| y l IH]; cbn; [reflexivity |].
    intros H. rewrite (H y (or_introl eq_refl)). apply IH. auto.
Qed.

Lemma find_first_sorted {B : Type} (R : B -> B -> Prop) (p : B -> bool) (l : list B)
  (v : B) :
  (forall x, R x x) ->
  StronglySorted R l -> find p l = Some v ->
  forall v', In v' l -> p v' = true -> R v v'.
Proof.
  intros Hrefl. induction 1 as [| x l Hl IH Hx]; cbn; [discriminate |].
  destruct (p x) eqn:Hpx.
  - intros Hv v' [<- | Hin] _; injection Hv as <-; [apply Hrefl |].
    rewrite Forall_forall in Hx. auto.
  - intros Hv v' [<- | Hin] Hp; [congruence | auto].
Qed.

Lemma versions_sorted (w : World) (repo_id : string) (s : state) (vs : list BackupVersion) :
  MOCK_MODE (environ w) = false ->
  fst (list_backup_versions w repo_id s) = Ok vs ->
  StronglySorted (before v_timestamp) vs.
Proof.
  intros Hmock Hrun.
  destruct (list_backup_versions_form w repo_id s vs Hmock Hrun)
    as [-> | (cc & p & s1 & pre & s2 & _ & ->)]; [constructor | apply sort_desc_sorted].
Qed.

Lemma find_in_ids (vs : list BackupVersion) (backup_id : string) :
  In backup_id (map v_id vs)
  <-> exists v, find (fun v => String.eqb (v_id v) backup_id) vs = Some v.
Proof.
  split.
  - intros Hin. apply in_map_iff in Hin. destruct Hin as (v & Hid & Hv).
    destruct (find (fun v => String.eqb (v_id v) backup_id) vs) as [v' |] eqn:Hfind;
      [eauto |].
    pose proof (find_none _ _ Hfind v Hv) as Hne. cbn in Hne.
    rewrite Hid, String.eqb_refl in Hne. discriminate.
  - intros [v Hfind]. apply find_some in Hfind. destruct Hfind as [Hv Hid].
    apply String.eqb_eq in Hid. apply in_map_iff. eauto.
Qed.

(** X9.  Outside mock mode, with a storage client, the link issuer
    answers [None] exactly for the ids the version lister does not
    report: for an unlisted id it returns [None], and for a listed id
    whatever it returns is a link.  A failing import, blob client, clock
    or signature never turns a listed id into [None]. *)
Theorem link_none_iff_unlisted (w : World) (client : BlobServiceClient)
  (repo_id backup_id : string) (s : state) (vs : list BackupVersion) :
  MOCK_MODE (environ w) = false ->
  _get_storage_client w = Ok (Some client) ->
  fst (list_backup_versions w repo_id s) = Ok vs ->
  (~ In backup_id (map v_id vs) -> fst (get_download_link w repo_id backup_id s) = Ok None)
  /\ (forall o, fst (get_download_link w repo_id backup_id s) = Ok o ->
                (o = None <-> ~ In backup_id (map v_id vs))).
Proof.
  intros Hmock Hclient Hrun.
  pose proof (get_download_link_resolves w client repo_id backup_id s vs Hmock Hclient Hrun)
    as Hres.
  pose proof (find_in_ids vs backup_id) as Hids.
  destruct (find (fun v => String.eqb (v_id v) backup_id) vs) as [v |].
  - assert (Hin : In backup_id (map v_id vs)) by (apply Hids; eauto).
    split; [intros Hno; contradiction |].
    intros o Ho. destruct (Hres o Ho) as (u & -> & _).
    split; [discriminate | intros Hno; contradiction].
  - assert (Hno : ~ In backup_id (map v_id vs)).
    { intros Hin. apply Hids in Hin. destruct Hin as [v Hv]. discriminate. }
    split; [intros _; exact Hres |].
    intros o Ho. rewrite Hres in Ho. injection Ho as <-. tauto.
Qed.

Lemma link_none_iff_unlisted_witness :
  (~ In "acme-ProjectX-svc-a-2025-03-02"
       (map v_id (reported (list_backup_versions (calm_world key_env scenario_blobs)
                              "acme-ProjectX-svc-a" init))) ->
   fst (get_download_link (calm_world key_env scenario_blobs) "acme-ProjectX-svc-a"
          "acme-ProjectX-svc-a-2025-03-02" init) = Ok None)
  /\ (forall o,
         fst (get_download_link (calm_world key_env scenario_blobs) "acme-ProjectX-svc-a"
                "acme-ProjectX-svc-a-2025-03-02" init) = Ok o ->
         (o = None
          <-> ~ In "acme-ProjectX-svc-a-2025-03-02"
                  (map v_id (reported (list_backup_versions
                                         (calm_world key_env scenario_blobs)
                                         "acme-ProjectX-svc-a" init))))).
Proof.
  apply (link_none_iff_unlisted (calm_world key_env scenario_blobs)
           (mk_BlobServiceClient "https://acct.blob.core.windows.net")
           "acme-ProjectX-svc-a" "acme-ProjectX-svc-a-2025-03-02" init);
    [reflexivity | reflexivity | vm_compute; reflexivity].
Defined.

(** X10.  Several versions can share an id (two archives of one day, or
    all undated ones).  A link that is returned then belongs to the first
    of them in the reported order, which is one with the greatest
    timestamp among the versions of that id; it is the URL of its blob
    client with a token, which takes an account key, or the unsigned URL
    of its blob path, which takes a readable [account_url]. *)
Theorem link_serves_newest_match (w : World) (client : BlobServiceClient)
  (repo_id backup_id : string) (s : state) (vs : list BackupVersion) (u : string) :
  MOCK_MODE (environ w) = false ->
  _get_storage_client w = Ok (Some client) ->
  fst (list_backup_versions w repo_id s) = Ok vs ->
  fst (get_download_link w repo_id backup_id s) = Ok (Some u) ->
  exists v,
    In v vs /\ v_id v = backup_id
    /\ (forall v', In v' vs -> v_id v' = backup_id -> before v_timestamp v v')
    /\ link_for w client v u.
Proof.
  intros Hmock Hclient Hrun Hlink.
  pose proof (get_download_link_resolves w client repo_id backup_id s vs Hmock Hclient Hrun)
    as Hres.
  destruct (find (fun v => String.eqb (v_id v) backup_id) vs) as [v |] eqn:Hfind.
  - destruct (Hres _ Hlink) as (u' & Heq & Hfor). injection Heq as <-. exists v.
    pose proof (find_some _ _ Hfind) as [Hv Hid]. apply String.eqb_eq in Hid.
    repeat split; try assumption.
    intros v' Hv' Hid'.
    apply (find_first_sorted (before v_timestamp) _ vs v
             (fun x => str_ge_refl _) (versions_sorted w repo_id s vs Hmock Hrun) Hfind v' Hv').
    rewrite Hid'. apply String.eqb_refl.
  - rewrite Hres in Hlink. discriminate.
Qed.

Lemma link_serves_newest_match_witness :
  exists v,
    In v (reported (list_backup_versions (calm_world key_env same_day_blobs)
                      "acme-ProjectX-svc-a" init))
    /\ v_id v = "acme-ProjectX-svc-a-2025-03-02"
    /\ (forall v',
           In v' (reported (list_backup_versions (calm_world key_env same_day_blobs)
                              "acme-ProjectX-svc-a" init)) ->
           v_id v' = "acme-ProjectX-svc-a-2025-03-02" -> before v_timestamp v v')
    /\ link_for (calm_world key_env same_day_blobs)
         (mk_BlobServiceClient "https://acct.blob.core.windows.net") v
         "https://acct.blob.core.windows.net/git-backups/acme/ProjectX/svc-a/2025-03-02-1800.zip?sig=abc".
Proof.
  apply (link_serves_newest_match (calm_world key_env same_day_blobs)
           (mk_BlobServiceClient "https://acct.blob.core.windows.net")
           "acme-ProjectX-svc-a" "acme-ProjectX-svc-a-2025-03-02" init);
    [reflexivity | reflexivity | vm_compute; reflexivity | vm_compute; reflexivity].
Defined.



(** ** The request of a restore *)

(** X11.  A restore sends at most one request to the destination host
    and never retries.  When it sends one, this is the last thing it
    does before answering, the run is outside mock mode with a token
    configured, and the request is the POST to the repositories endpoint
    of the target organisation and project, carrying that token, the
    target name, and a timeout of 30 seconds. *)
Theorem restore_posts_at_most_once (w : World)
  (repo_id backup_id org project repo visibility : string) (s : state) :
  exists evs,
    log (snd (restore_to_azure_devops w repo_id backup_id org project repo visibility s))
    = (log s ++ evs)%list
    /\ (forallb quiet evs = true
        \/ exists evs0 pat,
            MOCK_MODE (environ w) = false
            /\ nonempty (getenv (environ w) "AZURE_DEVOPS_PAT") = Some pat
            /\ forallb quiet evs0 = true
            /\ evs = (evs0 ++ [the_post pat org project repo])%list).
Proof.
  destruct (MOCK_MODE (environ w)) eqn:Hmock.
  { exists []. unfold restore_to_azure_devops. rewrite Hmock. cbn.
    rewrite app_nil_r. auto. }
  rewrite restore_stages by exact Hmock.
  destruct (get_download_link_quiet w repo_id backup_id s) as (evs1 & Hlog1 & Hquiet).
  destruct (get_download_link w repo_id backup_id s) as [[download_url | e] s1];
    cbn [snd] in Hlog1; [| exists evs1; auto].
  destruct (nonempty download_url) as [u |]; [| exists evs1; auto].
  destruct (nonempty (getenv (environ w) "AZURE_DEVOPS_PAT")) as [pat |] eqn:Hpat;
    [| exists evs1; auto].
  pose proof (create_repository_log w u pat org project repo s1) as Hpost.
  destruct (create_repository w u pat org project repo s1) as [[out | e] s2];
    cbn [snd] in *.
  - destruct Hpost as [-> | ->]; rewrite Hlog1.
    + exists evs1. auto.
    + exists (evs1 ++ [the_post pat org project repo])%list.
      rewrite app_assoc. split; [reflexivity |]. right. exists evs1, pat. auto.
  - destruct Hpost as [-> | ->]; rewrite Hlog1.
    + exists evs1. auto.
    + exists (evs1 ++ [the_post pat org project repo])%list.
      rewrite app_assoc. split; [reflexivity |]. right. exists evs1, pat. auto.
Qed.

Lemma create_repository_success (w : World) (u pat org project repo : string)
  (s s' : state) (message : string) (repo_url : Json) (repo_id_ado : option Json)
  (download_url : option string) :
  create_repository w u pat org project repo s
  = (Ok (Success message repo_url repo_id_ado download_url), s') ->
  exists resp repo_data id,
    requests_post w (create_repo_url_of org project) (headers_of pat)
      (create_payload_of repo project) 30 = Ok resp
    /\ (status_code resp = 200%Z \/ status_code resp = 201%Z)
    /\ json resp = Ok repo_data
    /\ json_get repo_data "id" = Ok id
    /\ message = created_message repo
    /\ json_truthy repo_url = true
    /\ repo_id_ado = Some id
    /\ download_url = Some u
    /\ s' = logged s [the_post pat org project repo].
Proof.
  unfold create_repository, lift, emit. cbn [bind ret M_Monad].
  destruct (import_requests w); [| discriminate].
  destruct (requests_post w _ _ _ _) as [resp | e]; [| discriminate].
  destruct ((status_code resp =? 200)%Z || (status_code resp =? 201)%Z) eqn:Hstatus;
    cbn [negb].
  - destruct (json resp) as [data | e] eqn:Hjson; [| discriminate].
    destruct (json_get data "id") as [id | e] eqn:Hid; [| discriminate].
    destruct (json_get data "webUrl") as [web_url | e]; [| discriminate].
    intros H. injection H as <- <- <- <- <-.
    exists resp, data, id.
    split; [reflexivity |].
    split.
    { apply orb_true_iff in Hstatus. destruct Hstatus as [H | H];
        apply Z.eqb_eq in H; auto. }
    split; [exact Hjson |].
    split; [exact Hid |].
    split; [reflexivity |].
    split.
    { destruct (json_truthy web_url) eqn:Hweb; [exact Hweb | reflexivity]. }
    repeat split.
  - destruct (status_code resp =? 409)%Z; discriminate.
Qed.

(** X12.  Outside mock mode a restore reports success only after the
    destination host has answered its request with 200 or 201 and a JSON
    object; the outcome then carries the link that was resolved, the id
    of the answer, a repository URL that is not empty, and the fixed
    message. *)
Theorem success_means_created (w : World)
  (repo_id backup_id org project repo visibility : string) (s : state)
  (message : string) (repo_url : Json) (repo_id_ado : option Json)
  (download_url : option string) :
  MOCK_MODE (environ w) = false ->
  fst (restore_to_azure_devops w repo_id backup_id org project repo visibility s)
  = Ok (Success message repo_url repo_id_ado download_url) ->
  exists link s1 pat resp repo_data id,
    get_download_link w repo_id backup_id s = (Ok (Some link), s1)
    /\ nonempty (getenv (environ w) "AZURE_DEVOPS_PAT") = Some pat
    /\ requests_post w (create_repo_url_of org project) (headers_of pat)
         (create_payload_of repo project) 30 = Ok resp
    /\ (status_code resp = 200%Z \/ status_code resp = 201%Z)
    /\ json resp = Ok repo_data
    /\ json_get repo_data "id" = Ok id
    /\ message = created_message repo
    /\ json_truthy repo_url = true
    /\ repo_id_ado = Some id
    /\ download_url = Some link.
Proof.
  intros Hmock. rewrite restore_stages by exact Hmock.
  destruct (get_download_link w repo_id backup_id s) as [[[link |] | e] s1];
    cbn [nonempty fst]; try discriminate.
  destruct (Py.truthy link); [| discriminate].
  destruct (nonempty (getenv (environ w) "AZURE_DEVOPS_PAT")) as [pat |];
    [| discriminate].
  destruct (create_repository w link pat org project repo s1) as [[out | e] s2] eqn:Hcreate;
    cbn [fst]; [| discriminate].
  intros H. injection H as ->.
  destruct (create_repository_success _ _ _ _ _ _ _ _ _ _ _ _ Hcreate)
    as (resp & data & id & H1 & H2 & H3 & H4 & H5 & H6 & H7 & H8 & _).
  exists link, s1, pat, resp, data, id. repeat split; assumption.
Qed.

Lemma success_means_created_witness :
  exists link s1 pat resp repo_data id,
    get_download_link (calm_world token_env scenario_blobs) "acme-ProjectX-svc-a"
      "acme-ProjectX-svc-a-2025-03-02" init = (Ok (Some link), s1)
    /\ nonempty (getenv token_env "AZURE_DEVOPS_PAT") = Some pat
    /\ requests_post (calm_world token_env scenario_blobs)
         (create_repo_url_of "acme" "Dest") (headers_of pat)
         (create_payload_of "svc-a" "Dest") 30 = Ok resp
    /\ (status_code resp = 200%Z \/ status_code resp = 201%Z)
    /\ json resp = Ok repo_data
    /\ json_get repo_data "id" = Ok id
    /\ created_message "svc-a" = created_message "svc-a"
    /\ json_truthy (JStr "https://dev.azure.com/acme/Dest/_git/svc-a") = true
    /\ Some (JStr "42") = Some id
    /\ Some "https://acct.blob.core.windows.net/git-backups/acme/ProjectX/svc-a/2025-03-02-0900.zip?sig=abc"
       = Some link.
Proof.
  apply (success_means_created (calm_world token_env scenario_blobs)
           "acme-ProjectX-svc-a" "acme-ProjectX-svc-a-2025-03-02" "acme" "Dest" "svc-a"
           "private" init);
    [reflexivity | vm_compute; reflexivity].
Defined.

(** X13.  When the destination host answers the request with a status
    other than 200, 201 and 409, the restore ends with the error
    "Failed to create repository: " followed by the body of the answer,
    unchanged, having sent that one request. *)
Theorem rejected_creation_reports_body (w : World)
  (repo_id backup_id org project repo visibility : string) (s s1 : state)
  (link pat : string) (resp : Response) :
  MOCK_MODE (environ w) = false ->
  get_download_link w repo_id backup_id s = (Ok (Some link), s1) ->
  nonempty (getenv (environ w) "AZURE_DEVOPS_PAT") = Some pat ->
  import_requests w = Ok tt ->
  requests_post w (create_repo_url_of org project) (headers_of pat)
    (create_payload_of repo project) 30 = Ok resp ->
  status_code resp <> 200%Z -> status_code resp <> 201%Z -> status_code resp <> 409%Z ->
  restore_to_azure_devops w repo_id backup_id org project repo visibility s
  = (Ok (Error ("Failed to create repository: " ++ text resp)),
     logged s1 [the_post pat org project repo]).
Proof.
  intros Hmock Hlink Hpat Himport Hpost H200 H201 H409.
  rewrite restore_stages by exact Hmock. rewrite Hlink.
  pose proof (get_download_link_issued w repo_id backup_id s _ _ Hlink link eq_refl)
    as Htruthy.
  cbn [nonempty]. rewrite Htruthy, Hpat.
  unfold create_repository, lift, emit. cbn [bind ret M_Monad].
  rewrite Himport, Hpost.
  apply Z.eqb_neq in H200, H201, H409. rewrite H200, H201, H409. reflexivity.
Qed.

Lemma rejected_creation_reports_body_witness :
  restore_to_azure_devops refusing_world "acme-ProjectX-svc-a"
    "acme-ProjectX-svc-a-2025-03-02" "acme" "Dest" "svc-a" "private" init
  = (Ok (Error "Failed to create repository: Access denied"),
     logged
       (snd (get_download_link refusing_world "acme-ProjectX-svc-a"
               "acme-ProjectX-svc-a-2025-03-02" init))
       [the_post "secret" "acme" "Dest" "svc-a"]).
Proof.
  apply (rejected_creation_reports_body refusing_world "acme-ProjectX-svc-a"
           "acme-ProjectX-svc-a-2025-03-02" "acme" "Dest" "svc-a" "private" init
           (snd (get_download_link refusing_world "acme-ProjectX-svc-a"
                   "acme-ProjectX-svc-a-2025-03-02" init))
           "https://acct.blob.core.windows.net/git-backups/acme/ProjectX/svc-a/2025-03-02-0900.zip?sig=abc"
           "secret" (mk_Response 403 "Access denied" (Raise "no body")));
    [reflexivity | vm_compute; reflexivity | reflexivity | reflexivity | reflexivity
    | discriminate | discriminate | discriminate].
Defined.

(** ** The preview *)

Lemma split_max_inv (c : ascii) (s : string) :
  forall (k : nat) (a : string) (rest : list string),
    Py.split_max c s (S k) = a :: rest -> rest <> [] ->
    Py.contains c a = false
    /\ exists s', s = a ++ String c s' /\ Py.split_max c s' k = rest.
Proof.
  induction s as [| x s IH]; intros k a rest.
  - cbn. intros H. injection H as <- <-. congruence.
  - cbn [Py.split_max]. destruct (Ascii.eqb x c) eqn:Hx.
    + intros H _. injection H as <- <-. apply Ascii.eqb_eq in Hx. subst x.
      split; [reflexivity |]. exists s. auto.
    + destruct (Py.split_max c s (S k)) as [| p ps] eqn:Hsplit.
      * intros H. injection H as <- <-. congruence.
      * intros H Hrest. injection H as <- <-.
        destruct (IH k p ps Hsplit Hrest) as (Hp & s' & -> & Hs').
        split; [cbn; rewrite Hx, Hp; reflexivity |].
        exists s'. auto.
Qed.

(** Three parts of an identifier determine it. *)
Lemma split_max_three (repo_id org project repo : string) (rest : list string) :
  Py.split_max "-" repo_id 2 = org :: project :: repo :: rest ->
  rest = []
  /\ repo_id = org ++ "-" ++ project ++ "-" ++ repo
  /\ Py.contains "-" org = false /\ Py.contains "-" project = false.
Proof.
  intros Hsplit.
  destruct (split_max_inv _ _ _ _ _ Hsplit ltac:(discriminate)) as (Horg & s1 & -> & H1).
  destruct (split_max_inv _ _ _ _ _ H1 ltac:(discriminate)) as (Hproject & s2 & -> & H2).
  rewrite split_max_zero in H2. injection H2 as <- <-.
  repeat split; assumption.
Qed.

(** Outside mock mode a version is listed only for an identifier with
    its three parts. *)
Lemma listed_has_three_parts (w : World) (repo_id : string) (s : state)
  (vs : list BackupVersion) :
  MOCK_MODE (environ w) = false ->
  fst (list_backup_versions w repo_id s) = Ok vs -> vs <> [] ->
  exists org project repo rest,
    Py.split_max "-" repo_id 2 = org :: project :: repo :: rest.
Proof.
  intros Hmock. unfold list_backup_versions. rewrite Hmock.
  unfold lift at 1. cbn [bind M_Monad].
  destruct (_get_storage_client w) as [[client |] | e]; cbn [fst ret M_Monad];
    [| congruence | discriminate].
  destruct (Py.split_max "-" repo_id 2) as [| org [| project [| repo rest]]];
    cbn [fst ret M_Monad]; try congruence.
  eauto.
Qed.

(** X14.  A preview names the three parts of the repository identifier:
    joined by hyphens they give the identifier back, organisation and
    project hold no hyphen, the suggested target name is the repository
    part, and timestamp and size are those of a reported version with
    the requested id.  This holds in mock mode too. *)
Theorem preview_parts_rejoin (w : World) (repo_id backup_id : string) (s s' : state)
  (org project repo backup_timestamp suggested : string) (backup_size_mb : Rounded) :
  get_restore_preview w repo_id backup_id s
  = (Ok (Preview org project repo backup_timestamp backup_size_mb suggested), s') ->
  repo_id = org ++ "-" ++ project ++ "-" ++ repo
  /\ Py.contains "-" org = false /\ Py.contains "-" project = false
  /\ suggested = repo
  /\ exists v,
      In v (reported (list_backup_versions w repo_id s))
      /\ v_id v = backup_id
      /\ backup_timestamp = v_timestamp v
      /\ backup_size_mb = v_size_mb v.
Proof.
  unfold get_restore_preview, reported. cbn [bind M_Monad].
  destruct (list_backup_versions w repo_id s) as [[vs | e] s1]; [| discriminate].
  cbn [fst].
  destruct (find (fun v => String.eqb (v_id v) backup_id) vs) as [v |] eqn:Hfind;
    [| discriminate].
  destruct (Py.split_max "-" repo_id 2) as [| o [| p [| r rest]]] eqn:Hsplit;
    try discriminate.
  intros H. injection H as <- <- <- <- <- <- _.
  destruct (split_max_three _ _ _ _ _ Hsplit) as (_ & Hid & Ho & Hp).
  apply find_some in Hfind. destruct Hfind as [Hin Heq]. apply String.eqb_eq in Heq.
  repeat split; try assumption. exists v. auto.
Qed.

Lemma preview_parts_rejoin_witness :
  "acme-ProjectX-svc-a" = "acme" ++ "-" ++ "ProjectX" ++ "-" ++ "svc-a"
  /\ Py.contains "-" "acme" = false /\ Py.contains "-" "ProjectX" = false
  /\ "svc-a" = "svc-a"
  /\ exists v,
      In v (reported (list_backup_versions (calm_world account_env scenario_blobs)
                        "acme-ProjectX-svc-a" init))
      /\ v_id v = "acme-ProjectX-svc-a-2025-03-02"
      /\ "2025-03-02T09:00:00+00:00" = v_timestamp v
      /\ round2_div 2097152 1048576 = v_size_mb v.
Proof.
  apply (preview_parts_rejoin (calm_world account_env scenario_blobs)
           "acme-ProjectX-svc-a" "acme-ProjectX-svc-a-2025-03-02" init
           (snd (get_restore_preview (calm_world account_env scenario_blobs)
                   "acme-ProjectX-svc-a" "acme-ProjectX-svc-a-2025-03-02" init))).
  vm_compute. reflexivity.
Defined.

Lemma get_restore_preview_resolves (w : World) (repo_id backup_id : string) (s : state)
  (vs : list BackupVersion) :
  MOCK_MODE (environ w) = false ->
  fst (list_backup_versions w repo_id s) = Ok vs ->
  match find (fun v => String.eqb (v_id v) backup_id) vs with
  | None => fst (get_restore_preview w repo_id backup_id s)
            = Ok (PreviewError "Backup not found")
  | Some v =>
      exists org project repo,
        fst (get_restore_preview w repo_id backup_id s)
        = Ok (Preview org project repo (v_timestamp v) (v_size_mb v) repo)
  end.
Proof.
  intros Hmock Hrun.
  pose proof (listed_has_three_parts w repo_id s vs Hmock Hrun) as Hparts.
  unfold get_restore_preview. cbn [bind M_Monad].
  destruct (list_backup_versions w repo_id s) as [[vs' | e] s1]; cbn [fst] in Hrun;
    [| discriminate].
  injection Hrun as ->.
  destruct (find _ vs) as [v |] eqn:Hfind; [| reflexivity].
  destruct Hparts as (org & project & repo & rest & ->).
  { intros ->. discriminate. }
  exists org, project, repo. reflexivity.
Qed.

(** X15.  Outside mock mode the preview fails in one way only: with
    "Backup not found", exactly when the id is not among the reported
    versions.  "Invalid repository ID" is never answered there, since a
    version is reported only for an identifier with its three parts. *)
Theorem preview_fails_only_when_unlisted (w : World) (repo_id backup_id : string)
  (s : state) (vs : list BackupVersion) :
  MOCK_MODE (environ w) = false ->
  fst (list_backup_versions w repo_id s) = Ok vs ->
  (In backup_id (map v_id vs) ->
   exists org project repo backup_timestamp backup_size_mb,
     fst (get_restore_preview w repo_id backup_id s)
     = Ok (Preview org project repo backup_timestamp backup_size_mb repo))
  /\ (~ In backup_id (map v_id vs) ->
      fst (get_restore_preview w repo_id backup_id s)
      = Ok (PreviewError "Backup not found"))
  /\ fst (get_restore_preview w repo_id backup_id s)
     <> Ok (PreviewError "Invalid repository ID").
Proof.
  intros Hmock Hrun.
  pose proof (get_restore_preview_resolves w repo_id backup_id s vs Hmock Hrun) as Hres.
  pose proof (find_in_ids vs backup_id) as Hids.
  destruct (find (fun v => String.eqb (v_id v) backup_id) vs) as [v |].
  - destruct Hres as (org & project & repo & Hres). rewrite Hres.
    split; [eauto 6 | split; [| discriminate]].
    intros Hno. exfalso. apply Hno, Hids. eauto.
  - rewrite Hres. split; [| split; [reflexivity | discriminate]].
    intros Hin. apply Hids in Hin. destruct Hin as [v Hv]. discriminate.
Qed.

Lemma preview_fails_only_when_unlisted_witness :
  (In "acme-ProjectX-svc-a-2025-03-03"
     (map v_id (reported (list_backup_versions (calm_world account_env scenario_blobs)
                            "acme-ProjectX-svc-a" init))) ->
   exists org project repo backup_timestamp backup_size_mb,
     fst (get_restore_preview (calm_world account_env scenario_blobs)
            "acme-ProjectX-svc-a" "acme-ProjectX-svc-a-2025-03-03" init)
     = Ok (Preview org project repo backup_timestamp backup_size_mb repo))
  /\ (~ In "acme-ProjectX-svc-a-2025-03-03"
          (map v_id (reported (list_backup_versions (calm_world account_env scenario_blobs)
                                 "acme-ProjectX-svc-a" init))) ->
      fst (get_restore_preview (calm_world account_env scenario_blobs)
             "acme-ProjectX-svc-a" "acme-ProjectX-svc-a-2025-03-03" init)
      = Ok (PreviewError "Backup not found"))
  /\ fst (get_restore_preview (calm_world account_env scenario_blobs)
            "acme-ProjectX-svc-a" "acme-ProjectX-svc-a-2025-03-03" init)
     <> Ok (PreviewError "Invalid repository ID").
Proof.
  apply (preview_fails_only_when_unlisted (calm_world account_env scenario_blobs)
           "acme-ProjectX-svc-a" "acme-ProjectX-svc-a-2025-03-03" init);
    [reflexivity | vm_compute; reflexivity].
Defined.

(** ** The views *)

(** X16.  A view whose request lacks a required field, or carries it
    empty, answers 400 with its error message and does not call the
    service: nothing is listed, posted, printed or read from the
    clock. *)
Theorem views_reject_missing_fields (w : World) (request_data : Api.RequestData)
  (repo_id : string) (s : state) :
  (nonempty (request_data "backup_id") = None ->
   Api.RestorePreviewView_post w request_data repo_id s
   = (Ok (Api.mk_Response 400 (PreviewError "backup_id is required")), s)
   /\ Api.DownloadLinkView_post w request_data repo_id s
      = (Ok (Api.mk_Response 400 (Api.ErrorBody "backup_id is required")), s))
  /\ ((exists k, In k ["backup_id"; "target_org"; "target_project"; "target_repo_name"]
                 /\ nonempty (request_data k) = None) ->
      Api.RestoreView_post w request_data repo_id s
      = (Ok (Api.mk_Response 400 (Api.ErrorBody fields_required)), s)).
Proof.
  split.
  - intros Hmissing. unfold Api.RestorePreviewView_post, Api.DownloadLinkView_post.
    rewrite Hmissing. split; reflexivity.
  - intros (k & Hk & Hmissing). unfold Api.RestoreView_post.
    cbn [In] in Hk.
    destruct Hk as [<- | [<- | [<- | [<- | []]]]]; rewrite Hmissing;
      repeat match goal with
             | |- context [match nonempty ?x with _ => _ end] => destruct (nonempty x)
             end; reflexivity.
Qed.

Lemma views_reject_missing_fields_witness :
  Api.RestoreView_post (calm_world token_env scenario_blobs)
    (request_of [("backup_id", "acme-ProjectX-svc-a-2025-03-02"); ("target_org", "acme");
                 ("target_project", ""); ("target_repo_name", "svc-a")])
    "acme-ProjectX-svc-a" init
  = (Ok (Api.mk_Response 400 (Api.ErrorBody fields_required)), init).
Proof.
  apply (proj2 (views_reject_missing_fields (calm_world token_env scenario_blobs)
                  (request_of [("backup_id", "acme-ProjectX-svc-a-2025-03-02");
                               ("target_org", "acme"); ("target_project", "");
                               ("target_repo_name", "svc-a")])
                  "acme-ProjectX-svc-a" init)).
  exists "target_project". split; [cbn; auto | reflexivity].
Defined.

(** X17.  The restore view answers 200 exactly when the restore
    succeeded, with the outcome as body.  Every failure (an unresolved
    link, a missing token, a conflict at the destination host, a refused
    or broken request) is answered 400; the view never answers with
    another status. *)
Theorem restore_view_answers (w : World) (request_data : Api.RequestData)
  (repo_id : string) (s s' : state) (resp : Api.Response (Api.Body RestoreOutcome)) :
  Api.RestoreView_post w request_data repo_id s = (Ok resp, s') ->
  (Api.status resp = 200%Z
   /\ exists message repo_url repo_id_ado download_url,
       Api.data resp = Api.Payload (Success message repo_url repo_id_ado download_url))
  \/ (Api.status resp = 400%Z
      /\ ((exists message, Api.data resp = Api.Payload (Error message))
          \/ (Api.data resp = Api.ErrorBody fields_required /\ s' = s))).
Proof.
  unfold Api.RestoreView_post.
  destruct (nonempty (request_data "backup_id")) as [backup_id |];
    [| intros H; injection H as <- <-; right; auto].
  destruct (nonempty (request_data "target_org")) as [org |];
    [| intros H; injection H as <- <-; right; auto].
  destruct (nonempty (request_data "target_project")) as [project |];
    [| intros H; injection H as <- <-; right; auto].
  destruct (nonempty (request_data "target_repo_name")) as [repo |];
    [| intros H; injection H as <- <-; right; auto].
  cbn [bind M_Monad].
  destruct (restore_to_azure_devops w repo_id backup_id org project repo _ s)
    as [[[message repo_url repo_id_ado download_url | message] | e] s1];
    [| | discriminate]; intros H; injection H as <- <-.
  - left. split; [reflexivity |]. do 4 eexists. reflexivity.
  - right. split; [reflexivity |]. left. eexists. reflexivity.
Qed.

Lemma restore_view_answers_witness :
  (Api.status (Api.mk_Response 400 (Api.Payload (Error (conflict "svc-a" "Dest")))) = 200%Z
   /\ exists message repo_url repo_id_ado download_url,
       Api.data (Api.mk_Response 400 (Api.Payload (Error (conflict "svc-a" "Dest"))))
       = Api.Payload (Success message repo_url repo_id_ado download_url))
  \/ (Api.status (Api.mk_Response 400 (Api.Payload (Error (conflict "svc-a" "Dest")))) = 400%Z
      /\ ((exists message,
              Api.data (Api.mk_Response 400 (Api.Payload (Error (conflict "svc-a" "Dest"))))
              = Api.Payload (Error message))
          \/ (Api.data (Api.mk_Response 400 (Api.Payload (Error (conflict "svc-a" "Dest"))))
              = Api.ErrorBody fields_required
              /\ snd (Api.RestoreView_post conflict_world
                        (request_of [("backup_id", "acme-ProjectX-svc-a-2025-03-02");
                                     ("target_org", "acme"); ("target_project", "Dest");
                                     ("target_repo_name", "svc-a")])
                        "acme-ProjectX-svc-a" init) = init))).
Proof.
  apply (restore_view_answers conflict_world
           (request_of [("backup_id", "acme-ProjectX-svc-a-2025-03-02");
                        ("target_org", "acme"); ("target_project", "Dest");
                        ("target_repo_name", "svc-a")])
           "acme-ProjectX-svc-a" init).
  vm_compute. reflexivity.
Defined.

(** X18.  Outside mock mode, with a storage client, the link view and
    the preview view agree on a requested id.  When the version lister
    reports it, the preview view answers 200, and so does the link view
    whenever it answers; otherwise the preview view answers 404
    "Backup not found" and the link view 500
    "Failed to generate download link". *)
Theorem views_agree_on_listed_ids (w : World) (client : BlobServiceClient)
  (request_data : Api.RequestData) (repo_id backup_id : string) (s : state)
  (vs : list BackupVersion) :
  MOCK_MODE (environ w) = false ->
  _get_storage_client w = Ok (Some client) ->
  nonempty (request_data "backup_id") = Some backup_id ->
  fst (list_backup_versions w repo_id s) = Ok vs ->
  exists preview,
    fst (Api.RestorePreviewView_post w request_data repo_id s) = Ok preview
    /\ (In backup_id (map v_id vs) ->
        Api.status preview = 200%Z
        /\ forall link,
            fst (Api.DownloadLinkView_post w request_data repo_id s) = Ok link ->
            Api.status link = 200%Z)
    /\ (~ In backup_id (map v_id vs) ->
        preview = Api.mk_Response 404 (PreviewError "Backup not found")
        /\ fst (Api.DownloadLinkView_post w request_data repo_id s)
           = Ok (Api.mk_Response 500 (Api.ErrorBody "Failed to generate download link"))).
Proof.
  intros Hmock Hclient Hfield Hrun.
  pose proof (get_download_link_resolves w client repo_id backup_id s vs Hmock Hclient Hrun)
    as Hlink.
  pose proof (get_restore_preview_resolves w repo_id backup_id s vs Hmock Hrun) as Hpreview.
  pose proof (find_in_ids vs backup_id) as Hids.
  pose proof (get_download_link_issued w repo_id backup_id s) as Hissued.
  unfold Api.DownloadLinkView_post, Api.RestorePreviewView_post. rewrite Hfield.
  cbn [bind M_Monad].
  destruct (get_restore_preview w repo_id backup_id s) as [[p | e] s2]; cbn [fst] in *.
  2: { destruct (find _ vs); [destruct Hpreview as (o1 & o2 & o3 & Hp) |]; discriminate. }
  destruct (find (fun v => String.eqb (v_id v) backup_id) vs) as [v |].
  - destruct Hpreview as (org & project & repo & Hp). injection Hp as ->.
    eexists. split; [reflexivity |]. split.
    + intros _. split; [reflexivity |].
      destruct (get_download_link w repo_id backup_id s) as [[o | e] s1];
        cbn [fst] in *; [| discriminate].
      destruct (Hlink o eq_refl) as (u & -> & _).
      specialize (Hissued _ _ eq_refl u eq_refl). cbn [nonempty]. rewrite Hissued.
      intros link Heq. injection Heq as <-. reflexivity.
    + intros Hno. exfalso. apply Hno, Hids. eauto.
  - injection Hpreview as ->.
    eexists. split; [reflexivity |]. split.
    + intros Hin. apply Hids in Hin. destruct Hin as [v Hv]. discriminate.
    + intros _. split; [reflexivity |].
      destruct (get_download_link w repo_id backup_id s) as [[o | e] s1];
        cbn [fst] in *; [| discriminate].
      injection Hlink as ->. reflexivity.
Qed.

Lemma views_agree_on_listed_ids_witness :
  exists preview,
    fst (Api.RestorePreviewView_post (calm_world key_env scenario_blobs)
           (request_of [("backup_id", "acme-ProjectX-svc-a-2025-03-02")])
           "acme-ProjectX-svc-a" init) = Ok preview
    /\ (In "acme-ProjectX-svc-a-2025-03-02"
          (map v_id (reported (list_backup_versions (calm_world key_env scenario_blobs)
                                 "acme-ProjectX-svc-a" init))) ->
        Api.status preview = 200%Z
        /\ forall link,
            fst (Api.DownloadLinkView_post (calm_world key_env scenario_blobs)
                   (request_of [("backup_id", "acme-ProjectX-svc-a-2025-03-02")])
                   "acme-ProjectX-svc-a" init) = Ok link ->
            Api.status link = 200%Z)
    /\ (~ In "acme-ProjectX-svc-a-2025-03-02"
            (map v_id (reported (list_backup_versions (calm_world key_env scenario_blobs)
                                   "acme-ProjectX-svc-a" init))) ->
        preview = Api.mk_Response 404 (PreviewError "Backup not found")
        /\ fst (Api.DownloadLinkView_post (calm_world key_env scenario_blobs)
                  (request_of [("backup_id", "acme-ProjectX-svc-a-2025-03-02")])
                  "acme-ProjectX-svc-a" init)
           = Ok (Api.mk_Response 500 (Api.ErrorBody "Failed to generate download link"))).
Proof.
  apply (views_agree_on_listed_ids (calm_world key_env scenario_blobs)
           (mk_BlobServiceClient "https://acct.blob.core.windows.net")
           (request_of [("backup_id", "acme-ProjectX-svc-a-2025-03-02")])
           "acme-ProjectX-svc-a" "acme-ProjectX-svc-a-2025-03-02" init);
    [reflexivity | reflexivity | reflexivity | vm_compute; reflexivity].
Defined.

(** ** The connection string *)

Lemma split_join (c : ascii) (parts : list string) :
  parts <> [] ->
  Forall (fun p => Py.contains c p = false) parts ->
  Py.split c (Py.join (String c "") parts) = parts.
Proof.
  intros Hne Hclean. induction Hclean as [| p ps Hp Hps IH]; [congruence |].
  destruct ps as [| q ps].
  - cbn [Py.join]. apply split_without. exact Hp.
  - change (Py.join (String c "") (p :: q :: ps))
      with (p ++ String c (Py.join (String c "") (q :: ps))).
    rewrite (split_segment c p _ Hp), IH by discriminate. reflexivity.
Qed.

Lemma conn_lookup_settings (settings : list (string * string)) (key : string) :
  Forall writable settings ->
  forall found,
    conn_lookup (map (fun kv => fst kv ++ "=" ++ snd kv) settings) key found
    = fold_left (fun found kv => if String.eqb (fst kv) key then snd kv else found)
        settings found.
Proof.
  induction 1 as [| [k v] settings (_ & Hk & _) _ IH]; intros found; [reflexivity |].
  cbn [map conn_lookup fold_left fst snd] in *.
  change (k ++ "=" ++ v) with (k ++ String "=" v).
  rewrite contains_append.
  change (Py.contains "=" (String "=" v)) with true. rewrite orb_true_r.
  rewrite (split_max_segment "=" k v 0 Hk), split_max_zero. apply IH.
Qed.

(** X19.  Reading a connection string gives the settings back: for
    settings whose names hold neither [;] nor [=] and whose values hold
    no [;], the value read for a key is that of the last setting with
    this name, whole even when it holds [=] (as the padding of an
    account key does), and the empty string when there is none. *)
Theorem conn_get_reads_last_binding (settings : list (string * string)) (key : string) :
  Forall writable settings ->
  conn_get (conn_string settings) key = last_binding settings key.
Proof.
  intros Hall. unfold conn_get, conn_string, last_binding.
  destruct settings as [| kv settings]; [reflexivity |].
  rewrite split_join.
  - apply conn_lookup_settings. exact Hall.
  - discriminate.
  - apply Forall_map. eapply Forall_impl; [| exact Hall].
    intros [k v] (Hk & _ & Hv). cbn [fst snd] in *.
    rewrite !contains_append, Hk, Hv. reflexivity.
Qed.

Lemma conn_get_reads_last_binding_witness :
  conn_get (conn_string [("DefaultEndpointsProtocol", "https"); ("AccountName", "acct");
                         ("AccountKey", "c2VjcmV0a2V5MQ=="); ("AccountKey", "a2V5Mg==");
                         ("EndpointSuffix", "core.windows.net")])
    "AccountKey"
  = last_binding [("DefaultEndpointsProtocol", "https"); ("AccountName", "acct");
                  ("AccountKey", "c2VjcmV0a2V5MQ=="); ("AccountKey", "a2V5Mg==");
                  ("EndpointSuffix", "core.windows.net")]
      "AccountKey".
Proof.
  apply (conn_get_reads_last_binding
           [("DefaultEndpointsProtocol", "https"); ("AccountName", "acct");
            ("AccountKey", "c2VjcmV0a2V5MQ=="); ("AccountKey", "a2V5Mg==");
            ("EndpointSuffix", "core.windows.net")]
           "AccountKey").
  repeat constructor.
Defined.

(** ** The menu registry *)

Lemma issubset_valid (m : Menu.definition) :
  Menu.issubset Menu.required_keys m = true <-> menu_valid m.
Proof.
  unfold Menu.issubset, Menu.required_keys, menu_valid.
  rewrite forallb_forall. unfold Menu.has_key.
  split; intros H k Hk; specialize (H k Hk).
  - destruct (members_lookup m k) as [v |]; [eauto | discriminate].
  - destruct H as [v ->]. reflexivity.
Qed.

Lemma register_each_accepted (ms : list Menu.definition) :
  forall reg,
    register_each ms reg
    = (reg ++ filter (Menu.issubset Menu.required_keys) ms)%list.
Proof.
  induction ms as [| m ms IH]; intros reg; cbn [register_each filter].
  - rewrite app_nil_r. reflexivity.
  - rewrite IH. unfold Menu.register_module_menu.
    destruct (Menu.issubset Menu.required_keys m); cbn [negb snd].
    + rewrite <- app_assoc. reflexivity.
    + reflexivity.
Qed.

(** X21.  A registration is accepted exactly when the definition binds
    [id], [title] and [routes] (other keys are allowed); a rejected one
    raises and leaves the registry as it was.  After any sequence of
    registrations the registry is the initial one followed by the
    accepted definitions in the order of the calls, a definition
    registered twice being listed twice; so every listed menu binds the
    three keys, if those of the initial registry did. *)
Theorem registry_lists_accepted_menus (ms : list Menu.definition) (reg : Menu.registry) :
  (forall m r,
      (menu_valid m ->
       Menu.register_module_menu m r = (Ok tt, (r ++ [m])%list))
      /\ (~ menu_valid m ->
          Menu.register_module_menu m r
          = (Raise "Menu definition missing required keys", r)))
  /\ Menu.get_registered_menus (register_each ms reg)
     = (reg ++ filter (Menu.issubset Menu.required_keys) ms)%list
  /\ (Forall menu_valid reg ->
      Forall menu_valid (Menu.get_registered_menus (register_each ms reg))).
Proof.
  split; [| split].
  - intros m r. unfold Menu.register_module_menu.
    pose proof (issubset_valid m) as Hiff.
    destruct (Menu.issubset Menu.required_keys m); cbn [negb]; split; intros H.
    + reflexivity.
    + exfalso. apply H, Hiff. reflexivity.
    + apply Hiff in H. discriminate.
    + reflexivity.
  - apply register_each_accepted.
  - intros Hreg. unfold Menu.get_registered_menus. rewrite register_each_accepted.
    apply Forall_app. split; [exact Hreg |].
    apply Forall_forall. intros m Hm. apply filter_In in Hm.
    apply issubset_valid. tauto.
Qed.

Lemma registry_lists_accepted_menus_witness :
  Menu.get_registered_menus
    (register_each [Menu.backups_menu; [("id", JStr "broken")]; Menu.firewall_menu;
                    Menu.log_analytics_menu; Menu.backups_menu] [])
  = ([] ++ filter (Menu.issubset Menu.required_keys)
             [Menu.backups_menu; [("id", JStr "broken")]; Menu.firewall_menu;
              Menu.log_analytics_menu; Menu.backups_menu])%list.
Proof.
  apply (proj1 (proj2 (registry_lists_accepted_menus
                         [Menu.backups_menu; [("id", JStr "broken")]; Menu.firewall_menu;
                          Menu.log_analytics_menu; Menu.backups_menu] []))).
Defined.

(** ** Mock mode *)

(** X22.  In mock mode the service consults nothing but the environment
    and the clock: two worlds that agree on these give the same answers
    and the same final state, whatever their storage SDK and HTTP
    library do, and no event is logged.  The catalog is the fixed one,
    a link is returned for any backup id, and a restore succeeds with
    neither a repository id nor a download URL. *)
Theorem mock_mode_ignores_collaborators (w w' : World)
  (repo_id backup_id org project repo visibility : string) (s : state) :
  MOCK_MODE (environ w) = true ->
  environ w' = environ w -> clock w' = clock w ->
  (list_repositories w' s = list_repositories w s
   /\ list_backup_versions w' repo_id s = list_backup_versions w repo_id s
   /\ get_download_link w' repo_id backup_id s = get_download_link w repo_id backup_id s
   /\ get_restore_preview w' repo_id backup_id s = get_restore_preview w repo_id backup_id s
   /\ restore_to_azure_devops w' repo_id backup_id org project repo visibility s
      = restore_to_azure_devops w repo_id backup_id org project repo visibility s)
  /\ list_repositories w s = (Ok _get_mock_repositories, s)
  /\ log (snd (list_backup_versions w repo_id s)) = log s
  /\ get_download_link w repo_id backup_id s
     = (Ok (Some ("https://mock-storage.example.com/download/" ++ backup_id ++ "?mock=true")),
        s)
  /\ log (snd (get_restore_preview w repo_id backup_id s)) = log s
  /\ exists message repo_url,
      restore_to_azure_devops w repo_id backup_id org project repo visibility s
      = (Ok (Success message repo_url None None), s).
Proof.
  intros Hmock Henv Hclock.
  assert (Hversions : list_backup_versions w' repo_id s = list_backup_versions w repo_id s).
  { unfold list_backup_versions, _get_mock_backup_versions, utcnow.
    rewrite Henv, Hclock, Hmock. reflexivity. }
  assert (Hlog : log (snd (list_backup_versions w repo_id s)) = log s).
  { unfold list_backup_versions, _get_mock_backup_versions, utcnow, lift.
    rewrite Hmock. cbn [bind M_Monad].
    destruct (for_each _ _ _); reflexivity. }
  split; [| split; [| split; [| split; [| split]]]].
  - split; [| split; [| split; [| split]]].
    + unfold list_repositories. rewrite Henv, Hmock. reflexivity.
    + exact Hversions.
    + unfold get_download_link. rewrite Henv, Hmock. reflexivity.
    + unfold get_restore_preview. cbn [bind M_Monad]. rewrite Hversions. reflexivity.
    + unfold restore_to_azure_devops. rewrite Henv, Hmock. reflexivity.
  - unfold list_repositories. rewrite Hmock. reflexivity.
  - exact Hlog.
  - unfold get_download_link. rewrite Hmock. reflexivity.
  - unfold get_restore_preview. cbn [bind M_Monad].
    destruct (list_backup_versions w repo_id s) as [[vs | e] s1]; cbn [snd] in *;
      [| exact Hlog].
    destruct (find _ vs); [| exact Hlog].
    destruct (Py.split_max "-" repo_id 2) as [| o [| p [| r rest]]]; exact Hlog.
  - unfold restore_to_azure_devops. rewrite Hmock. do 2 eexists. reflexivity.
Qed.

Lemma mock_mode_ignores_collaborators_witness :
  list_repositories mock_world init
  = list_repositories
      (calm_world (env_of [("DJANGO_BACKUPS_MOCK", "True")]) scenario_blobs) init
  /\ restore_to_azure_devops mock_world "acme-ProjectX-svc-a"
       "acme-ProjectX-svc-a-2025-03-02" "acme" "Dest" "svc-a" "private" init
     = restore_to_azure_devops
         (calm_world (env_of [("DJANGO_BACKUPS_MOCK", "True")]) scenario_blobs)
         "acme-ProjectX-svc-a" "acme-ProjectX-svc-a-2025-03-02" "acme" "Dest" "svc-a"
         "private" init.
Proof.
  destruct (mock_mode_ignores_collaborators
              (calm_world (env_of [("DJANGO_BACKUPS_MOCK", "True")]) scenario_blobs)
              mock_world "acme-ProjectX-svc-a" "acme-ProjectX-svc-a-2025-03-02"
              "acme" "Dest" "svc-a" "private" init)
    as ((Hcatalog & _ & _ & _ & Hrestore) & _).
  - reflexivity.
  - reflexivity.
  - reflexivity.
  - split; assumption.
Defined.

(** ** A listing of versions that breaks *)

Lemma versions_step_log (w : World) (repo_id : string) (acc : list BackupVersion)
  (b : Blob) (s : state) :
  log (snd (versions_step w repo_id acc b s)) = log s.
Proof.
  unfold versions_step.
  destruct (negb _); [reflexivity |].
  destruct (_parse_blob_path (environ w) (name b)) as [[| kv parsed] |]; try reflexivity.
  unfold version_of, utcnow, lift.
  destruct (last_modified b) as [t |]; cbn [bind ret M_Monad].
  - destruct (PyTime.add_days t 90); reflexivity.
  - reflexivity.
Qed.

Lemma versions_loop_log (w : World) (repo_id : string) (blobs : list Blob) :
  forall (acc : list BackupVersion) (s : state),
    log (snd (for_each blobs acc (versions_step w repo_id) s)) = log s.
Proof.
  induction blobs as [| b blobs IH]; intros acc s; [reflexivity |].
  cbn [for_each bind M_Monad].
  pose proof (versions_step_log w repo_id acc b s) as Hstep.
  destruct (versions_step w repo_id acc b s) as [[acc1 | e] s1]; cbn [snd] in *.
  - rewrite IH. exact Hstep.
  - exact Hstep.
Qed.

(** What the version loop ends with: the first retention date out of
    range, if there is one. *)
Lemma first_failure_split (env : Environ) (blobs : list Blob) (listing_failure : option exn) :
  first_failure env blobs listing_failure
  = match first_failure env blobs None with
    | Some e => Some e
    | None => listing_failure
    end.
Proof.
  induction blobs as [| b blobs IH]; cbn [first_failure]; [reflexivity |].
  destruct (survives env b); [| exact IH].
  destruct (retention_failure b); [reflexivity | exact IH].
Qed.

Lemma versions_step_outcome (w : World) (repo_id : string) (acc : list BackupVersion)
  (b : Blob) (s : state) :
  first_failure (environ w) [b] None
  = match fst (versions_step w repo_id acc b s) with
    | Ok _ => None
    | Raise e => Some e
    end.
Proof.
  cbn [first_failure]. unfold versions_step, survives.
  destruct (Py.endswith (name b) ".zip"); cbn [negb andb]; [| reflexivity].
  destruct (_parse_blob_path (environ w) (name b)) as [[| kv parsed] |]; try reflexivity.
  unfold retention_failure, version_of, utcnow, lift.
  destruct (last_modified b) as [t |]; cbn [bind ret M_Monad fst]; [| reflexivity].
  destruct (PyTime.add_days t 90); reflexivity.
Qed.

Lemma versions_loop_outcome (w : World) (repo_id : string) (blobs : list Blob) :
  forall (acc : list BackupVersion) (s : state),
    first_failure (environ w) blobs None
    = match fst (for_each blobs acc (versions_step w repo_id) s) with
      | Ok _ => None
      | Raise e => Some e
      end.
Proof.
  induction blobs as [| b blobs IH]; intros acc s; [reflexivity |].
  pose proof (versions_step_outcome w repo_id acc b s) as Hstep.
  cbn [first_failure] in *. cbn [for_each bind M_Monad].
  destruct (versions_step w repo_id acc b s) as [[acc1 | e] s1]; cbn [fst] in *.
  - destruct (survives (environ w) b).
    + destruct (retention_failure b); [discriminate | apply IH].
    + apply IH.
  - destruct (survives (environ w) b); [| discriminate].
    destruct (retention_failure b); [exact Hstep | discriminate].
Qed.

(** X23.  When listing a repository's archives goes wrong, the version
    lister returns the empty list, not the versions collected so far; it
    prints "Error listing backup versions: " and the cause, raises
    nothing, and has made at most one listing request.  The cause is the
    first retention date that leaves the calendar among the archives
    yielded, or else the failure of the listing itself; a container
    client that cannot be obtained is answered in the same way. *)
Theorem versions_listing_failure (w : World) (client : BlobServiceClient)
  (repo_id org project repo : string) (rest : list string) (s : state) :
  MOCK_MODE (environ w) = false ->
  _get_storage_client w = Ok (Some client) ->
  Py.split_max "-" repo_id 2 = org :: project :: repo :: rest ->
  (forall cc e,
      get_container_client w client (container_of (environ w)) = Ok cc ->
      first_failure (environ w)
        (yielded (list_blobs w cc (blob_prefix_of (environ w) org project repo)))
        (failure (list_blobs w cc (blob_prefix_of (environ w) org project repo)))
      = Some e ->
      fst (list_backup_versions w repo_id s) = Ok []
      /\ log (snd (list_backup_versions w repo_id s))
         = (log s ++ [EvListBlobs (container_name_of cc)
                        (blob_prefix_of (environ w) org project repo);
                      EvPrint ("Error listing backup versions: " ++ e)])%list)
  /\ (forall e,
         get_container_client w client (container_of (environ w)) = Raise e ->
         list_backup_versions w repo_id s
         = (Ok [], logged s [EvPrint ("Error listing backup versions: " ++ e)])).
Proof.
  intros Hmock Hclient Hsplit. split.
  - intros cc e Hcc Hcause.
    rewrite (list_backup_versions_listing w client repo_id org project repo rest s
               Hmock Hclient Hsplit), Hcc.
    match goal with
    | |- context [for_each ?xs [] ?f ?st] =>
        pose proof (versions_loop_log w repo_id xs [] st) as Hlog;
        pose proof (versions_loop_outcome w repo_id xs [] st) as Hout;
        destruct (for_each xs [] f st) as [[pre | e1] s1]
    end; cbn [snd fst logged log] in *.
    + rewrite (first_failure_split _ _ _) in Hcause. rewrite Hout in Hcause.
      rewrite Hcause. cbn [fst snd logged log].
      split; [reflexivity |]. rewrite Hlog, <- app_assoc. reflexivity.
    + rewrite (first_failure_split _ _ _) in Hcause. rewrite Hout in Hcause.
      injection Hcause as ->. cbn [fst snd logged log].
      split; [reflexivity |]. rewrite Hlog, <- app_assoc. reflexivity.
  - intros e Hcc.
    rewrite (list_backup_versions_listing w client repo_id org project repo rest s
               Hmock Hclient Hsplit), Hcc. reflexivity.
Qed.

Lemma versions_listing_failure_witness :
  fst (list_backup_versions (calm_world account_env late_blobs) "acme-ProjectX-svc-a" init)
  = Ok []
  /\ log (snd (list_backup_versions (calm_world account_env late_blobs)
                 "acme-ProjectX-svc-a" init))
     = (log init ++ [EvListBlobs "git-backups" "acme/ProjectX/svc-a/";
                     EvPrint ("Error listing backup versions: "
                                ++ "date value out of range")])%list.
Proof.
  apply (proj1 (versions_listing_failure (calm_world account_env late_blobs)
                  (mk_BlobServiceClient "https://acct.blob.core.windows.net")
                  "acme-ProjectX-svc-a" "acme" "ProjectX" "svc-a" [] init
                  eq_refl eq_refl eq_refl)
           (mk_ContainerClient "git-backups") "date value out of range");
    [reflexivity | vm_compute; reflexivity].
Defined.
